(** * Content-Authenticity-Verifier: the multi-signal scoring engine

    A shallow embedding of [js/textAnalyzer.js] ([TextAnalyzer]), of the image
    analyzer module ([ImageAnalyzer]) and of the verdict banding of the
    result renderers, followed by the properties of the scoring engine.

    Conventions of the embedding.
    - A JavaScript number is a [jsnum]: an exact rational, an infinity or
      NaN.  Arithmetic is exact; the rounding error of IEEE doubles is not
      modelled.  [Math.sqrt] is only ever consumed by [Math.round], and the
      pair is evaluated exactly with the integer square root.
    - A JavaScript string is a [string] of code units below 256.
    - [fetch] answers from a script: the list of outcomes the remote service
      will give, one per request, in order.  A remote call returns its
      result together with the requests and timer waits it performed.
    - [try { ... } catch { return null }] is the [option] type. *)

From Stdlib Require Import ZArith QArith Qround Lia Lqa Bool List.
From Stdlib Require Import Ascii String DecimalString.
Import ListNotations.

Local Open Scope string_scope.
Local Open Scope list_scope.
Local Open Scope Z_scope.
Local Open Scope Q_scope.

(* ====================================================================== *)
(** ** JavaScript numbers *)
(* ====================================================================== *)

Module JsNum.

Inductive jsnum : Type :=
| Fin (q : Q)
| PInf
| NInf
| NaN.

Definition of_Z (z : Z) : jsnum := Fin (inject_Z z).
Definition of_nat (n : nat) : jsnum := of_Z (Z.of_nat n).

(** The infinity (or NaN) selected by the sign of a finite operand. *)
Definition signed_inf (c : comparison) : jsnum :=
  match c with Gt => PInf | Lt => NInf | Eq => NaN end.

Definition neg (a : jsnum) : jsnum :=
  match a with
  | Fin x => Fin (- x)
  | PInf => NInf
  | NInf => PInf
  | NaN => NaN
  end.

Definition add (a b : jsnum) : jsnum :=
  match a, b with
  | NaN, _ | _, NaN => NaN
  | Fin x, Fin y => Fin (x + y)
  | PInf, NInf | NInf, PInf => NaN
  | PInf, _ | _, PInf => PInf
  | NInf, _ | _, NInf => NInf
  end.

Definition sub (a b : jsnum) : jsnum := add a (neg b).

Definition mul (a b : jsnum) : jsnum :=
  match a, b with
  | NaN, _ | _, NaN => NaN
  | Fin x, Fin y => Fin (x * y)
  | Fin x, PInf | PInf, Fin x => signed_inf (x ?= 0)
  | Fin x, NInf | NInf, Fin x => signed_inf (0 ?= x)
  | PInf, PInf | NInf, NInf => PInf
  | PInf, NInf | NInf, PInf => NInf
  end.

(** Division; the divisors of the program are array lengths, so a zero
    divisor is the positive zero. *)
Definition div (a b : jsnum) : jsnum :=
  match a, b with
  | NaN, _ | _, NaN => NaN
  | Fin x, Fin y => if Qeq_bool y 0 then signed_inf (x ?= 0) else Fin (x / y)
  | Fin _, (PInf | NInf) => Fin 0
  | PInf, Fin y => match y ?= 0 with Lt => NInf | _ => PInf end
  | NInf, Fin y => match y ?= 0 with Lt => PInf | _ => NInf end
  | (PInf | NInf), (PInf | NInf) => NaN
  end.

(** [a < b]; every comparison with NaN is false. *)
Definition lt (a b : jsnum) : bool :=
  match a, b with
  | NaN, _ | _, NaN => false
  | Fin x, Fin y => match x ?= y with Lt => true | _ => false end
  | NInf, NInf => false
  | NInf, _ => true
  | _, PInf => match a with PInf => false | _ => true end
  | _, _ => false
  end.

Definition gt (a b : jsnum) : bool := lt b a.

(** [Math.min] and [Math.max] of two arguments. *)
Definition min (a b : jsnum) : jsnum :=
  match a, b with
  | NaN, _ | _, NaN => NaN
  | _, _ => if lt b a then b else a
  end.

Definition max (a b : jsnum) : jsnum :=
  match a, b with
  | NaN, _ | _, NaN => NaN
  | _, _ => if lt a b then b else a
  end.

(** [Math.round]: the integer nearest to the argument, a tie going up. *)
Definition round (a : jsnum) : jsnum :=
  match a with
  | Fin x => of_Z (Qfloor (x + (1 # 2)))
  | _ => a
  end.

Definition pow2 (a : jsnum) : jsnum := mul a a.

(** The value of [Math.sqrt(radicand)], kept as its radicand. *)
Record surd : Type := Sqrt { radicand : jsnum }.

(** [Math.round(s * c)] for a positive integer constant [c]:
    [floor (c * sqrt q + 1/2) = (floor (sqrt (4 c^2 q)) + 1) / 2]. *)
Definition round_scaled (c : Z) (s : surd) : jsnum :=
  match radicand s with
  | Fin q =>
      match q ?= 0 with
      | Lt => NaN
      | _ => of_Z ((Z.sqrt (Qfloor (inject_Z (4 * c * c) * q)) + 1) / 2)
      end
  | PInf => PInf
  | NInf | NaN => NaN
  end.

(** [Math.round(Math.min(s * c, cap))] for positive integer constants. *)
Definition round_min_scaled (c cap : Z) (s : surd) : jsnum :=
  match radicand s with
  | Fin q =>
      match q ?= 0 with
      | Lt => NaN
      | _ =>
          match inject_Z (cap * cap) ?= inject_Z (c * c) * q with
          | Lt => round (of_Z cap)
          | _ => round_scaled c s
          end
      end
  | PInf => round (of_Z cap)
  | NInf | NaN => NaN
  end.

(** [arr.reduce((a, b) => a + b, 0)]. *)
Definition sum (l : list jsnum) : jsnum := fold_left add l (of_Z 0).

Definition is_finite (a : jsnum) : bool :=
  match a with Fin _ => true | _ => false end.

Definition is_nan (a : jsnum) : bool :=
  match a with NaN => true | _ => false end.

End JsNum.
Import JsNum.

(* ====================================================================== *)
(** ** JavaScript strings *)
(* ====================================================================== *)

Module JsString.

Definition code (c : ascii) : nat := nat_of_ascii c.

Definition in_range (lo hi : nat) (c : ascii) : bool :=
  (lo <=? code c)%nat && (code c <=? hi)%nat.

(** The class [\s] on code units below 256. *)
Definition is_space (c : ascii) : bool :=
  in_range 9 13 c || (code c =? 32)%nat || (code c =? 160)%nat.

(** [a-z], [A-Z], and the word class [\w]. *)
Definition is_lower (c : ascii) : bool := in_range 97 122 c.
Definition is_upper (c : ascii) : bool := in_range 65 90 c.
Definition is_letter (c : ascii) : bool := is_lower c || is_upper c.
Definition is_digit (c : ascii) : bool := in_range 48 57 c.
Definition is_word_char (c : ascii) : bool :=
  is_letter c || is_digit c || (code c =? 95)%nat.

(** Line terminators, which [.] does not match. *)
Definition is_line_terminator (c : ascii) : bool :=
  (code c =? 10)%nat || (code c =? 13)%nat.

(** [toLowerCase] on one code unit: A-Z and the upper-case letters of
    Latin-1 (192..222 but the multiplication sign 215). *)
Definition lower_char (c : ascii) : ascii :=
  if is_upper c || (in_range 192 222 c && negb (code c =? 215)%nat)
  then ascii_of_nat (code c + 32)
  else c.

(** Case folding of the [i] flag for the ASCII letters of a pattern. *)
Definition fold_char (c : ascii) : ascii :=
  if is_upper c then ascii_of_nat (code c + 32) else c.

Fixpoint map_chars (f : ascii -> ascii) (s : string) : string :=
  match s with
  | EmptyString => EmptyString
  | String c s' => String (f c) (map_chars f s')
  end.

Fixpoint filter_chars (p : ascii -> bool) (s : string) : string :=
  match s with
  | EmptyString => EmptyString
  | String c s' => if p c then String c (filter_chars p s') else filter_chars p s'
  end.

Fixpoint exists_char (p : ascii -> bool) (s : string) : bool :=
  match s with
  | EmptyString => false
  | String c s' => p c || exists_char p s'
  end.


Definition toLowerCase (s : string) : string := map_chars lower_char s.

Definition is_empty (s : string) : bool :=
  match s with EmptyString => true | _ => false end.

(** [s.split(/[sep]+/)]: the pieces between maximal runs of separators.
    [cur] is the piece being read, [insep] tells that the last code unit
    was a separator. *)
Fixpoint split_go (sep : ascii -> bool) (s : string) (cur : string)
    (insep : bool) : list string :=
  match s with
  | EmptyString => [cur]
  | String c s' =>
      if sep c
      then if insep then split_go sep s' cur true
           else cur :: split_go sep s' EmptyString true
      else split_go sep s' (cur ++ String c EmptyString)%string false
  end.

Definition split_runs (sep : ascii -> bool) (s : string) : list string :=
  split_go sep s EmptyString false.

(** [s.split(/\s+/)] and [s.split(/[.!?]+/)]. *)
Definition split_whitespace (s : string) : list string :=
  split_runs is_space s.

Definition is_sentence_end (c : ascii) : bool :=
  (code c =? 46)%nat || (code c =? 33)%nat || (code c =? 63)%nat.

Definition split_sentences (s : string) : list string :=
  split_runs is_sentence_end s.

(** [s.trim()]. *)
Fixpoint trim_start (s : string) : string :=
  match s with
  | EmptyString => EmptyString
  | String c s' => if is_space c then trim_start s' else s
  end.

Fixpoint trim_end (s : string) : string :=
  match s with
  | EmptyString => EmptyString
  | String c s' =>
      match trim_end s' with
      | EmptyString => if is_space c then EmptyString else String c EmptyString
      | t => String c t
      end
  end.

Definition trim (s : string) : string := trim_end (trim_start s).

(** [hay.includes(needle)]. *)
Fixpoint includes (needle hay : string) : bool :=
  prefix needle hay ||
  match hay with
  | EmptyString => false
  | String _ hay' => includes needle hay'
  end.

(** [s.substring(0, n)]. *)
Fixpoint take (n : nat) (s : string) : string :=
  match n, s with
  | S n', String c s' => String c (take n' s')
  | _, _ => EmptyString
  end.

End JsString.

(* ====================================================================== *)
(** ** Regular expressions *)
(* ====================================================================== *)

(** The fragment of the regular expressions of the two analyzers, with the
    backtracking order of the language: the left alternative first, [?]
    and [.*] greedy, [.*?] lazy. *)
Module Regex.
Import JsString.

Inductive regex : Type :=
| Eps
| Chr (c : ascii)              (* one code unit, compared as the pattern's flags say *)
| WordB                        (* \b *)
| Cat (r1 r2 : regex)
| Alt (r1 r2 : regex)
| Opt (r : regex)              (* r? *)
| DotStar (lazy : bool).        (* .* and .*? *)

(** A literal text. *)
Fixpoint lit (s : string) : regex :=
  match s with
  | EmptyString => Eps
  | String c EmptyString => Chr c
  | String c s' => Cat (Chr c) (lit s')
  end.

(** [(a|b|...)]. *)
Fixpoint alts (l : list regex) : regex :=
  match l with
  | [] => Eps
  | [r] => r
  | r :: l' => Alt r (alts l')
  end.

Definition seq (l : list regex) : regex := fold_right Cat Eps l.

Definition or_else {A} (a b : option A) : option A :=
  match a with Some _ => a | None => b end.

Definition word_before (prev : option ascii) : bool :=
  match prev with Some c => is_word_char c | None => false end.

Definition word_after (s : string) : bool :=
  match s with String c _ => is_word_char c | EmptyString => false end.

Definition same_char (icase : bool) (c d : ascii) : bool :=
  if icase then Ascii.eqb (fold_char c) (fold_char d) else Ascii.eqb c d.

(** [m icase r prev s k]: match [r] at the head of [s], the code unit before
    it being [prev], then continue with [k]; the result is the text left
    after the whole match. *)
Fixpoint m (icase : bool) (r : regex) (prev : option ascii) (s : string)
    (k : option ascii -> string -> option string) {struct r} : option string :=
  match r with
  | Eps => k prev s
  | Chr c =>
      match s with
      | String d s' => if same_char icase c d then k (Some d) s' else None
      | EmptyString => None
      end
  | WordB => if xorb (word_before prev) (word_after s) then k prev s else None
  | Cat r1 r2 => m icase r1 prev s (fun p s' => m icase r2 p s' k)
  | Alt r1 r2 => or_else (m icase r1 prev s k) (m icase r2 prev s k)
  | Opt r1 => or_else (m icase r1 prev s k) (k prev s)
  | DotStar lazy =>
      (fix star (prev : option ascii) (s : string) {struct s} : option string :=
         match s with
         | EmptyString => k prev s
         | String c s' =>
             if is_line_terminator c then k prev s
             else if lazy then or_else (k prev s) (star (Some c) s')
             else or_else (star (Some c) s') (k prev s)
         end) prev s
  end.

Definition match_at (icase : bool) (r : regex) (prev : option ascii)
    (s : string) : option string :=
  m icase r prev s (fun _ rest => Some rest).

(** [r.test(s)] on a regular expression whose [lastIndex] is 0. *)
Fixpoint search (icase : bool) (r : regex) (prev : option ascii)
    (s : string) : bool :=
  match match_at icase r prev s with
  | Some _ => true
  | None =>
      match s with
      | EmptyString => false
      | String c s' => search icase r (Some c) s'
      end
  end.

Definition test (icase : bool) (r : regex) (s : string) : bool :=
  search icase r None s.

(** The number of matches [s.match(r)] returns under the [g] flag: the
    search resumes where the last match ended ([skip] code units ahead),
    one code unit further after an empty match. *)
Fixpoint count_from (icase : bool) (r : regex) (prev : option ascii)
    (s : string) (skip : nat) : nat :=
  match skip with
  | S skip' =>
      match s with
      | EmptyString => 0%nat
      | String c s' => count_from icase r (Some c) s' skip'
      end
  | O =>
      match match_at icase r prev s with
      | Some rest =>
          let used := (String.length s - String.length rest)%nat in
          match s with
          | EmptyString => 1%nat
          | String c s' => S (count_from icase r (Some c) s' (Nat.pred used))
          end
      | None =>
          match s with
          | EmptyString => 0%nat
          | String c s' => count_from icase r (Some c) s' 0
          end
      end
  end.

(** [(s.match(r) || []).length] for a global pattern. *)
Definition count_matches (icase : bool) (r : regex) (s : string) : nat :=
  count_from icase r None s 0.

(** [new RegExp(`\\b${word}\\b`, 'gi')]. *)
Definition bounded_word (word : string) : regex := seq [WordB; lit word; WordB].

End Regex.

(* ====================================================================== *)
(** ** Sets of strings *)
(* ====================================================================== *)

(** A JavaScript [Set] of strings: its elements in insertion order. *)
Module JsSet.

Definition has (x : string) (s : list string) : bool :=
  existsb (String.eqb x) s.

Definition add (s : list string) (x : string) : list string :=
  if has x s then s else s ++ [x].

(** [new Set(arr)]; [[...set]] is the list itself. *)
Definition of_list (arr : list string) : list string :=
  fold_left add arr [].

Definition size (s : list string) : nat := List.length s.

End JsSet.

(* ====================================================================== *)
(** ** The remote inference boundary *)
(* ====================================================================== *)

Module Http.

(** One element of a classification array, [{label, score}].  The image
    detectors test for an absent label, so the label is optional.  [score]
    is the number the product [item.score * 100] starts from: the value of
    the property converted to a number, so NaN when the property is absent
    or is not a number, and an infinity when its literal exceeds the range
    of a double. *)
Record item : Type := Item { label : option string; score : jsnum }.

(** The value [response.json()] resolves to. *)
Inductive body : Type :=
| BError (msg : string)                         (* { error: msg } *)
| BFlat (items : list item)                     (* [ {label, score}, ... ] *)
| BNested (first : list item) (rest : list (list item))  (* [ [ ... ], ... ] *)
| BObject                                       (* another value that is not null *)
| BNull.

(** A response; [json] is [None] when the body does not parse. *)
Record response : Type :=
  Response { ok : bool; status : nat; json : option body }.

(** What [fetch] does: it rejects, or it resolves to a response. *)
Inductive fetch_outcome : Type :=
| Rejected
| Responded (r : response).

Inductive payload : Type :=
| JsonInputs (inputs : string)      (* JSON.stringify({ inputs }) *)
| Binary (bytes : list Byte.byte).

Record request : Type := Request {
  url : string;
  authorization : string;
  content_type : option string;
  payload_of : payload
}.

(** The observable actions of a remote call. *)
Inductive event : Type :=
| Fetch (req : request)
| Sleep (ms : Z).

(** A computation with its trace of actions. *)
Definition io (A : Type) : Type := (A * list event)%type.

Definition ret {A} (a : A) : io A := (a, []).

Definition bind {A B} (c : io A) (k : A -> io B) : io B :=
  let (a, t1) := c in let (b, t2) := k a in (b, t1 ++ t2).

Definition emit (e : event) : io unit := (tt, [e]).

Definition result {A} (c : io A) : A := fst c.
Definition trace {A} (c : io A) : list event := snd c.

Definition API_URL : string := "https://api-inference.huggingface.co/models/".

(** [error && error.includes('loading')] on the [error] property. *)
Definition error_of (data : body) : string :=
  match data with BError msg => msg | _ => EmptyString end.

Definition is_loading (msg : string) : bool :=
  negb (JsString.is_empty msg) && JsString.includes "loading" msg.

(** [Math.round(item.score * 100)]. *)
Definition percent (it : item) : jsnum :=
  JsNum.round (JsNum.mul (score it) (of_Z 100)).

End Http.

Notation "x <- c ;; k" := (Http.bind c (fun x => k))
  (at level 61, c at next level, right associativity).
Notation "c ;;; k" := (Http.bind c (fun _ => k))
  (at level 61, right associativity).

(** A row of the breakdown of a report. *)
Record entry : Type := Entry { name : string; score : jsnum }.

Definition scores_of (breakdown : list entry) : list jsnum := map score breakdown.

(** [Math.round(scores.reduce((sum, s) => sum + s, 0) / scores.length)],
    the last step of both [analyze] functions. *)
Definition overall_of (breakdown : list entry) : jsnum :=
  let scores := scores_of breakdown in
  JsNum.round (JsNum.div (JsNum.sum scores) (JsNum.of_nat (List.length scores))).

(** [Math.max(lo, Math.min(hi, score))] on an integer score. *)
Definition clamp (lo hi score : Z) : Z := Z.max lo (Z.min hi score).

Definition dquote : string := String (ascii_of_nat 34) EmptyString.

(** The state of a promise that [Promise.allSettled] reports. *)
Inductive settled (A : Type) : Type :=
| Fulfilled (value : A)
| Failed.
Arguments Fulfilled {A} value.
Arguments Failed {A}.

(* ====================================================================== *)
(** ** TextAnalyzer *)
(* ====================================================================== *)

Module TextAnalyzer.
Import JsString Regex Http.

Definition primary_url : string :=
  (API_URL ++ "openai-community/roberta-base-openai-detector")%string.

Definition alternate_url : string :=
  (API_URL ++ "Hello-SimpleAI/chatgpt-detector-roberta")%string.

Definition text_request (target text apiKey : string) : request :=
  {| url := target;
     authorization := ("Bearer " ++ apiKey)%string;
     content_type := Some "application/json";
     payload_of := JsonInputs (take 2000 text) |}.

(** The object [{ humanScore }]. *)
Record detection : Type := Detection { humanScore : jsnum }.

(** The loop [for (const result of results)]: the last entry whose label is
    accepted sets the score; reading the label of an entry that has none
    throws. *)
Fixpoint scan (accepts : string -> bool) (results : list item)
    (humanScore : jsnum) : option jsnum :=
  match results with
  | [] => Some humanScore
  | result :: rest =>
      match label result with
      | None => None
      | Some l =>
          if accepts (toLowerCase l)
          then scan accepts rest (percent result)
          else scan accepts rest humanScore
      end
  end.

Definition primary_label (l : string) : bool :=
  String.eqb l "real" || String.eqb l "label_1".

Definition alternate_label (l : string) : bool :=
  includes "human" l || String.eqb l "label_0".

Definition tryAlternateModel (alt : list fetch_outcome) (text apiKey : string)
    : io (option detection) :=
  emit (Fetch (text_request alternate_url text apiKey)) ;;;
  match alt with
  | Responded response :: _ =>
      if negb (ok response) then ret None
      else
        match json response with
        | None => ret None
        | Some (BFlat results) | Some (BNested results _) =>
            ret (option_map Detection (scan alternate_label results (of_Z 50)))
        | Some _ => ret (Some (Detection (of_Z 50)))
        end
  | _ => ret None
  end.

(** [net] scripts the primary model, [alt] the alternate one. *)
Fixpoint detectAIContent (net alt : list fetch_outcome) (text apiKey : string)
    : io (option detection) :=
  emit (Fetch (text_request primary_url text apiKey)) ;;;
  match net with
  | Responded response :: net' =>
      if negb (ok response) then tryAlternateModel alt text apiKey
      else
        match json response with
        | None | Some BNull => ret None
        | Some (BError msg) =>
            if is_empty msg then ret (Some (Detection (of_Z 50)))
            else if includes "loading" msg then
              emit (Sleep 20000) ;;; detectAIContent net' alt text apiKey
            else ret None
        | Some (BNested results _) | Some (BFlat results) =>
            ret (option_map Detection (scan primary_label results (of_Z 50)))
        | Some BObject => ret (Some (Detection (of_Z 50)))
        end
  | _ => ret None
  end.

(** The sentences of a text and their lengths in words. *)
Definition sentences_of (text : string) : list string :=
  filter (fun s => negb (is_empty (trim s))) (split_sentences text).

Definition sentenceLengths_of (sentences : list string) : list jsnum :=
  map (fun s => JsNum.of_nat (List.length (split_whitespace (trim s)))) sentences.

Definition average (l : list jsnum) : jsnum :=
  JsNum.div (JsNum.sum l) (JsNum.of_nat (List.length l)).

(** [l.reduce((sum, len) => sum + Math.pow(len - avgLen, 2), 0) / l.length]. *)
Definition mean_square_deviation (l : list jsnum) (avgLen : jsnum) : jsnum :=
  JsNum.div
    (fold_left (fun sum len => JsNum.add sum (JsNum.pow2 (JsNum.sub len avgLen)))
       l (of_Z 0))
    (JsNum.of_nat (List.length l)).

Definition count_included (phrases : list string) (lowerText : string) : nat :=
  List.length (filter (fun phrase => includes phrase lowerText) phrases).

Definition count_words (ws : list string) (lowerText : string) : nat :=
  fold_left (fun n word => (n + count_matches true (bounded_word word) lowerText)%nat)
    ws 0%nat.

Definition formalPhrases : list string :=
  [ "it is important to note"; "it is worth mentioning";
    "in conclusion"; "furthermore"; "moreover"; "additionally";
    "it should be noted"; "one might argue"; "it is essential";
    "in today's world"; "plays a crucial role";
    "it is imperative"; "significantly"; "consequently" ].

Definition sensationalWords : list string :=
  [ "shocking"; "unbelievable"; "you won't believe";
    "breaking"; "urgent"; "secret"; "they don't want you to know";
    "exposed"; "bombshell"; "mind-blowing"; "conspiracy";
    "mainstream media"; "cover up"; "whistleblower" ].

Definition absoluteWords : list string :=
  [ "always"; "never"; "every"; "all"; "none";
    "completely"; "totally"; "absolutely"; "definitely";
    "undoubtedly"; "certainly"; "obviously" ].

(** The quantities [fallbackAIDetection] tests. *)
Definition variance (text : string) : jsnum :=
  let sentenceLengths := sentenceLengths_of (sentences_of text) in
  mean_square_deviation sentenceLengths (average sentenceLengths).

Definition formalCount (text : string) : nat :=
  count_included formalPhrases (toLowerCase text).

Definition ttr (text : string) : jsnum :=
  let words := split_whitespace text in
  let uniqueWords :=
    JsSet.of_list (map (fun w => filter_chars is_lower (toLowerCase w)) words) in
  JsNum.div (JsNum.of_nat (JsSet.size uniqueWords)) (JsNum.of_nat (List.length words)).

Definition sensationalCount (text : string) : nat :=
  count_included sensationalWords (toLowerCase text).

Definition absoluteCount (text : string) : nat :=
  count_words absoluteWords (toLowerCase text).

(** One penalty step: [if (cond) { score -= penalty; warnings.push(msg) }]. *)
Definition penalize (cond : bool) (penalty : Z) (msg : string)
    (st : Z * list string) : Z * list string :=
  if cond then (fst st - penalty, snd st ++ [msg])%Z else st.

(** The object [{ score, warnings }]. *)
Record fallback : Type := Fallback { fb_score : Z; fb_warnings : list string }.

(** The count of first-person words is computed by the source and never
    read; it is left out. *)
Definition fallbackAIDetection (text : string) : fallback :=
  let st0 := (75%Z, @nil string) in
  let st1 := penalize (JsNum.lt (variance text) (of_Z 15)) 15
               "Very uniform sentence lengths detected (common in AI text)" st0 in
  let st2 := penalize (3 <? formalCount text)%nat 10
               "Excessive use of formal transitional phrases" st1 in
  let st3 := penalize (JsNum.lt (ttr text) (Fin (4 # 10))) 10
               "Low vocabulary diversity detected" st2 in
  let st4 := penalize (2 <? sensationalCount text)%nat 15
               "Sensationalist language patterns detected (potential misinformation)" st3 in
  let st5 := penalize (5 <? absoluteCount text)%nat 8
               "Excessive use of absolute/superlative language" st4 in
  {| fb_score := clamp 5 95 (fst st5); fb_warnings := snd st5 |}.

(** The object [analyzeLinguistics] resolves to.  The perplexity label is
    display text computed from word frequencies; it feeds no score and no
    warning and is not modelled. *)
Record linguistics : Type := Linguistics {
  burstiness : string;
  diversityScore : jsnum;
  variationScore : jsnum;
  vocabularyScore : jsnum;
  ling_warnings : list string
}.

Definition cleanWords_of (text : string) : list string :=
  filter (fun w => negb (is_empty w))
    (map (fun w => filter_chars (fun c => is_lower c || Ascii.eqb c "'"%char)
                     (toLowerCase w))
       (split_whitespace text)).

Definition push_if (cond : bool) (msg : string) (warnings : list string)
    : list string :=
  if cond then warnings ++ [msg] else warnings.

Definition analyzeLinguistics (text : string) : linguistics :=
  let sentences := sentences_of text in
  let cleanWords := cleanWords_of text in
  let uniqueWords := JsSet.of_list cleanWords in
  let ttr := JsNum.div (JsNum.of_nat (JsSet.size uniqueWords))
               (JsNum.of_nat (List.length cleanWords)) in
  let vocabularyScore :=
    JsNum.round (JsNum.min (JsNum.mul ttr (of_Z 130)) (of_Z 95)) in
  let sentenceLengths := sentenceLengths_of sentences in
  let avgLen := average sentenceLengths in
  let stdDev := Sqrt (mean_square_deviation sentenceLengths avgLen) in
  let burstinessValue := JsNum.div (round_scaled 10 stdDev) (of_Z 10) in
  let variationScore := round_min_scaled 8 95 stdDev in
  let diversityScore :=
    JsNum.round (JsNum.div (JsNum.add vocabularyScore variationScore) (of_Z 2)) in
  let warnings :=
    push_if (JsNum.lt burstinessValue (of_Z 3))
      "Unusually consistent writing rhythm"
      (push_if (JsNum.lt vocabularyScore (of_Z 35))
         "Limited vocabulary diversity"
         (push_if (JsNum.lt variationScore (of_Z 35))
            "Low sentence length variation (typical of AI-generated text)" [])) in
  {| burstiness :=
       if JsNum.gt burstinessValue (of_Z 6) then "High"
       else if JsNum.gt burstinessValue (of_Z 3) then "Medium" else "Low";
     diversityScore := diversityScore;
     variationScore := variationScore;
     vocabularyScore := vocabularyScore;
     ling_warnings := warnings |}.

(** A row [{ pattern, weight, msg }] of a pattern table. *)
Record rule : Type := Rule { pattern : regex; weight : Z; msg : option string }.

Definition words (l : list string) : regex := alts (map lit l).

Definition aiPatterns : list rule :=
  [ Rule (lit "as an ai") (-30) (Some "Contains AI self-reference");
    Rule (Alt (lit "i cannot")
            (seq [lit "i can't "; words ["provide"; "generate"; "create"]]))
      (-20) (Some "Contains AI refusal patterns");
    Rule (seq [WordB; lit "delve"; WordB]) (-5)
      (Some ("Uses common AI vocabulary (" ++ dquote ++ "delve" ++ dquote ++ ")")%string);
    Rule (seq [WordB; lit "landscape"; WordB; DotStar false; WordB;
               words ["ever-changing"; "evolving"; "dynamic"]; WordB])
      (-5) None;
    Rule (seq [lit "in "; words ["today's"; "the modern"; "the current"]; lit " ";
               words ["world"; "era"; "age"; "landscape"]])
      (-8) (Some "Uses generic temporal phrases");
    Rule (seq [lit "it"; Opt (Chr "'"); lit "s ";
               words ["important"; "crucial"; "essential"; "vital"]; lit " to ";
               words ["note"; "understand"; "recognize"; "remember"]])
      (-8) None ].

Definition negation (stem : string) : regex :=
  seq [lit stem; Opt (Chr "'"); lit "t"].

Definition misinfoPatterns : list rule :=
  [ Rule (seq [lit "share "; words ["this"; "before"; "with everyone"]])
      (-15) (Some "Contains viral sharing prompts");
    Rule (seq [words ["they"; "the government"; "media"]; lit " ";
               alts [negation "don"; negation "doesn"; negation "won"]; lit " ";
               words ["want"; "let"]; lit " you "; words ["know"; "see"]])
      (-20) (Some "Contains conspiracy language");
    Rule (words ["100%"; "guaranteed"; "proven"; "scientifically proven"])
      (-10) (Some "Makes absolute claims without sourcing");
    Rule (words ["wake up"; "sheeple"; "open your eyes"])
      (-15) (Some "Uses manipulation language");
    Rule (words ["mainstream media"; "msm"; "big pharma"; "big tech"])
      (-10) (Some "Uses anti-establishment rhetoric") ].

(** [table.forEach(({ pattern, weight, msg }) => { if (pattern.test(text)) ... })]. *)
Definition apply_rules (table : list rule) (text : string)
    (st : Z * list string) : Z * list string :=
  fold_left
    (fun st r =>
       if test true (pattern r) text
       then ((fst st + weight r)%Z,
             match msg r with Some w => snd st ++ [w] | None => snd st end)
       else st)
    table st.

Definition linksPattern : regex :=
  Alt (seq [lit "http"; Opt (Chr "s"); lit "://"]) (lit "www.").

Definition sourcePattern : regex :=
  alts [ lit "according to";
         seq [lit "study "; words ["published"; "found"; "shows"]];
         seq [lit "researcher"; Opt (Chr "s"); lit " "; words ["at"; "from"]];
         lit "journal of"; lit "university of" ].

Definition quotesPattern : regex :=
  let q := Chr (ascii_of_nat 34) in
  Alt (seq [q; DotStar true; q]) (seq [q; DotStar true; q]).

(** The object [analyzePatterns] resolves to. *)
Record patterns : Type := Patterns {
  naturalScore : Z;
  credibilityScore : Z;
  pat_warnings : list string
}.

Definition analyzePatterns (text : string) : patterns :=
  let natural := apply_rules aiPatterns text (70%Z, []) in
  let misinfo := apply_rules misinfoPatterns text (70%Z, snd natural) in
  let hasLinks := test true linksPattern text in
  let hasSourceMention := test true sourcePattern text in
  let hasQuotes := test false quotesPattern text in
  let c1 := if hasSourceMention || hasLinks then (fst misinfo + 10)%Z else fst misinfo in
  let c2 := if hasQuotes then (c1 + 5)%Z else c1 in
  let unsourced :=
    negb hasSourceMention && negb hasLinks && (500 <? String.length text)%nat in
  let c3 := if unsourced then (c2 - 5)%Z else c2 in
  {| naturalScore := clamp 5 95 (fst natural);
     credibilityScore := clamp 5 95 c3;
     pat_warnings :=
       push_if unsourced "No sources or references cited for claims made"
         (snd misinfo) |}.

(** The report of the text pipeline (without the perplexity label). *)
Record report : Type := Report {
  overallScore : jsnum;
  wordCount : nat;
  sentenceCount : nat;
  report_burstiness : string;
  breakdown : list entry;
  warnings : list string
}.

(** The body of [analyze] after [Promise.allSettled]: the three settled
    promises are processed in order, each pushing its rows and warnings. *)
Definition assemble (text : string)
    (aiDetection : settled (option detection))
    (linguisticAnalysis : settled linguistics)
    (patternAnalysis : settled patterns) : report :=
  let wordCount :=
    List.length (filter (fun w => negb (is_empty w)) (split_whitespace text)) in
  let sentenceCount := List.length (sentences_of text) in
  let '(b1, w1) :=
    match aiDetection with
    | Fulfilled (Some value) =>
        let aiScore := humanScore value in
        ([Entry "AI Detection Model (RoBERTa)" aiScore],
         push_if (JsNum.lt aiScore (of_Z 40))
           "AI detection model indicates high probability of machine-generated content"
           [])
    | _ =>
        let fallback := fallbackAIDetection text in
        ([Entry "AI Detection (Heuristic Fallback)" (of_Z (fb_score fallback))],
         fb_warnings fallback)
    end in
  let '(burst, b2, w2) :=
    match linguisticAnalysis with
    | Fulfilled ling =>
        (burstiness ling,
         b1 ++ [Entry "Linguistic Diversity" (diversityScore ling);
                Entry "Sentence Variation" (variationScore ling);
                Entry "Vocabulary Richness" (vocabularyScore ling)],
         w1 ++ ling_warnings ling)
    | Failed => ("N/A", b1, w1)
    end in
  let '(b3, w3) :=
    match patternAnalysis with
    | Fulfilled pats =>
        (b2 ++ [Entry "Writing Pattern Naturalness" (of_Z (naturalScore pats));
                Entry "Content Credibility Signals" (of_Z (credibilityScore pats))],
         w2 ++ pat_warnings pats)
    | Failed => (b2, w2)
    end in
  {| overallScore := overall_of b3;
     wordCount := wordCount;
     sentenceCount := sentenceCount;
     report_burstiness := burst;
     breakdown := b3;
     warnings := JsSet.of_list w3 |}.

(** [analyze(text, apiKey)]: the remote detection and the two local
    analyses are awaited together; the local ones never reject. *)
Definition analyze (net alt : list fetch_outcome) (text apiKey : string)
    : io report :=
  aiDetection <- detectAIContent net alt text apiKey ;;
  ret (assemble text (Fulfilled aiDetection)
         (Fulfilled (analyzeLinguistics text))
         (Fulfilled (analyzePatterns text))).

End TextAnalyzer.

(* ====================================================================== *)
(** ** ImageAnalyzer *)
(* ====================================================================== *)

Module ImageAnalyzer.
Import JsString Http.

Definition aiImageDetector : string := "umm-maybe/AI-image-detector".
Definition deepfakeDetector : string := "dima806/deepfake_vs_real_faces_detection".

(** The [File] or [Blob] handed to [analyze]. *)
Record image_file : Type := ImageFile {
  type : string;
  size : N;
  bytes : list Byte.byte
}.

(** The element [loadImage] resolves to. *)
Record image : Type := Image {
  naturalWidth : N;
  naturalHeight : N;
  width : N;
  height : N
}.

(** What [ctx.getImageData] returns for the scaled canvas: its size and its
    RGBA samples. *)
Record image_data : Type := ImageData {
  canvas_width : nat;
  canvas_height : nat;
  data : list Z
}.

Definition image_request (model : string) (binaryData : list Byte.byte)
    (apiKey : string) : request :=
  {| url := (API_URL ++ model)%string;
     authorization := ("Bearer " ++ apiKey)%string;
     content_type := None;
     payload_of := Binary binaryData |}.

(** The object [{ realScore }]. *)
Record detection : Type := Detection { realScore : jsnum }.

(** [item.label?.toLowerCase() || '']. *)
Definition label_of (it : item) : string :=
  match label it with Some l => toLowerCase l | None => EmptyString end.

(** The loop [for (const item of data)] over a flat array. *)
Definition scan (accepts : string -> bool) (items : list item) : jsnum :=
  fold_left (fun realScore it => if accepts (label_of it) then percent it else realScore)
    items (of_Z 50).

(** [Array.isArray(data)] and the loop.  The elements of a nested array are
    arrays: they have neither a label nor a score. *)
Definition parse (accepts : string -> bool) (data : body) : jsnum :=
  match data with
  | BFlat items => scan accepts items
  | BNested first rest =>
      fold_left (fun realScore _ => if accepts EmptyString then NaN else realScore)
        (first :: rest) (of_Z 50)
  | _ => of_Z 50
  end.

Definition ai_label (l : string) : bool :=
  includes "real" l || includes "human" l || includes "authentic" l.

Definition deepfake_label (l : string) : bool :=
  includes "real" l || String.eqb l "real".

(** The two detectors differ in the model and in the accepted labels. *)
Fixpoint detect (model : string) (accepts : string -> bool)
    (net : list fetch_outcome) (binaryData : list Byte.byte) (apiKey : string)
    : io (option detection) :=
  emit (Fetch (image_request model binaryData apiKey)) ;;;
  match net with
  | Responded response :: net' =>
      if negb (ok response) then
        match json response with
        | Some BNull => ret None
        | errorData =>
            if is_loading (error_of (match errorData with Some d => d | None => BObject end))
            then emit (Sleep 20000) ;;; detect model accepts net' binaryData apiKey
            else ret None
        end
      else
        match json response with
        | None => ret None
        | Some data => ret (Some (Detection (parse accepts data)))
        end
  | _ => ret None
  end.

Definition detectAIGenerated := detect aiImageDetector ai_label.
Definition detectDeepfake := detect deepfakeDetector deepfake_label.

(** The object [analyzeMetadata] resolves to. *)
Record metadata : Type := Metadata {
  integrityScore : Z;
  metadataScore : Z;
  meta_warnings : list string
}.

Definition aiDimensions : list N := [512; 768; 1024; 256; 2048]%N.

Definition includes_dim (n : N) : bool := existsb (N.eqb n) aiDimensions.

(** [a || b] on two numbers. *)
Definition or_num (a b : N) : N := if (a =? 0)%N then b else a.

(** The multiplication sign U+00D7 of the dimension warning. *)
Definition times_sign : string := String (ascii_of_nat 215) EmptyString.

(** The decimal text of a dimension inside the template literal. *)
Definition dim_text (n : N) : string := NilEmpty.string_of_uint (N.to_uint n).

Definition analyzeMetadata (imageData : image_file) (loaded : option image)
    : metadata :=
  let fileSize := size imageData in
  let small := (0 <? fileSize)%N && (fileSize <? 10000)%N in
  let large := (0 <? fileSize)%N && (5 * 1024 * 1024 <? fileSize)%N in
  let i1 := if small then (70 - 10)%Z else 70%Z in
  let i2 := if large then (i1 + 5)%Z else i1 in
  let w1 :=
    TextAnalyzer.push_if small
      "Very small file size may indicate heavy compression or modification" [] in
  let '(m2, w3) :=
    match loaded with
    | Some img =>
        let width := or_num (naturalWidth img) (width img) in
        let height := or_num (naturalHeight img) (height img) in
        let sized := includes_dim width && includes_dim height in
        let square := (width =? height)%N && includes_dim width in
        let m1 := if sized then (65 - 15)%Z else 65%Z in
        let w2 :=
          TextAnalyzer.push_if sized
            ("Image dimensions (" ++ dim_text width ++ times_sign ++ dim_text height
               ++ ") match common AI generation sizes")%string w1 in
        (if square then (m1 - 10)%Z else m1,
         TextAnalyzer.push_if square
           "Perfect square dimensions common in AI-generated images" w2)
    | None => (65%Z, w1)
    end in
  {| integrityScore := clamp 10 95 i2;
     metadataScore := clamp 10 95 m2;
     meta_warnings := w3 |}.

(** The object [analyzePixelPatterns] resolves to. *)
Record pixel_analysis : Type := PixelAnalysis {
  pixel_score : Z;
  pixel_warnings : list string
}.

(** [Math.round((r + g + b) / 3)]. *)
Definition brightness (r g b : Z) : Z :=
  Qfloor (inject_Z (r + g + b) / 3 + (1 # 2)).

(** The brightness of the samples at [i], [i + 1], [i + 2] for
    [i = 0, 4, 8, ...], in order; a sample cut short has no brightness. *)
Fixpoint brightnesses (pixels : list Z) : list Z :=
  match pixels with
  | r :: g :: b :: _ :: rest => brightness r g b :: brightnesses rest
  | [r; g; b] => [brightness r g b]
  | _ => []
  end.

(** [colorHistogram[i]] after the counting loop. *)
Definition colorHistogram (pixels : list Z) (i : Z) : Z :=
  Z.of_nat (count_occ Z.eq_dec (brightnesses pixels) i).

(** [for (let i = 1; i < 255; i++) smoothnessScore += Math.abs(h[i] - h[i-1])]. *)
Definition smoothnessScore (pixels : list Z) : Z :=
  fold_left
    (fun acc i =>
       (acc + Z.abs (colorHistogram pixels (Z.of_nat i)
                     - colorHistogram pixels (Z.of_nat i - 1)))%Z)
    (List.seq 1 254) 0%Z.

(** [pixels[i]]; [None] is [undefined]. *)
Definition read (pixels : list Z) (i : nat) : option Z := nth_error pixels i.

(** [Math.sqrt(gx * gx + gy * gy) > 50] at the pixel [(x, y)]. *)
Definition is_edge (pixels : list Z) (width x y : nat) : bool :=
  let left := ((y * width + (x - 1)) * 4)%nat in
  let right := ((y * width + (x + 1)) * 4)%nat in
  let top := (((y - 1) * width + x) * 4)%nat in
  let bottom := (((y + 1) * width + x) * 4)%nat in
  match read pixels right, read pixels left, read pixels bottom, read pixels top with
  | Some r, Some l, Some b, Some t =>
      let gx := Z.abs (r - l) in
      let gy := Z.abs (b - t) in
      (50 * 50 <? gx * gx + gy * gy)%Z
  | _, _, _, _ => false
  end.

(** The two nested loops over the interior of the canvas. *)
Definition edgeCount (img : image_data) : nat :=
  let width := canvas_width img in
  List.length
    (filter (fun yx => is_edge (data img) width (snd yx) (fst yx))
       (list_prod (List.seq 1 (canvas_height img - 2)) (List.seq 1 (width - 2)))).

(** [a === b] on two array reads. *)
Definition same_read (a b : option Z) : bool :=
  match a, b with
  | Some x, Some y => (x =? y)%Z
  | None, None => true
  | _, _ => false
  end.

Definition repeatCount (img : image_data) : nat * nat :=
  let pixels := data img in
  let totalPixels := (canvas_width img * canvas_height img)%nat in
  let sampleSize := Nat.min 1000 totalPixels in
  let step := (List.length pixels / 4 / sampleSize)%nat in
  (List.length
     (filter
        (fun i =>
           let idx1 := (i * 4 * step)%nat in
           let idx2 := ((i + step) * 4)%nat in
           (idx2 + 2 <? List.length pixels)%nat
           && same_read (read pixels idx1) (read pixels idx2)
           && same_read (read pixels (idx1 + 1)) (read pixels (idx2 + 1))
           && same_read (read pixels (idx1 + 2)) (read pixels (idx2 + 2)))
        (List.seq 0 (sampleSize - step))),
   sampleSize).

(** [canvas] is what the [try] block obtains from [getImageData], [None]
    when [loadImage] or the canvas throws before any test has run. *)
Definition analyzePixelPatterns (canvas : option image_data) : pixel_analysis :=
  match canvas with
  | None => {| pixel_score := clamp 10 95 60; pixel_warnings := [] |}
  | Some img =>
      let totalPixels := JsNum.of_nat (canvas_width img * canvas_height img) in
      let normalizedSmoothness :=
        JsNum.div (of_Z (smoothnessScore (data img))) totalPixels in
      let st1 :=
        TextAnalyzer.penalize (JsNum.lt normalizedSmoothness (Fin (3 # 10))) 10
          "Unusually smooth color distribution (potential AI generation indicator)"
          (70%Z, []) in
      let edgeDensity := JsNum.div (JsNum.of_nat (edgeCount img)) totalPixels in
      let st2 :=
        TextAnalyzer.penalize (JsNum.lt edgeDensity (Fin (5 # 100))) 8
          "Low edge density detected (possible over-smoothing)" st1 in
      let '(repeats, sampleSize) := repeatCount img in
      let repeatRatio := JsNum.div (JsNum.of_nat repeats) (JsNum.of_nat sampleSize) in
      let st3 :=
        TextAnalyzer.penalize (JsNum.gt repeatRatio (Fin (3 # 10))) 10
          "Repeating pixel patterns detected" st2 in
      {| pixel_score := clamp 10 95 (fst st3); pixel_warnings := snd st3 |}
  end.

(** [fallbackImageAnalysis()]. *)
Definition fallbackImageAnalysis : Z * list string :=
  (60%Z, ["API unavailable - using basic heuristic analysis"]).

(** The report of the image pipeline (without the format label). *)
Record report : Type := Report {
  authenticityScore : jsnum;
  aiGenerated : bool;
  deepfakeScore : jsnum;
  manipulationScore : jsnum;
  breakdown : list entry;
  warnings : list string
}.

(** The body of [analyze] after [Promise.allSettled] and the pixel test. *)
Definition assemble
    (aiDetection deepfakeDetection : settled (option detection))
    (metadataAnalysis : settled metadata)
    (pixelAnalysis : pixel_analysis) : report :=
  let '(flag, b1, w1) :=
    match aiDetection with
    | Fulfilled (Some value) =>
        let aiScore := realScore value in
        (JsNum.lt aiScore (of_Z 50),
         [Entry "AI Image Detection" aiScore],
         TextAnalyzer.push_if (JsNum.lt aiScore (of_Z 40))
           "Image shows strong indicators of AI generation" [])
    | _ =>
        (false, [Entry "AI Detection (Heuristic)" (of_Z (fst fallbackImageAnalysis))], [])
    end in
  let '(deepfake, b2, w2) :=
    match deepfakeDetection with
    | Fulfilled (Some value) =>
        let dfScore := realScore value in
        (JsNum.sub (of_Z 100) dfScore,
         b1 ++ [Entry "Deepfake Detection" dfScore],
         TextAnalyzer.push_if (JsNum.lt dfScore (of_Z 40))
           "Deepfake indicators detected in the image" w1)
    | _ => (of_Z 0, b1 ++ [Entry "Deepfake Detection" (of_Z 70)], w1)
    end in
  let '(manipulation, b3, w3) :=
    match metadataAnalysis with
    | Fulfilled meta =>
        (of_Z (100 - integrityScore meta),
         b2 ++ [Entry "File Integrity" (of_Z (integrityScore meta));
                Entry "Metadata Consistency" (of_Z (metadataScore meta))],
         w2 ++ meta_warnings meta)
    | Failed =>
        (of_Z 0,
         b2 ++ [Entry "File Integrity" (of_Z 65);
                Entry "Metadata Consistency" (of_Z 60)],
         w2)
    end in
  let b4 := b3 ++ [Entry "Pixel Pattern Analysis" (of_Z (pixel_score pixelAnalysis))] in
  let w4 := w3 ++ pixel_warnings pixelAnalysis in
  {| authenticityScore := overall_of b4;
     aiGenerated := flag;
     deepfakeScore := deepfake;
     manipulationScore := manipulation;
     breakdown := b4;
     warnings := JsSet.of_list w4 |}.

(** [analyze(imageData, apiKey)].  [aiNet] and [dfNet] script the two
    models; the requests of the two calls are listed one call after the
    other. *)
Definition analyze (aiNet dfNet : list fetch_outcome) (loaded : option image)
    (canvas : option image_data) (imageData : image_file) (apiKey : string)
    : io report :=
  let binaryData := bytes imageData in
  aiDetection <- detectAIGenerated aiNet binaryData apiKey ;;
  deepfakeDetection <- detectDeepfake dfNet binaryData apiKey ;;
  ret (assemble (Fulfilled aiDetection) (Fulfilled deepfakeDetection)
         (Fulfilled (analyzeMetadata imageData loaded))
         (analyzePixelPatterns canvas)).

End ImageAnalyzer.

(* ====================================================================== *)
(** ** The verdict of the result renderers *)
(* ====================================================================== *)

Inductive verdict : Type := authentic | suspicious | fake.

(** [score > 70 ? 'authentic' : score > 40 ? 'suspicious' : 'fake']. *)
Definition banding (score : jsnum) : verdict :=
  if JsNum.gt score (of_Z 70) then authentic
  else if JsNum.gt score (of_Z 40) then suspicious
  else fake.

(** The verdict of [renderTextResults]. *)
Definition renderTextResults (results : TextAnalyzer.report) : verdict :=
  banding (TextAnalyzer.overallScore results).

(** The verdict of [renderImageResults], and its two derived labels:
    [deepfakeScore > 50] and [manipulationScore > 50]. *)
Definition renderImageResults (results : ImageAnalyzer.report) : verdict :=
  banding (ImageAnalyzer.authenticityScore results).

Definition deepfake_likely (results : ImageAnalyzer.report) : bool :=
  JsNum.gt (ImageAnalyzer.deepfakeScore results) (of_Z 50).

Definition manipulation_detected (results : ImageAnalyzer.report) : bool :=
  JsNum.gt (ImageAnalyzer.manipulationScore results) (of_Z 50).

(* ====================================================================== *)
(** ** Vocabulary of the properties *)
(* ====================================================================== *)

(** The rows and the warnings each settled source adds to the text report,
    in the order [analyze] processes the sources. *)
Module TextSources.
Import TextAnalyzer.

Definition ai_rows (text : string) (ai : settled (option detection)) : list entry :=
  match ai with
  | Fulfilled (Some value) => [Entry "AI Detection Model (RoBERTa)" (humanScore value)]
  | _ => [Entry "AI Detection (Heuristic Fallback)"
            (of_Z (fb_score (fallbackAIDetection text)))]
  end.

Definition ling_rows (ling : settled linguistics) : list entry :=
  match ling with
  | Fulfilled l => [Entry "Linguistic Diversity" (diversityScore l);
                    Entry "Sentence Variation" (variationScore l);
                    Entry "Vocabulary Richness" (vocabularyScore l)]
  | Failed => []
  end.

Definition pat_rows (pat : settled patterns) : list entry :=
  match pat with
  | Fulfilled p => [Entry "Writing Pattern Naturalness" (of_Z (naturalScore p));
                    Entry "Content Credibility Signals" (of_Z (credibilityScore p))]
  | Failed => []
  end.

Definition machine_warning : string :=
  "AI detection model indicates high probability of machine-generated content".

Definition ai_warnings (text : string) (ai : settled (option detection)) : list string :=
  match ai with
  | Fulfilled (Some value) =>
      if JsNum.lt (humanScore value) (of_Z 40) then [machine_warning] else []
  | _ => fb_warnings (fallbackAIDetection text)
  end.

Definition ling_warnings_of (ling : settled linguistics) : list string :=
  match ling with Fulfilled l => ling_warnings l | Failed => [] end.

Definition pat_warnings_of (pat : settled patterns) : list string :=
  match pat with Fulfilled p => pat_warnings p | Failed => [] end.

(** The warnings of all sources, merged in source order. *)
Definition merged (text : string) (ai : settled (option detection))
    (ling : settled linguistics) (pat : settled patterns) : list string :=
  ai_warnings text ai ++ ling_warnings_of ling ++ pat_warnings_of pat.

End TextSources.

Module ImageSources.
Import ImageAnalyzer.

Definition ai_rows (ai : settled (option detection)) : list entry :=
  match ai with
  | Fulfilled (Some value) => [Entry "AI Image Detection" (realScore value)]
  | _ => [Entry "AI Detection (Heuristic)" (of_Z 60)]
  end.

Definition deepfake_rows (df : settled (option detection)) : list entry :=
  match df with
  | Fulfilled (Some value) => [Entry "Deepfake Detection" (realScore value)]
  | _ => [Entry "Deepfake Detection" (of_Z 70)]
  end.

Definition meta_rows (meta : settled metadata) : list entry :=
  match meta with
  | Fulfilled m => [Entry "File Integrity" (of_Z (integrityScore m));
                    Entry "Metadata Consistency" (of_Z (metadataScore m))]
  | Failed => [Entry "File Integrity" (of_Z 65);
               Entry "Metadata Consistency" (of_Z 60)]
  end.

Definition pixel_rows (px : pixel_analysis) : list entry :=
  [Entry "Pixel Pattern Analysis" (of_Z (pixel_score px))].

Definition ai_warnings (ai : settled (option detection)) : list string :=
  match ai with
  | Fulfilled (Some value) =>
      if JsNum.lt (realScore value) (of_Z 40)
      then ["Image shows strong indicators of AI generation"] else []
  | _ => []
  end.

Definition deepfake_warnings (df : settled (option detection)) : list string :=
  match df with
  | Fulfilled (Some value) =>
      if JsNum.lt (realScore value) (of_Z 40)
      then ["Deepfake indicators detected in the image"] else []
  | _ => []
  end.

Definition meta_warnings_of (meta : settled metadata) : list string :=
  match meta with Fulfilled m => meta_warnings m | Failed => [] end.

Definition merged (ai df : settled (option detection)) (meta : settled metadata)
    (px : pixel_analysis) : list string :=
  ai_warnings ai ++ deepfake_warnings df ++ meta_warnings_of meta
    ++ pixel_warnings px.

End ImageSources.

(** The arithmetic mean of the specification, and the integer nearest to a
    rational (a tie goes to the larger integer). *)
Definition Qsum (qs : list Q) : Q := fold_right Qplus 0 qs.

Definition mean (qs : list Q) : Q := Qsum qs / inject_Z (Z.of_nat (List.length qs)).

Definition nearest_integer (x : Q) (m : Z) : Prop :=
  inject_Z m - (1 # 2) <= x /\ x < inject_Z m + (1 # 2).

(** [o] is the rounded mean of [scores]: the integer nearest to their mean
    when all are finite, NaN when one of them is NaN, and not finite when
    one is infinite. *)
Definition rounded_mean (scores : list jsnum) (o : jsnum) : Prop :=
  scores <> [] /\
  ((exists qs m, scores = map Fin qs /\ o = of_Z m /\ nearest_integer (mean qs) m)
   \/ (In NaN scores /\ o = NaN)
   \/ (~ In NaN scores /\ (exists s, In s scores /\ is_finite s = false)
       /\ is_finite o = false)).

(** The position of the first occurrence of [x] in [l] (the length of [l]
    when there is none). *)
Fixpoint index_of (x : string) (l : list string) : nat :=
  match l with
  | [] => 0%nat
  | y :: l' => if String.eqb x y then 0%nat else S (index_of x l')
  end.

(** [ws] lists every string of [merged] once, in the order of the first
    occurrences in [merged]. *)
Definition deduplicated (merged ws : list string) : Prop :=
  NoDup ws
  /\ (forall w, In w ws <-> In w merged)
  /\ (forall a b, In a merged -> In b merged ->
        ((index_of a ws < index_of b ws)%nat
         <-> (index_of a merged < index_of b merged)%nat)).

(** Input classes of the text pipeline.  A text one of whose words holds
    one of the letters a to z or A to Z, the only characters besides the
    apostrophe that the cleaning of a word keeps. *)
Definition has_ascii_letter_word (text : string) : bool :=
  existsb (JsString.exists_char JsString.is_letter) (JsString.split_whitespace text).



(** A text made of white space only. *)


(** A number that is an integer between two bounds. *)
Definition integer_within (lo hi : Z) (s : jsnum) : Prop :=
  exists z, s = of_Z z /\ (lo <= z <= hi)%Z.

(** The classification entries a response body, and a script, can hand to
    the parsing loops. *)
Definition body_items (data : Http.body) : list Http.item :=
  match data with
  | Http.BFlat items => items
  | Http.BNested first _ => first
  | _ => []
  end.

Definition outcome_items (o : Http.fetch_outcome) : list Http.item :=
  match o with
  | Http.Responded r =>
      match Http.json r with Some data => body_items data | None => [] end
  | Http.Rejected => []
  end.

Definition net_items (net : list Http.fetch_outcome) : list Http.item :=
  flat_map outcome_items net.

(** A classifier score that is a number, and one that is a probability. *)
Definition numeric (it : Http.item) : Prop := is_finite (Http.score it) = true.

Definition probability (it : Http.item) : Prop :=
  exists q, Http.score it = Fin q /\ 0 <= q <= 1.

(** A response that is not a success and whose body says the model is
    loading; a success response whose body says so. *)
Definition loading_body (r : Http.response) : bool :=
  match Http.json r with
  | Some (Http.BError msg) => Http.is_loading msg
  | _ => false
  end.

Definition loading_failure (o : Http.fetch_outcome) : bool :=
  match o with
  | Http.Responded r => negb (Http.ok r) && loading_body r
  | Http.Rejected => false
  end.

Definition loading_success (o : Http.fetch_outcome) : bool :=
  match o with
  | Http.Responded r => Http.ok r && loading_body r
  | Http.Rejected => false
  end.

(** The actions of [n] rounds of request and 20 second wait. *)
Definition retries (req : Http.request) (n : nat) : list Http.event :=
  List.concat (repeat [Http.Fetch req; Http.Sleep 20000] n).

(** A number that is an integer or NaN. *)
Definition integer_or_nan (s : jsnum) : Prop := s = NaN \/ exists z, s = of_Z z.

(** The banding of the specification: above 70 authentic, 41 to 70
    suspicious, at most 40 fake. *)
Definition banded (z : Z) (v : verdict) : Prop :=
  ((70 < z)%Z -> v = authentic)
  /\ ((41 <= z <= 70)%Z -> v = suspicious)
  /\ ((z <= 40)%Z -> v = fake).

(** The banding of a score that need not be an integer: NaN and the
    negative infinity are not above 40, the positive infinity is above 70. *)
Definition banded_score (s : jsnum) (v : verdict) : Prop :=
  (exists z, s = of_Z z /\ banded z v)
  \/ (s = NaN /\ v = fake)
  \/ (s = PInf /\ v = authentic)
  \/ (s = NInf /\ v = fake).

(** A number that lies in [0, 100]. *)
Definition percentage (s : jsnum) : Prop := exists q, s = Fin q /\ 0 <= q <= 100.

(** The five penalty conditions of the text fallback, the test each stands
    for and its penalty. *)
Inductive condition : Type :=
| UniformSentences     (* variance of the sentence lengths below 15 *)
| FormalPhrases        (* more than 3 formal phrases *)
| LowDiversity         (* type-token ratio below 0.4 *)
| Sensational          (* more than 2 sensationalist markers *)
| Absolutes.           (* more than 5 absolute words *)

Definition conditions : list condition :=
  [UniformSentences; FormalPhrases; LowDiversity; Sensational; Absolutes].

Definition triggered (text : string) (c : condition) : bool :=
  match c with
  | UniformSentences => JsNum.lt (TextAnalyzer.variance text) (of_Z 15)
  | FormalPhrases => (3 <? TextAnalyzer.formalCount text)%nat
  | LowDiversity => JsNum.lt (TextAnalyzer.ttr text) (Fin (4 # 10))
  | Sensational => (2 <? TextAnalyzer.sensationalCount text)%nat
  | Absolutes => (5 <? TextAnalyzer.absoluteCount text)%nat
  end.

Definition penalty (c : condition) : Z :=
  match c with
  | UniformSentences => 15
  | FormalPhrases => 10
  | LowDiversity => 10
  | Sensational => 15
  | Absolutes => 8
  end.

Definition charge (text : string) (c : condition) : Z :=
  if triggered text c then penalty c else 0%Z.

Definition total_penalty (text : string) : Z :=
  fold_right (fun c acc => (charge text c + acc)%Z) 0%Z conditions.

(** Every condition [t1] triggers is triggered by [t2]. *)
Definition included (t1 t2 : string) : Prop :=
  forall c, triggered t1 c = true -> triggered t2 c = true.

(** Two texts of fifty words in one sentence: the first triggers all five
    conditions, the second the variance condition only. *)
Definition text_all_conditions : string :=
  "furthermore moreover additionally significantly the shocking urgent secret is always always always always always always the same and the same is the same and the same is the same and the same is the same and the same is the same and the same is the same and the same".

Definition text_variance_only : string :=
  "one quiet early morning a small grey cat walked slowly across the wide garden path while two brown birds watched from a tall green tree and a young child laughed near the old wooden gate as warm sunlight filled the narrow street beside our little red house on that day".

(** A row of the given name whose score is below 50. *)
Definition below_50 (rows : list entry) (row : string) : Prop :=
  exists e, In e rows /\ name e = row /\ JsNum.lt (score e) (of_Z 50) = true.

(** Unfolding the rows of a report without unfolding the analyses. *)
Ltac rows_in H :=
  cbn [TextSources.ai_rows TextSources.ling_rows TextSources.pat_rows
       ImageSources.ai_rows ImageSources.deepfake_rows ImageSources.meta_rows
       ImageSources.pixel_rows In] in H.

(* ====================================================================== *)
(** ** The application shell *)
(* ====================================================================== *)

(** The parts of the application script that decide what is analysed and
    how a score is coloured.  The page itself (elements, overlay, timers) is
    not modelled: a function returns what it would show. *)
Module App.
Import JsString Http.

Inductive toast_type : Type := success | error | warning | info.

(** What [analyzeText] ends with: a toast, the API key dialog, or the
    rendered results with their verdict. *)
Inductive outcome : Type :=
| Toast (message : string) (type : toast_type)
| ApiKeyModal
| Rendered (v : verdict) (results : TextAnalyzer.report).

(** [checkApiKey()] on the stored key. *)
Definition checkApiKey (apiKey : string) : bool := negb (is_empty apiKey).

(** [analyzeText()]: [input] is the value of the text area, [apiKey] the
    stored key.  [TextAnalyzer.analyze] does not throw, so the [catch] branch
    is never taken. *)
Definition analyzeText (net alt : list fetch_outcome) (input apiKey : string)
    : io outcome :=
  let text := trim input in
  if is_empty text then
    ret (Toast "Please enter some text to analyze" warning)
  else if (String.length text <? 50)%nat then
    ret (Toast "Please enter at least 50 characters for accurate analysis" warning)
  else if negb (checkApiKey apiKey) then ret ApiKeyModal
  else
    results <- TextAnalyzer.analyze net alt text apiKey ;;
    ret (Rendered (renderTextResults results) results).

(** [getScoreColor(score)], the colour of a row of the breakdown. *)
Definition getScoreColor (score : jsnum) : string :=
  if JsNum.gt score (of_Z 70) then "var(--success)"
  else if JsNum.gt score (of_Z 40) then "var(--warning)"
  else "var(--danger)".

(** The colour of the meter value in both renderers:
    [var(--${verdict === 'authentic' ? 'success' : ... })]. *)
Definition meter_color (v : verdict) : string :=
  ("var(--"
   ++ match v with
      | authentic => "success"
      | suspicious => "warning"
      | fake => "danger"
      end
   ++ ")")%string.

(** The typing animation of [initAnimations]: its three variables, and one
    call of [type()], which returns the text shown, the delay before the
    next call and the new variables. *)
Definition typing_words : list string :=
  ["Fake News."; "Deepfakes."; "AI Content."; "Misinfo."].

Record typing : Type := Typing {
  wordIndex : nat;
  charIndex : Z;
  isDeleting : bool
}.

Definition typing_start : typing := Typing 0 0 false.

Definition type (st : typing) : string * Z * typing :=
  let currentWord := nth (wordIndex st) typing_words EmptyString in
  let len := Z.of_nat (String.length currentWord) in
  let '(textContent, charIndex') :=
    if isDeleting st
    then (take (Z.to_nat (charIndex st - 1)) currentWord, (charIndex st - 1)%Z)
    else (take (Z.to_nat (charIndex st + 1)) currentWord, (charIndex st + 1)%Z) in
  let speed := if isDeleting st then 50%Z else 100%Z in
  if negb (isDeleting st) && (charIndex' =? len)%Z then
    (textContent, 2000%Z, Typing (wordIndex st) charIndex' true)
  else if isDeleting st && (charIndex' =? 0)%Z then
    (textContent, 500%Z,
     Typing ((wordIndex st + 1) mod List.length typing_words) charIndex' false)
  else (textContent, speed, Typing (wordIndex st) charIndex' (isDeleting st)).

End App.

(** The sum of integer scores. *)
Definition Zsum (zs : list Z) : Z := fold_right Z.add 0%Z zs.

(** The requests of a trace. *)
Definition requests (t : list Http.event) : list Http.request :=
  flat_map (fun e => match e with Http.Fetch r => [r] | Http.Sleep _ => [] end) t.

(** [p] is the beginning of [s]. *)
Definition starts (p s : string) : Prop := exists rest, s = (p ++ rest)%string.

(** The weights of the rules of a table that match a text, added up, and
    whether any rule matches. *)
Definition matched_weight (table : list TextAnalyzer.rule) (text : string) : Z :=
  Zsum (map (fun r => if Regex.test true (TextAnalyzer.pattern r) text
                      then TextAnalyzer.weight r else 0%Z) table).

Definition any_match (table : list TextAnalyzer.rule) (text : string) : bool :=
  existsb (fun r => Regex.test true (TextAnalyzer.pattern r) text) table.

(** The number of words of a sentence, and a text all of whose sentences
    have [n] words. *)
Definition sentence_length (s : string) : nat :=
  List.length (JsString.split_whitespace (JsString.trim s)).

Definition uniform_sentences (text : string) (n : nat) : Prop :=
  TextAnalyzer.sentences_of text <> []
  /\ forall s, In s (TextAnalyzer.sentences_of text) -> sentence_length s = n.

(** The number of outcomes at the head of a script that satisfy [p]. *)
Fixpoint leading (p : Http.fetch_outcome -> bool) (net : list Http.fetch_outcome)
    : nat :=
  match net with
  | o :: net' => if p o then S (leading p net') else 0%nat
  | [] => 0%nat
  end.

(** The outcome a call stops on: the first that does not satisfy [p]. *)
Fixpoint stopping (p : Http.fetch_outcome -> bool) (net : list Http.fetch_outcome)
    : option Http.fetch_outcome :=
  match net with
  | o :: net' => if p o then stopping p net' else Some o
  | [] => None
  end.

(** A response that is not a success. *)
Definition is_failure (o : option Http.fetch_outcome) : bool :=
  match o with
  | Some (Http.Responded r) => negb (Http.ok r)
  | _ => false
  end.

(** The variables of the typing animation are in step with the current
    word: while typing, fewer characters are shown than the word has; while
    deleting, at least one is shown. *)
Definition typing_ok (st : App.typing) : Prop :=
  (App.wordIndex st < List.length App.typing_words)%nat
  /\ let len := Z.of_nat (String.length
                            (nth (App.wordIndex st) App.typing_words EmptyString)) in
     if App.isDeleting st then (1 <= App.charIndex st <= len)%Z
     else (0 <= App.charIndex st < len)%Z.

(** [l] is [m] with some of its elements left out. *)
Inductive subsequence {A : Type} : list A -> list A -> Prop :=
| sub_nil : subsequence [] []
| sub_skip (x : A) (l m : list A) : subsequence l m -> subsequence l (x :: m)
| sub_keep (x : A) (l m : list A) : subsequence l m -> subsequence (x :: l) (x :: m).

(** The warnings of the rules of a table that match a text. *)
Definition matched_warnings (table : list TextAnalyzer.rule) (text : string)
    : list string :=
  flat_map (fun r => if Regex.test true (TextAnalyzer.pattern r) text
                     then match TextAnalyzer.msg r with Some w => [w] | None => [] end
                     else []) table.

(** The success response [r] with its body replaced by the array [items]. *)
Definition with_items (r : Http.response) (items : list Http.item) : Http.response :=
  Http.Response (Http.ok r) (Http.status r) (Some (Http.BFlat items)).

(* ====================================================================== *)
(** * Properties *)
(* ====================================================================== *)

(** ** Numbers *)

Section NumberFacts.

Lemma of_nat_pos_nonzero (n : nat) :
  (0 < n)%nat -> Qeq_bool (inject_Z (Z.of_nat n)) 0 = false.
Proof.
  intros Hn. destruct (Qeq_bool (inject_Z (Z.of_nat n)) 0) eqn:E; auto.
  apply Qeq_bool_iff in E. unfold Qeq in E. simpl in E. lia.
Qed.

Lemma add_nan_l (a : jsnum) : JsNum.add NaN a = NaN.
Proof. reflexivity. Qed.

Lemma add_nan_r (a : jsnum) : JsNum.add a NaN = NaN.
Proof. destruct a; reflexivity. Qed.

Lemma fold_add_nan (l : list jsnum) : fold_left JsNum.add l NaN = NaN.
Proof. induction l as [|a l IH]; simpl; auto. Qed.

(** A NaN among the summands makes the sum NaN. *)
Lemma fold_add_with_nan (l : list jsnum) (acc : jsnum) :
  In NaN l -> fold_left JsNum.add l acc = NaN.
Proof.
  revert acc. induction l as [|a l IH]; intros acc Hin; [destruct Hin|].
  destruct Hin as [->|Hin]; simpl.
  - rewrite add_nan_r. apply fold_add_nan.
  - now apply IH.
Qed.


(** The sum of finite summands is the finite left fold. *)
Lemma fold_add_fin (qs : list Q) (q : Q) :
  fold_left JsNum.add (map Fin qs) (Fin q) = Fin (fold_left Qplus qs q).
Proof.
  revert q. induction qs as [|x qs IH]; intros q; simpl; auto.
Qed.

Lemma fold_left_Qplus (qs : list Q) (q : Q) :
  fold_left Qplus qs q == q + fold_right Qplus 0 qs.
Proof.
  revert q. induction qs as [|x qs IH]; intros q; simpl.
  - ring.
  - rewrite IH. ring.
Qed.

(** Once the running sum is not finite it stays so. *)
Lemma fold_add_not_finite (l : list jsnum) (acc : jsnum) :
  is_finite acc = false -> is_finite (fold_left JsNum.add l acc) = false.
Proof.
  revert acc. induction l as [|a l IH]; intros acc Hacc; simpl; auto.
  apply IH. destruct acc, a; simpl in *; congruence.
Qed.

Lemma fold_add_with_infinite (l : list jsnum) (acc : jsnum) :
  (exists s, In s l /\ is_finite s = false) ->
  is_finite (fold_left JsNum.add l acc) = false.
Proof.
  revert acc. induction l as [|a l IH]; intros acc [s [Hin Hs]]; [destruct Hin|].
  simpl. destruct Hin as [->|Hin].
  - apply fold_add_not_finite. destruct acc, s; simpl in *; congruence.
  - apply IH. eauto.
Qed.

(** Every list of numbers is a list of finite values or holds a value that
    is not finite. *)
Lemma all_finite_or_not (l : list jsnum) :
  (exists qs, l = map Fin qs) \/ (exists s, In s l /\ is_finite s = false).
Proof.
  induction l as [|a l [[qs ->]|[s [Hin Hs]]]].
  - left. now exists [].
  - destruct a as [q| | |].
    + left. now exists (q :: qs).
    + right. exists PInf. simpl. auto.
    + right. exists NInf. simpl. auto.
    + right. exists NaN. simpl. auto.
  - right. exists s. simpl. auto.
Qed.

Lemma round_of_Z (z : Z) : JsNum.round (of_Z z) = of_Z z.
Proof.
  unfold JsNum.round, of_Z. f_equal. f_equal.
  assert (H : (z <= Qfloor (inject_Z z + (1 # 2)))%Z).
  { rewrite <- (Qfloor_Z z) at 1. apply Qfloor_resp_le.
    rewrite <- (Qplus_0_r (inject_Z z)) at 1. apply Qplus_le_r. discriminate. }
  assert (H' : (Qfloor (inject_Z z + (1 # 2)) < z + 1)%Z).
  { apply Z.lt_nge. intros Hge.
    apply (Qle_not_lt (inject_Z (z + 1)) (inject_Z z + (1 # 2))).
    - eapply Qle_trans; [|apply Qfloor_le]. rewrite <- Zle_Qle. exact Hge.
    - rewrite inject_Z_plus. apply Qplus_lt_r. reflexivity. }
  lia.
Qed.

End NumberFacts.

(** ** The shape of the reports *)

Section ReportShape.
Import Http.

Lemma text_breakdown text ai ling pat :
  TextAnalyzer.breakdown (TextAnalyzer.assemble text ai ling pat)
  = TextSources.ai_rows text ai ++ TextSources.ling_rows ling
      ++ TextSources.pat_rows pat.
Proof. destruct ai as [[v|]|], ling, pat; reflexivity. Qed.

Lemma text_overall text ai ling pat :
  TextAnalyzer.overallScore (TextAnalyzer.assemble text ai ling pat)
  = overall_of (TextAnalyzer.breakdown (TextAnalyzer.assemble text ai ling pat)).
Proof. destruct ai as [[v|]|], ling, pat; reflexivity. Qed.

Lemma text_warnings text ai ling pat :
  TextAnalyzer.warnings (TextAnalyzer.assemble text ai ling pat)
  = JsSet.of_list (TextSources.merged text ai ling pat).
Proof.
  unfold TextSources.merged.
  destruct ai as [[v|]|], ling, pat;
    unfold TextAnalyzer.assemble;
    cbn [TextSources.ling_warnings_of TextSources.pat_warnings_of
         TextSources.ai_warnings TextAnalyzer.warnings];
    try match goal with
        | v : TextAnalyzer.detection |- _ =>
            unfold TextAnalyzer.push_if;
            destruct (JsNum.lt (TextAnalyzer.humanScore v) (of_Z 40))
        end;
    cbn [TextAnalyzer.warnings];
    repeat (rewrite app_nil_r || rewrite app_assoc); reflexivity.
Qed.

Lemma text_analyze_result net alt text apiKey :
  result (TextAnalyzer.analyze net alt text apiKey)
  = TextAnalyzer.assemble text
      (Fulfilled (result (TextAnalyzer.detectAIContent net alt text apiKey)))
      (Fulfilled (TextAnalyzer.analyzeLinguistics text))
      (Fulfilled (TextAnalyzer.analyzePatterns text)).
Proof.
  unfold TextAnalyzer.analyze, bind, result.
  destruct (TextAnalyzer.detectAIContent net alt text apiKey); reflexivity.
Qed.

Lemma image_breakdown ai df meta px :
  ImageAnalyzer.breakdown (ImageAnalyzer.assemble ai df meta px)
  = ImageSources.ai_rows ai ++ ImageSources.deepfake_rows df
      ++ ImageSources.meta_rows meta ++ ImageSources.pixel_rows px.
Proof. destruct ai as [[v|]|], df as [[w|]|], meta; reflexivity. Qed.

Lemma image_overall ai df meta px :
  ImageAnalyzer.authenticityScore (ImageAnalyzer.assemble ai df meta px)
  = overall_of (ImageAnalyzer.breakdown (ImageAnalyzer.assemble ai df meta px)).
Proof. destruct ai as [[v|]|], df as [[w|]|], meta; reflexivity. Qed.

Lemma image_warnings ai df meta px :
  ImageAnalyzer.warnings (ImageAnalyzer.assemble ai df meta px)
  = JsSet.of_list (ImageSources.merged ai df meta px).
Proof.
  unfold ImageSources.merged.
  destruct ai as [[v|]|], df as [[w|]|], meta;
    unfold ImageAnalyzer.assemble, TextAnalyzer.push_if;
    cbn [ImageSources.ai_warnings ImageSources.deepfake_warnings
         ImageSources.meta_warnings_of ImageAnalyzer.warnings
         ImageAnalyzer.realScore];
    repeat match goal with |- context [JsNum.lt ?a ?b] => destruct (JsNum.lt a b) end;
    cbn [ImageAnalyzer.warnings];
    repeat (rewrite app_nil_r || rewrite app_assoc); reflexivity.
Qed.

Lemma image_analyze_result aiNet dfNet loaded canvas imageData apiKey :
  result (ImageAnalyzer.analyze aiNet dfNet loaded canvas imageData apiKey)
  = ImageAnalyzer.assemble
      (Fulfilled (result (ImageAnalyzer.detectAIGenerated aiNet
                            (ImageAnalyzer.bytes imageData) apiKey)))
      (Fulfilled (result (ImageAnalyzer.detectDeepfake dfNet
                            (ImageAnalyzer.bytes imageData) apiKey)))
      (Fulfilled (ImageAnalyzer.analyzeMetadata imageData loaded))
      (ImageAnalyzer.analyzePixelPatterns canvas).
Proof.
  unfold ImageAnalyzer.analyze, bind, result.
  destruct (ImageAnalyzer.detectAIGenerated _ _ _).
  destruct (ImageAnalyzer.detectDeepfake _ _ _). reflexivity.
Qed.

Lemma text_breakdown_nonempty text ai ling pat :
  TextAnalyzer.breakdown (TextAnalyzer.assemble text ai ling pat) <> [].
Proof. rewrite text_breakdown. destruct ai as [[v|]|]; discriminate. Qed.

Lemma image_breakdown_nonempty ai df meta px :
  ImageAnalyzer.breakdown (ImageAnalyzer.assemble ai df meta px) <> [].
Proof. rewrite image_breakdown. destruct ai as [[v|]|]; discriminate. Qed.

End ReportShape.

(** ** Aggregation *)

Section Aggregation.
Import Http.

Lemma Qfloor_half_nearest (x : Q) : nearest_integer x (Qfloor (x + (1 # 2))).
Proof.
  split.
  - apply Qplus_le_l with (z := 1 # 2).
    setoid_replace (inject_Z (Qfloor (x + (1 # 2))) - (1 # 2) + (1 # 2))
      with (inject_Z (Qfloor (x + (1 # 2)))) by ring.
    apply Qfloor_le.
  - apply Qplus_lt_l with (z := 1 # 2).
    setoid_replace (inject_Z (Qfloor (x + (1 # 2))) + (1 # 2) + (1 # 2))
      with (inject_Z (Qfloor (x + (1 # 2)) + 1)) by (rewrite inject_Z_plus; ring).
    apply Qlt_floor.
Qed.

Lemma nearest_integer_unique (x : Q) (m n : Z) :
  nearest_integer x m -> nearest_integer x n -> m = n.
Proof.
  intros [Hm1 Hm2] [Hn1 Hn2].
  assert (A : inject_Z m - (1 # 2) < inject_Z n + (1 # 2))
    by (eapply Qle_lt_trans; eauto).
  assert (B : inject_Z n - (1 # 2) < inject_Z m + (1 # 2))
    by (eapply Qle_lt_trans; eauto).
  unfold Qlt in A, B. simpl in A, B. lia.
Qed.

Lemma nearest_integer_compat (x y : Q) (m : Z) :
  x == y -> nearest_integer x m -> nearest_integer y m.
Proof. intros E [H1 H2]. split; rewrite <- E; assumption. Qed.

(** The aggregation step computes the rounded mean of whatever rows the
    breakdown holds, provided there is one. *)
Lemma overall_of_rounded_mean (b : list entry) :
  b <> [] -> rounded_mean (scores_of b) (overall_of b).
Proof.
  intros Hb. unfold rounded_mean, overall_of.
  assert (Hs : scores_of b <> []).
  { unfold scores_of. destruct b; [congruence | discriminate]. }
  split; [exact Hs|].
  destruct (all_finite_or_not (scores_of b)) as [[qs Hqs]|[s [Hin Hfin]]].
  - left. rewrite Hqs in *. clear Hqs.
    assert (Hlen : (0 < List.length (map Fin qs))%nat)
      by (destruct qs; [exfalso; apply Hs; reflexivity | simpl; lia]).
    unfold JsNum.sum, of_Z at 1. rewrite fold_add_fin.
    unfold JsNum.of_nat, of_Z at 1, JsNum.div.
    rewrite (of_nat_pos_nonzero _ Hlen). cbn [JsNum.round].
    eexists qs, _. split; [reflexivity|]. split; [reflexivity|].
    eapply nearest_integer_compat; [|apply Qfloor_half_nearest].
    unfold mean. rewrite length_map.
    rewrite fold_left_Qplus. unfold Qsum.
    setoid_replace (inject_Z 0 + fold_right Qplus 0 qs)
      with (fold_right Qplus 0 qs) by ring.
    reflexivity.
  - assert (Hdec : In NaN (scores_of b) \/ ~ In NaN (scores_of b)).
    { destruct (existsb is_nan (scores_of b)) eqn:E.
      - left. apply existsb_exists in E. destruct E as [x [Hx Hn]].
        destruct x; try discriminate. exact Hx.
      - right. intros Hn. rewrite <- not_true_iff_false in E. apply E.
        apply existsb_exists. exists NaN. split; [exact Hn | reflexivity]. }
    destruct Hdec as [Hnan|Hnan].
    + right; left. split; [exact Hnan|].
      unfold JsNum.sum. rewrite (fold_add_with_nan _ _ Hnan). reflexivity.
    + right; right. split; [exact Hnan|]. split; [eauto|].
      assert (Hsum : is_finite (JsNum.sum (scores_of b)) = false)
        by (apply fold_add_with_infinite; eauto).
      assert (Hlen : (0 < List.length (scores_of b))%nat)
        by (destruct (scores_of b); [exfalso; apply Hs; reflexivity | simpl; lia]).
      destruct (JsNum.sum (scores_of b)) eqn:E; try discriminate;
        unfold JsNum.of_nat, of_Z, JsNum.div;
        try destruct (inject_Z _ ?= 0); reflexivity.
Qed.

(** C1. For every analysis that returns a report, the overall score is the
    rounded unweighted arithmetic mean of the scores of exactly the rows of
    the breakdown of that report, however many of the sources contributed:
    in the text pipeline ([overallScore]) and in the image pipeline
    ([authenticityScore]), for the assembly of any settled sources and for
    [analyze] itself. *)
Theorem C1_overall_is_rounded_mean :
  (forall text ai ling pat,
     let r := TextAnalyzer.assemble text ai ling pat in
     rounded_mean (scores_of (TextAnalyzer.breakdown r)) (TextAnalyzer.overallScore r))
  /\ (forall net alt text apiKey,
        let r := result (TextAnalyzer.analyze net alt text apiKey) in
        rounded_mean (scores_of (TextAnalyzer.breakdown r)) (TextAnalyzer.overallScore r))
  /\ (forall ai df meta px,
        let r := ImageAnalyzer.assemble ai df meta px in
        rounded_mean (scores_of (ImageAnalyzer.breakdown r))
          (ImageAnalyzer.authenticityScore r))
  /\ (forall aiNet dfNet loaded canvas imageData apiKey,
        let r := result (ImageAnalyzer.analyze aiNet dfNet loaded canvas imageData apiKey) in
        rounded_mean (scores_of (ImageAnalyzer.breakdown r))
          (ImageAnalyzer.authenticityScore r)).
Proof.
  assert (T : forall text ai ling pat,
             rounded_mean
               (scores_of (TextAnalyzer.breakdown (TextAnalyzer.assemble text ai ling pat)))
               (TextAnalyzer.overallScore (TextAnalyzer.assemble text ai ling pat))).
  { intros. rewrite text_overall.
    apply overall_of_rounded_mean, text_breakdown_nonempty. }
  assert (I : forall ai df meta px,
             rounded_mean
               (scores_of (ImageAnalyzer.breakdown (ImageAnalyzer.assemble ai df meta px)))
               (ImageAnalyzer.authenticityScore (ImageAnalyzer.assemble ai df meta px))).
  { intros. rewrite image_overall.
    apply overall_of_rounded_mean, image_breakdown_nonempty. }
  split; [|split; [|split]]; intros; subst r.
  - apply T.
  - rewrite text_analyze_result. apply T.
  - apply I.
  - rewrite image_analyze_result. apply I.
Qed.

(** C5. Whenever [analyze] returns (text or image pipeline) the breakdown is
    not empty: its first row comes from the remote AI detection when that
    succeeded and from the fallback heuristic otherwise, so the divisor of
    the overall score, the number of rows, is at least one and never zero. *)
Theorem C5_breakdown_never_empty :
  (forall net alt text apiKey,
     let r := result (TextAnalyzer.analyze net alt text apiKey) in
     let scores := scores_of (TextAnalyzer.breakdown r) in
     (1 <= List.length scores)%nat
     /\ ~ inject_Z (Z.of_nat (List.length scores)) == 0
     /\ hd_error (TextAnalyzer.breakdown r)
        = Some match result (TextAnalyzer.detectAIContent net alt text apiKey) with
               | Some value =>
                   Entry "AI Detection Model (RoBERTa)" (TextAnalyzer.humanScore value)
               | None =>
                   Entry "AI Detection (Heuristic Fallback)"
                     (of_Z (TextAnalyzer.fb_score (TextAnalyzer.fallbackAIDetection text)))
               end)
  /\ (forall aiNet dfNet loaded canvas imageData apiKey,
        let r := result (ImageAnalyzer.analyze aiNet dfNet loaded canvas imageData apiKey) in
        let scores := scores_of (ImageAnalyzer.breakdown r) in
        (1 <= List.length scores)%nat
        /\ ~ inject_Z (Z.of_nat (List.length scores)) == 0
        /\ hd_error (ImageAnalyzer.breakdown r)
           = Some match result (ImageAnalyzer.detectAIGenerated aiNet
                                  (ImageAnalyzer.bytes imageData) apiKey) with
                  | Some value =>
                      Entry "AI Image Detection" (ImageAnalyzer.realScore value)
                  | None =>
                      Entry "AI Detection (Heuristic)"
                        (of_Z (fst ImageAnalyzer.fallbackImageAnalysis))
                  end)
  /\ (forall text ai ling pat,
        TextAnalyzer.breakdown (TextAnalyzer.assemble text ai ling pat) <> [])
  /\ (forall ai df meta px,
        ImageAnalyzer.breakdown (ImageAnalyzer.assemble ai df meta px) <> []).
Proof.
  assert (L : forall A (l : list A), l <> [] ->
                (1 <= List.length l)%nat /\ ~ inject_Z (Z.of_nat (List.length l)) == 0).
  { intros A l Hl. destruct l as [|a l]; [congruence|]. split; [simpl; lia|].
    intros E. unfold Qeq in E. simpl in E. lia. }
  split; [|split; [|split]].
  - intros net alt text apiKey r scores. subst scores r.
    rewrite text_analyze_result.
    destruct (L _ (scores_of (TextAnalyzer.breakdown
                (TextAnalyzer.assemble text
                   (Fulfilled (result (TextAnalyzer.detectAIContent net alt text apiKey)))
                   (Fulfilled (TextAnalyzer.analyzeLinguistics text))
                   (Fulfilled (TextAnalyzer.analyzePatterns text)))))) as [L1 L2].
    { rewrite text_breakdown.
      destruct (result (TextAnalyzer.detectAIContent net alt text apiKey)); discriminate. }
    split; [exact L1|]. split; [exact L2|].
    rewrite text_breakdown.
    destruct (result (TextAnalyzer.detectAIContent net alt text apiKey)); reflexivity.
  - intros aiNet dfNet loaded canvas imageData apiKey r scores. subst scores r.
    rewrite image_analyze_result.
    destruct (L _ (scores_of (ImageAnalyzer.breakdown
                (ImageAnalyzer.assemble
                   (Fulfilled (result (ImageAnalyzer.detectAIGenerated aiNet
                                         (ImageAnalyzer.bytes imageData) apiKey)))
                   (Fulfilled (result (ImageAnalyzer.detectDeepfake dfNet
                                         (ImageAnalyzer.bytes imageData) apiKey)))
                   (Fulfilled (ImageAnalyzer.analyzeMetadata imageData loaded))
                   (ImageAnalyzer.analyzePixelPatterns canvas))))) as [L1 L2].
    { rewrite image_breakdown.
      destruct (result (ImageAnalyzer.detectAIGenerated _ _ _)); discriminate. }
    split; [exact L1|]. split; [exact L2|].
    rewrite image_breakdown.
    destruct (result (ImageAnalyzer.detectAIGenerated _ _ _)); reflexivity.
  - apply text_breakdown_nonempty.
  - apply image_breakdown_nonempty.
Qed.

End Aggregation.

(** ** Deduplication of the warnings *)

Section Deduplication.
Import Http.

Lemma has_In (x : string) (s : list string) : JsSet.has x s = true <-> In x s.
Proof.
  unfold JsSet.has. rewrite existsb_exists. split.
  - intros [y [Hy E]]. apply String.eqb_eq in E. now subst.
  - intros H. exists x. split; [exact H | apply String.eqb_refl].
Qed.

Lemma of_list_snoc (l : list string) (x : string) :
  JsSet.of_list (l ++ [x]) = JsSet.add (JsSet.of_list l) x.
Proof. unfold JsSet.of_list. now rewrite fold_left_app. Qed.

Lemma add_In (s : list string) (x y : string) :
  In y (JsSet.add s x) <-> In y s \/ y = x.
Proof.
  unfold JsSet.add. destruct (JsSet.has x s) eqn:E.
  - apply has_In in E. split; [auto|]. intros [H| ->]; auto.
  - rewrite in_app_iff. simpl. intuition congruence.
Qed.

Lemma of_list_In (l : list string) (y : string) :
  In y (JsSet.of_list l) <-> In y l.
Proof.
  induction l as [|x l IH] using rev_ind; [reflexivity|].
  rewrite of_list_snoc, add_In, IH, in_app_iff. simpl. intuition congruence.
Qed.

Lemma of_list_NoDup (l : list string) : NoDup (JsSet.of_list l).
Proof.
  induction l as [|x l IH] using rev_ind; [constructor|].
  rewrite of_list_snoc. unfold JsSet.add.
  destruct (JsSet.has x (JsSet.of_list l)) eqn:E; [exact IH|].
  apply NoDup_app; [exact IH | repeat constructor; auto |].
  intros a Ha [<-|[]]. apply has_In in Ha. congruence.
Qed.

Lemma index_of_In (x : string) (l : list string) :
  In x l <-> (index_of x l < List.length l)%nat.
Proof.
  induction l as [|y l IH]; simpl; [split; [tauto | lia]|].
  destruct (String.eqb x y) eqn:E.
  - apply String.eqb_eq in E. subst. split; [lia | auto].
  - apply String.eqb_neq in E. rewrite <- Nat.succ_lt_mono, <- IH.
    intuition congruence.
Qed.

Lemma index_of_bound (x : string) (l : list string) :
  (index_of x l <= List.length l)%nat.
Proof.
  induction l as [|y l IH]; simpl; [lia|]. destruct (String.eqb x y); lia.
Qed.

Lemma index_of_app (x : string) (l r : list string) :
  index_of x (l ++ r)
  = if JsSet.has x l then index_of x l else (List.length l + index_of x r)%nat.
Proof.
  induction l as [|y l IH]; simpl; [reflexivity|].
  destruct (String.eqb x y); simpl; [reflexivity|].
  rewrite IH. fold (JsSet.has x l). destruct (JsSet.has x l); reflexivity.
Qed.

Lemma has_false (x : string) (l : list string) :
  ~ In x l -> JsSet.has x l = false.
Proof. intros H. rewrite <- not_true_iff_false, has_In. exact H. Qed.

Lemma has_true (x : string) (l : list string) :
  In x l -> JsSet.has x l = true.
Proof. apply has_In. Qed.

(** [new Set(arr)] keeps the first occurrence of every string. *)
Lemma of_list_deduplicated (l : list string) : deduplicated l (JsSet.of_list l).
Proof.
  split; [apply of_list_NoDup|]. split; [intros w; apply of_list_In|].
  induction l as [|x l IH] using rev_ind; [intros a b []|].
  intros a b Ha Hb. rewrite of_list_snoc. unfold JsSet.add.
  destruct (JsSet.has x (JsSet.of_list l)) eqn:E.
  - assert (Hx : In x l) by (apply of_list_In, has_In, E).
    assert (Ha' : In a l) by (apply in_app_iff in Ha; simpl in Ha; intuition congruence).
    assert (Hb' : In b l) by (apply in_app_iff in Hb; simpl in Hb; intuition congruence).
    rewrite !index_of_app, (has_true _ _ Ha'), (has_true _ _ Hb'). now apply IH.
  - assert (Hx : ~ In x l).
    { intros H. apply of_list_In, has_In in H. congruence. }
    rewrite !index_of_app.
    destruct (JsSet.has a l) eqn:Ea, (JsSet.has b l) eqn:Eb.
    + apply has_In in Ea, Eb.
      rewrite (has_true a (JsSet.of_list l)), (has_true b (JsSet.of_list l))
        by now apply of_list_In.
      now apply IH.
    + apply has_In in Ea.
      rewrite (has_true a (JsSet.of_list l)) by now apply of_list_In.
      rewrite (has_false b (JsSet.of_list l))
        by (rewrite of_list_In, <- has_In; congruence).
      pose proof (proj1 (index_of_In a _) Ea).
      pose proof (proj1 (index_of_In a _) (proj2 (of_list_In l a) Ea)). lia.
    + apply has_In in Eb.
      rewrite (has_true b (JsSet.of_list l)) by now apply of_list_In.
      rewrite (has_false a (JsSet.of_list l))
        by (rewrite of_list_In, <- has_In; congruence).
      pose proof (proj1 (index_of_In b _) Eb).
      pose proof (proj1 (index_of_In b _) (proj2 (of_list_In l b) Eb)). lia.
    + assert (a = x).
      { apply in_app_iff in Ha. destruct Ha as [Ha|[Ha|[]]]; [|congruence].
        apply has_In in Ha. congruence. }
      assert (b = x).
      { apply in_app_iff in Hb. destruct Hb as [Hb|[Hb|[]]]; [|congruence].
        apply has_In in Hb. congruence. }
      subst. rewrite !(has_false x (JsSet.of_list l))
        by (rewrite of_list_In; exact Hx).
      lia.
Qed.

(** C8. The warnings of every returned report hold no string twice, hold
    exactly the strings the sources emitted, and keep them in the order of
    their first appearance in the sequence of all warnings merged in source
    order, also when two sources emit the same text: in the text pipeline
    and in the image pipeline. *)
Theorem C8_warnings_deduplicated_in_order :
  (forall text ai ling pat,
     deduplicated (TextSources.merged text ai ling pat)
       (TextAnalyzer.warnings (TextAnalyzer.assemble text ai ling pat)))
  /\ (forall net alt text apiKey,
        deduplicated
          (TextSources.merged text
             (Fulfilled (result (TextAnalyzer.detectAIContent net alt text apiKey)))
             (Fulfilled (TextAnalyzer.analyzeLinguistics text))
             (Fulfilled (TextAnalyzer.analyzePatterns text)))
          (TextAnalyzer.warnings (result (TextAnalyzer.analyze net alt text apiKey))))
  /\ (forall ai df meta px,
        deduplicated (ImageSources.merged ai df meta px)
          (ImageAnalyzer.warnings (ImageAnalyzer.assemble ai df meta px)))
  /\ (forall aiNet dfNet loaded canvas imageData apiKey,
        deduplicated
          (ImageSources.merged
             (Fulfilled (result (ImageAnalyzer.detectAIGenerated aiNet
                                   (ImageAnalyzer.bytes imageData) apiKey)))
             (Fulfilled (result (ImageAnalyzer.detectDeepfake dfNet
                                   (ImageAnalyzer.bytes imageData) apiKey)))
             (Fulfilled (ImageAnalyzer.analyzeMetadata imageData loaded))
             (ImageAnalyzer.analyzePixelPatterns canvas))
          (ImageAnalyzer.warnings
             (result (ImageAnalyzer.analyze aiNet dfNet loaded canvas imageData apiKey)))).
Proof.
  split; [|split; [|split]]; intros.
  - rewrite text_warnings. apply of_list_deduplicated.
  - rewrite text_analyze_result, text_warnings. apply of_list_deduplicated.
  - rewrite image_warnings. apply of_list_deduplicated.
  - rewrite image_analyze_result, image_warnings. apply of_list_deduplicated.
Qed.

End Deduplication.

(** ** The linguistic scores *)

Section LinguisticScores.
Import TextAnalyzer.

Lemma Qcompare_not_Lt_le (x y : Q) : (x ?= y) <> Lt -> y <= x.
Proof.
  intros H. apply Qnot_lt_le. intros Hlt. apply H.
  now apply Qlt_alt.
Qed.

(** Rounding a rational between two integers gives an integer between them. *)
Lemma round_range (lo hi : Z) (x : Q) :
  inject_Z lo <= x -> x <= inject_Z hi ->
  exists z, JsNum.round (Fin x) = of_Z z /\ (lo <= z <= hi)%Z.
Proof.
  intros Hlo Hhi. exists (Qfloor (x + (1 # 2))). split; [reflexivity|]. split.
  - rewrite <- (Qfloor_Z lo). apply Qfloor_resp_le.
    eapply Qle_trans; [exact Hlo|].
    rewrite <- (Qplus_0_r x) at 1. apply Qplus_le_r. discriminate.
  - apply Z.lt_succ_r, Z.lt_nge. intros Hge.
    apply (Qle_not_lt (inject_Z (Z.succ hi)) (x + (1 # 2))).
    + eapply Qle_trans; [|apply Qfloor_le]. rewrite <- Zle_Qle. exact Hge.
    + unfold Z.succ. rewrite inject_Z_plus.
      apply Qle_lt_trans with (y := inject_Z hi + (1 # 2)).
      * apply Qplus_le_l. exact Hhi.
      * apply Qplus_lt_r. reflexivity.
Qed.

Lemma Qsquare_nonneg (y : Q) : 0 <= y * y.
Proof.
  unfold Qle, Qmult. simpl. rewrite Z.mul_1_r. apply Z.square_nonneg.
Qed.

Lemma of_nat_as_Fin (n : nat) : JsNum.of_nat n = Fin (inject_Z (Z.of_nat n)).
Proof. reflexivity. Qed.

Lemma sentenceLengths_finite (sentences : list string) :
  exists qs, sentenceLengths_of sentences = map Fin qs
             /\ List.length qs = List.length sentences.
Proof.
  exists (map (fun s => inject_Z (Z.of_nat
                 (List.length (JsString.split_whitespace (JsString.trim s)))))
            sentences).
  unfold sentenceLengths_of. rewrite map_map, length_map. split; reflexivity.
Qed.

Lemma average_finite (qs : list Q) :
  qs <> [] -> exists q, average (map Fin qs) = Fin q.
Proof.
  intros Hqs. unfold average, JsNum.sum, of_Z. rewrite fold_add_fin.
  rewrite length_map, of_nat_as_Fin. unfold JsNum.div.
  rewrite of_nat_pos_nonzero by (destruct qs; [congruence | simpl; lia]).
  eauto.
Qed.

Lemma square_deviations_nonneg (qs : list Q) (avg a : Q) :
  0 <= a ->
  exists q,
    fold_left (fun sum len => JsNum.add sum (JsNum.pow2 (JsNum.sub len (Fin avg))))
      (map Fin qs) (Fin a) = Fin q /\ 0 <= q.
Proof.
  revert a. induction qs as [|x qs IH]; intros a Ha; simpl.
  - eauto.
  - apply IH.
    setoid_replace 0 with (0 + 0) by ring.
    apply Qplus_le_compat; [exact Ha|]. apply Qsquare_nonneg.
Qed.

Lemma mean_square_deviation_nonneg (qs : list Q) (avg : Q) :
  qs <> [] ->
  exists q, mean_square_deviation (map Fin qs) (Fin avg) = Fin q /\ 0 <= q.
Proof.
  intros Hqs. unfold mean_square_deviation, of_Z.
  destruct (square_deviations_nonneg qs avg (inject_Z 0)) as [q [-> Hq]];
    [discriminate|].
  rewrite length_map, of_nat_as_Fin. unfold JsNum.div.
  assert (Hlen : (0 < List.length qs)%nat) by (destruct qs; [congruence | simpl; lia]).
  rewrite of_nat_pos_nonzero by exact Hlen.
  eexists. split; [reflexivity|].
  apply Qle_shift_div_l.
  - replace 0 with (inject_Z 0) by reflexivity. rewrite <- Zlt_Qlt. lia.
  - rewrite Qmult_0_l. exact Hq.
Qed.

(** With no sentence the statistics are divisions of zero by zero. *)
Lemma deviation_of_nothing :
  mean_square_deviation (sentenceLengths_of []) (average (sentenceLengths_of [])) = NaN.
Proof. reflexivity. Qed.

Lemma deviation_of_sentences (sentences : list string) :
  sentences <> [] ->
  exists q,
    mean_square_deviation (sentenceLengths_of sentences)
      (average (sentenceLengths_of sentences)) = Fin q /\ 0 <= q.
Proof.
  intros Hs. destruct (sentenceLengths_finite sentences) as [qs [-> Hlen]].
  assert (Hqs : qs <> []) by (destruct qs, sentences; simpl in *; congruence).
  destruct (average_finite qs Hqs) as [avg ->].
  now apply mean_square_deviation_nonneg.
Qed.

Lemma nonneg_compare (q : Q) : 0 <= q -> (q ?= 0) <> Lt.
Proof.
  intros Hq E. apply Qlt_alt in E. exact (Qle_not_lt _ _ Hq E).
Qed.

(** [Math.round(stdDev * 8)] when [stdDev * 8] is at most 95. *)
Lemma round_scaled_range (q : Q) :
  0 <= q -> inject_Z (8 * 8) * q <= inject_Z (95 * 95) ->
  exists z, round_scaled 8 (Sqrt (Fin q)) = of_Z z /\ (0 <= z <= 95)%Z.
Proof.
  intros Hq Hle. unfold round_scaled, radicand.
  assert (Hfl : (0 <= Qfloor (inject_Z (4 * 8 * 8) * q) <= 36100)%Z).
  { split.
    - rewrite <- (Qfloor_Z 0). apply Qfloor_resp_le.
      apply Qmult_le_0_compat; [discriminate | exact Hq].
    - rewrite <- (Qfloor_Z 36100). apply Qfloor_resp_le.
      setoid_replace (inject_Z (4 * 8 * 8) * q) with (4 * (inject_Z (8 * 8) * q))
        by (simpl; ring).
      setoid_replace (inject_Z 36100) with (4 * inject_Z (95 * 95)) by reflexivity.
      apply Qmult_le_l; [reflexivity | exact Hle]. }
  assert (Hs : (0 <= Z.sqrt (Qfloor (inject_Z (4 * 8 * 8) * q)) <= 190)%Z).
  { split; [apply Z.sqrt_nonneg|].
    change 190%Z with (Z.sqrt 36100). apply Z.sqrt_le_mono. lia. }
  pose proof (nonneg_compare q Hq) as Hc.
  destruct (q ?= 0); try congruence;
    (eexists; split; [reflexivity|];
     split; [apply Z.div_pos; lia | apply Z.lt_succ_r, Z.div_lt_upper_bound; lia]).
Qed.

(** [Math.round(Math.min(stdDev * 8, 95))] of a real standard deviation. *)
Lemma variation_range (q : Q) :
  0 <= q ->
  exists z, round_min_scaled 8 95 (Sqrt (Fin q)) = of_Z z /\ (0 <= z <= 95)%Z.
Proof.
  intros Hq. unfold round_min_scaled. cbn [radicand].
  pose proof (nonneg_compare q Hq) as Hc.
  assert (H95 : exists z, JsNum.round (of_Z 95) = of_Z z /\ (0 <= z <= 95)%Z)
    by (exists 95%Z; split; [apply round_of_Z | lia]).
  destruct (inject_Z (95 * 95) ?= inject_Z (8 * 8) * q) eqn:E;
    destruct (q ?= 0) eqn:E0; try congruence; try exact H95;
    apply round_scaled_range; try exact Hq;
    apply Qcompare_not_Lt_le; rewrite E; discriminate.
Qed.

End LinguisticScores.

Section LinguisticsReport.
Import TextAnalyzer.

(** The integer [round_scaled] returns is the integer nearest to
    [c * sqrt q]: with [k] the result, [k - 1/2 <= c * sqrt q < k + 1/2],
    here in squared form. *)
Lemma round_scaled_nearest (c : Z) (q : Q) :
  (0 < c)%Z -> 0 <= q ->
  exists k, round_scaled c (Sqrt (Fin q)) = of_Z k
    /\ (0 <= k)%Z
    /\ (k = 0%Z \/ inject_Z ((2 * k - 1) * (2 * k - 1)) <= inject_Z (4 * c * c) * q)
    /\ inject_Z (4 * c * c) * q < inject_Z ((2 * k + 1) * (2 * k + 1)).
Proof.
  intros Hc Hq. unfold round_scaled, radicand.
  set (x := inject_Z (4 * c * c) * q).
  assert (Hx : 0 <= x).
  { apply Qmult_le_0_compat; [|exact Hq].
    replace 0 with (inject_Z 0) by reflexivity. rewrite <- Zle_Qle. nia. }
  assert (Hn : (0 <= Qfloor x)%Z).
  { rewrite <- (Qfloor_Z 0). now apply Qfloor_resp_le. }
  pose proof (Z.sqrt_spec (Qfloor x) Hn) as Hs. cbv zeta in Hs.
  pose proof (Z.sqrt_nonneg (Qfloor x)) as Hs0.
  set (s := Z.sqrt (Qfloor x)) in *.
  pose proof (Z.div_mod (s + 1) 2 ltac:(lia)) as Hd.
  pose proof (Z.mod_pos_bound (s + 1) 2 ltac:(lia)) as Hm.
  set (k := ((s + 1) / 2)%Z) in *.
  pose proof (nonneg_compare q Hq) as Hcmp.
  assert (R : (0 <= k)%Z
              /\ (k = 0%Z \/ inject_Z ((2 * k - 1) * (2 * k - 1)) <= x)
              /\ x < inject_Z ((2 * k + 1) * (2 * k + 1))).
  { split; [lia|]. split.
    - destruct (Z.eq_dec k 0) as [E|E]; [left; exact E | right].
      eapply Qle_trans; [|apply Qfloor_le]. rewrite <- Zle_Qle. nia.
    - eapply Qlt_le_trans; [apply Qlt_floor|]. rewrite <- Zle_Qle. nia. }
  destruct (q ?= 0); try congruence; exists k; (split; [reflexivity | exact R]).
Qed.

Lemma vocabulary_of_words (text : string) :
  cleanWords_of text <> [] ->
  exists z, vocabularyScore (analyzeLinguistics text) = of_Z z /\ (0 <= z <= 95)%Z.
Proof.
  intros Hw. unfold analyzeLinguistics. cbn [vocabularyScore].
  set (cw := cleanWords_of text) in *.
  rewrite !of_nat_as_Fin. unfold JsNum.div.
  rewrite of_nat_pos_nonzero by (destruct cw; [congruence | simpl; lia]).
  set (ttr := inject_Z (Z.of_nat (JsSet.size (JsSet.of_list cw)))
              / inject_Z (Z.of_nat (List.length cw))).
  assert (Httr : 0 <= ttr).
  { apply Qle_shift_div_l.
    - replace 0 with (inject_Z 0) by reflexivity. rewrite <- Zlt_Qlt.
      destruct cw; [congruence | simpl; lia].
    - rewrite Qmult_0_l. replace 0 with (inject_Z 0) by reflexivity.
      rewrite <- Zle_Qle. lia. }
  unfold of_Z. cbn [JsNum.mul JsNum.min JsNum.lt].
  destruct (inject_Z 95 ?= ttr * inject_Z 130) eqn:E.
  - apply (round_range 0 95).
    + apply Qmult_le_0_compat; [exact Httr | discriminate].
    + apply Qcompare_not_Lt_le. rewrite E. discriminate.
  - exists 95%Z. split; [apply (round_of_Z 95) | lia].
  - apply (round_range 0 95).
    + apply Qmult_le_0_compat; [exact Httr | discriminate].
    + apply Qcompare_not_Lt_le. rewrite E. discriminate.
Qed.

Lemma vocabulary_of_no_word (text : string) :
  cleanWords_of text = [] -> vocabularyScore (analyzeLinguistics text) = NaN.
Proof.
  intros Hw. unfold analyzeLinguistics. cbn [vocabularyScore].
  rewrite Hw. reflexivity.
Qed.

Lemma variation_of_sentences (text : string) :
  sentences_of text <> [] ->
  exists z, variationScore (analyzeLinguistics text) = of_Z z /\ (0 <= z <= 95)%Z.
Proof.
  intros Hs. unfold analyzeLinguistics. cbn [variationScore].
  destruct (deviation_of_sentences _ Hs) as [q [-> Hq]].
  now apply variation_range.
Qed.

Lemma variation_of_no_sentence (text : string) :
  sentences_of text = [] -> variationScore (analyzeLinguistics text) = NaN.
Proof.
  intros Hs. unfold analyzeLinguistics. cbn [variationScore].
  rewrite Hs. reflexivity.
Qed.

Lemma diversity_eq (text : string) :
  diversityScore (analyzeLinguistics text)
  = JsNum.round (JsNum.div (JsNum.add (vocabularyScore (analyzeLinguistics text))
                              (variationScore (analyzeLinguistics text)))
                   (of_Z 2)).
Proof. reflexivity. Qed.

Lemma diversity_of_integers (a b : Z) :
  (0 <= a <= 95)%Z -> (0 <= b <= 95)%Z ->
  exists z, JsNum.round (JsNum.div (JsNum.add (of_Z a) (of_Z b)) (of_Z 2)) = of_Z z
            /\ (0 <= z <= 95)%Z.
Proof.
  intros Ha Hb. cbn [JsNum.add JsNum.div of_Z].
  replace (Qeq_bool (inject_Z 2) 0) with false by reflexivity.
  apply (round_range 0 95).
  - apply Qle_shift_div_l; [reflexivity|]. rewrite Qmult_0_l.
    rewrite <- inject_Z_plus. replace 0 with (inject_Z 0) by reflexivity.
    rewrite <- Zle_Qle. lia.
  - apply Qle_shift_div_r; [reflexivity|].
    rewrite <- inject_Z_plus, <- inject_Z_mult, <- Zle_Qle. lia.
Qed.

End LinguisticsReport.

(** ** Words and sentences *)

Section Tokens.
Import JsString TextAnalyzer.


Lemma letter_lowers_to_lower (c : ascii) :
  is_letter c = true -> is_lower (lower_char c) = true.
Proof.
  destruct c as [[|] [|] [|] [|] [|] [|] [|] [|]]; vm_compute; congruence.
Qed.








Lemma letter_survives_cleaning (w : string) :
  exists_char is_letter w = true ->
  is_empty (filter_chars (fun c => is_lower c || Ascii.eqb c "'"%char) (toLowerCase w))
  = false.
Proof.
  induction w as [|c w IH]; simpl; [discriminate|]. intros H.
  destruct (is_letter c) eqn:Hc.
  - rewrite (letter_lowers_to_lower c Hc). reflexivity.
  - simpl in H. destruct (is_lower (lower_char c) || Ascii.eqb (lower_char c) "'"%char);
      [reflexivity | now apply IH].
Qed.

(** A text with a word that holds a letter has a clean word. *)
Lemma ascii_letter_word_is_clean (text : string) :
  has_ascii_letter_word text = true -> cleanWords_of text <> [].
Proof.
  unfold has_ascii_letter_word. intros H. apply existsb_exists in H.
  destruct H as [w [Hw Hl]].
  assert (Hin : In (filter_chars (fun c => is_lower c || Ascii.eqb c "'"%char)
                      (toLowerCase w)) (cleanWords_of text)).
  { unfold cleanWords_of. apply filter_In. split.
    - apply in_map_iff. eauto.
    - rewrite (letter_survives_cleaning w Hl). reflexivity. }
  intros E. rewrite E in Hin. destruct Hin.
Qed.

End Tokens.

(** ** Remote inference *)

Section RemoteInference.
Import Http.

Lemma percent_integer (it : item) : numeric it -> exists z, percent it = of_Z z.
Proof.
  unfold numeric, percent. destruct (score it); try discriminate.
  intros _. eexists. reflexivity.
Qed.

Lemma probability_numeric (it : item) : probability it -> numeric it.
Proof. intros [q [E _]]. unfold numeric. now rewrite E. Qed.

Lemma percent_of_probability (it : item) :
  probability it -> integer_within 0 100 (percent it).
Proof.
  intros [q [E [H0 H1]]]. unfold percent. rewrite E. cbn [JsNum.mul of_Z].
  apply (round_range 0 100).
  - apply Qmult_le_0_compat; [exact H0 | discriminate].
  - setoid_replace (inject_Z 100) with (1 * inject_Z 100) at 2 by ring.
    apply Qmult_le_compat_r; [exact H1 | discriminate].
Qed.

(** *** The text detector *)

(** What holds of the default and of every percentage the loop can assign
    holds of the score the loop returns. *)
Lemma text_scan_preserves (P : jsnum -> Prop) accepts results humanScore s :
  P humanScore -> (forall it, In it results -> P (percent it)) ->
  TextAnalyzer.scan accepts results humanScore = Some s -> P s.
Proof.
  revert humanScore. induction results as [|it results IH]; intros h Hh Hall E; simpl in E.
  - congruence.
  - destruct (label it) as [l|]; [|discriminate].
    assert (Hrest : forall it', In it' results -> P (percent it'))
      by (intros; apply Hall; simpl; auto).
    destruct (accepts (JsString.toLowerCase l)).
    + apply (IH (percent it)); auto. apply Hall. simpl. auto.
    + apply (IH h); auto.
Qed.

Lemma tryAlternateModel_preserves (P : jsnum -> Prop) alt text apiKey v :
  P (of_Z 50) -> (forall it, In it (net_items alt) -> P (percent it)) ->
  result (TextAnalyzer.tryAlternateModel alt text apiKey) = Some v ->
  P (TextAnalyzer.humanScore v).
Proof.
  intros H50 Hall. unfold TextAnalyzer.tryAlternateModel, bind, emit, result.
  destruct alt as [|[|response] alt]; simpl; try discriminate.
  assert (Hitems : forall it, In it (outcome_items (Responded response)) -> P (percent it)).
  { intros it Hit. apply Hall. simpl. apply in_app_iff. auto. }
  simpl in Hitems.
  destruct (ok response); simpl; [|discriminate].
  destruct (json response) as [[msg|items|first rest| |]|]; simpl; try discriminate;
    try (intros [= <-]; exact H50).
  all: destruct (TextAnalyzer.scan _ _ _) eqn:E; simpl; [|discriminate];
    intros [= <-]; simpl;
    eapply text_scan_preserves; [exact H50 | | exact E]; exact Hitems.
Qed.

Lemma detectAIContent_preserves (P : jsnum -> Prop) net alt text apiKey v :
  P (of_Z 50) ->
  (forall it, In it (net_items net) -> P (percent it)) ->
  (forall it, In it (net_items alt) -> P (percent it)) ->
  result (TextAnalyzer.detectAIContent net alt text apiKey) = Some v ->
  P (TextAnalyzer.humanScore v).
Proof.
  intros H50 Hnet Halt. revert Hnet.
  induction net as [|o net IH]; intros Hnet; [discriminate|].
  destruct o as [|response]; [discriminate|].
  assert (Hitems : forall it, In it (outcome_items (Responded response)) -> P (percent it)).
  { intros it Hit. apply Hnet. simpl. apply in_app_iff. auto. }
  assert (Hrest : forall it, In it (net_items net) -> P (percent it)).
  { intros it Hit. apply Hnet. simpl. apply in_app_iff. auto. }
  specialize (IH Hrest). simpl in Hitems.
  cbn [TextAnalyzer.detectAIContent]. unfold bind at 1, emit, result.
  destruct (ok response) eqn:Hok; cbn [negb].
  - destruct (json response) as [[msg|items|first rest| |]|]; simpl; try discriminate;
      try (intros [= <-]; exact H50).
    + destruct (JsString.is_empty msg); simpl; [intros [= <-]; exact H50|].
      destruct (JsString.includes "loading" msg); simpl; [|discriminate].
      unfold bind, emit, result in *.
      destruct (TextAnalyzer.detectAIContent net alt text apiKey) as [res tr].
      simpl in *. exact IH.
    + destruct (TextAnalyzer.scan _ _ _) eqn:E; simpl; [|discriminate].
      intros [= <-]. simpl.
      eapply text_scan_preserves; [exact H50 | | exact E]; exact Hitems.
    + destruct (TextAnalyzer.scan _ _ _) eqn:E; simpl; [|discriminate].
      intros [= <-]. simpl.
      eapply text_scan_preserves; [exact H50 | | exact E]; exact Hitems.
  - pose proof (tryAlternateModel_preserves P alt text apiKey v H50 Halt) as HA.
    unfold result in HA.
    destruct (TextAnalyzer.tryAlternateModel alt text apiKey) as [res tr].
    simpl in *. exact HA.
Qed.

End RemoteInference.

Section RemoteSteps.
Import Http.

(** *** One request of the text detector *)

Lemma tryAlternateModel_trace alt text apiKey :
  trace (TextAnalyzer.tryAlternateModel alt text apiKey)
  = [Fetch (TextAnalyzer.text_request TextAnalyzer.alternate_url text apiKey)].
Proof.
  unfold TextAnalyzer.tryAlternateModel, bind, emit, trace.
  destruct alt as [|[|response] alt]; try reflexivity.
  destruct (ok response); [|reflexivity].
  destruct (json response) as [[msg|items|first rest| |]|]; reflexivity.
Qed.

Lemma text_failure_step response net alt text apiKey :
  ok response = false ->
  TextAnalyzer.detectAIContent (Responded response :: net) alt text apiKey
  = (result (TextAnalyzer.tryAlternateModel alt text apiKey),
     [Fetch (TextAnalyzer.text_request TextAnalyzer.primary_url text apiKey);
      Fetch (TextAnalyzer.text_request TextAnalyzer.alternate_url text apiKey)]).
Proof.
  intros Hok. cbn [TextAnalyzer.detectAIContent]. rewrite Hok. cbn [negb].
  pose proof (tryAlternateModel_trace alt text apiKey) as Ht.
  unfold bind, emit, result, trace in *.
  destruct (TextAnalyzer.tryAlternateModel alt text apiKey) as [res tr].
  simpl in *. now subst.
Qed.

Lemma text_retry_step o net alt text apiKey :
  loading_success o = true ->
  TextAnalyzer.detectAIContent (o :: net) alt text apiKey
  = (result (TextAnalyzer.detectAIContent net alt text apiKey),
     Fetch (TextAnalyzer.text_request TextAnalyzer.primary_url text apiKey)
       :: Sleep 20000 :: trace (TextAnalyzer.detectAIContent net alt text apiKey)).
Proof.
  destruct o as [|response]; [discriminate|]. unfold loading_success, loading_body.
  intros H. apply andb_true_iff in H. destruct H as [Hok Hb].
  destruct (json response) as [[msg| | | |]|] eqn:Hj; try discriminate.
  unfold is_loading in Hb. apply andb_true_iff in Hb. destruct Hb as [Hne Hl].
  apply negb_true_iff in Hne.
  cbn [TextAnalyzer.detectAIContent]. rewrite Hok, Hj, Hne, Hl. cbn [negb].
  unfold bind, emit, result, trace.
  destruct (TextAnalyzer.detectAIContent net alt text apiKey) as [res tr]. reflexivity.
Qed.

Lemma text_retries pre net alt text apiKey :
  (forall o, In o pre -> loading_success o = true) ->
  TextAnalyzer.detectAIContent (pre ++ net) alt text apiKey
  = (result (TextAnalyzer.detectAIContent net alt text apiKey),
     retries (TextAnalyzer.text_request TextAnalyzer.primary_url text apiKey)
       (List.length pre)
     ++ trace (TextAnalyzer.detectAIContent net alt text apiKey)).
Proof.
  induction pre as [|o pre IH]; intros H.
  - simpl. now destruct (TextAnalyzer.detectAIContent net alt text apiKey).
  - rewrite <- app_comm_cons, text_retry_step by (apply H; simpl; auto).
    rewrite IH by (intros; apply H; simpl; auto). reflexivity.
Qed.

Lemma text_error_step response net alt text apiKey msg :
  ok response = true -> json response = Some (BError msg) ->
  JsString.is_empty msg = false -> JsString.includes "loading" msg = false ->
  TextAnalyzer.detectAIContent (Responded response :: net) alt text apiKey
  = (None, [Fetch (TextAnalyzer.text_request TextAnalyzer.primary_url text apiKey)]).
Proof.
  intros Hok Hj Hne Hl. cbn [TextAnalyzer.detectAIContent].
  rewrite Hok, Hj, Hne, Hl. reflexivity.
Qed.

(** *** One request of an image detector *)

Lemma image_retry_step model accepts o net binaryData apiKey :
  loading_failure o = true ->
  ImageAnalyzer.detect model accepts (o :: net) binaryData apiKey
  = (result (ImageAnalyzer.detect model accepts net binaryData apiKey),
     Fetch (ImageAnalyzer.image_request model binaryData apiKey)
       :: Sleep 20000
       :: trace (ImageAnalyzer.detect model accepts net binaryData apiKey)).
Proof.
  destruct o as [|response]; [discriminate|]. unfold loading_failure, loading_body.
  intros H. apply andb_true_iff in H. destruct H as [Hok Hb].
  destruct (json response) as [[msg| | | |]|] eqn:Hj; try discriminate.
  cbn [ImageAnalyzer.detect]. rewrite Hok, Hj. cbn [error_of]. rewrite Hb.
  unfold bind, emit, result, trace.
  destruct (ImageAnalyzer.detect model accepts net binaryData apiKey) as [res tr].
  reflexivity.
Qed.

Lemma image_retries model accepts pre net binaryData apiKey :
  (forall o, In o pre -> loading_failure o = true) ->
  ImageAnalyzer.detect model accepts (pre ++ net) binaryData apiKey
  = (result (ImageAnalyzer.detect model accepts net binaryData apiKey),
     retries (ImageAnalyzer.image_request model binaryData apiKey) (List.length pre)
     ++ trace (ImageAnalyzer.detect model accepts net binaryData apiKey)).
Proof.
  induction pre as [|o pre IH]; intros H.
  - simpl. now destruct (ImageAnalyzer.detect model accepts net binaryData apiKey).
  - rewrite <- app_comm_cons, image_retry_step by (apply H; simpl; auto).
    rewrite IH by (intros; apply H; simpl; auto). reflexivity.
Qed.

Lemma image_failure_step model accepts response net binaryData apiKey :
  ok response = false -> loading_body response = false ->
  ImageAnalyzer.detect model accepts (Responded response :: net) binaryData apiKey
  = (None, [Fetch (ImageAnalyzer.image_request model binaryData apiKey)]).
Proof.
  intros Hok Hb. unfold loading_body in Hb. cbn [ImageAnalyzer.detect].
  rewrite Hok. cbn [negb].
  destruct (json response) as [[msg| | | |]|]; cbn [error_of];
    try rewrite Hb; reflexivity.
Qed.

Lemma image_success_step model accepts response net binaryData apiKey data :
  ok response = true -> json response = Some data ->
  ImageAnalyzer.detect model accepts (Responded response :: net) binaryData apiKey
  = (Some (ImageAnalyzer.Detection (ImageAnalyzer.parse accepts data)),
     [Fetch (ImageAnalyzer.image_request model binaryData apiKey)]).
Proof.
  intros Hok Hj. cbn [ImageAnalyzer.detect]. rewrite Hok, Hj. reflexivity.
Qed.

(** What holds of the default and of every percentage holds of the score an
    image detector returns. *)
Lemma image_scan_preserves (P : jsnum -> Prop) accepts items :
  P (of_Z 50) -> (forall it, In it items -> P (percent it)) ->
  P (ImageAnalyzer.scan accepts items).
Proof.
  unfold ImageAnalyzer.scan. generalize (of_Z 50).
  induction items as [|it items IH]; intros s Hs Hall; simpl; [exact Hs|].
  apply IH; [|intros; apply Hall; simpl; auto].
  destruct (accepts (ImageAnalyzer.label_of it)); [apply Hall; simpl; auto | exact Hs].
Qed.

Lemma image_parse_preserves (P : jsnum -> Prop) accepts data :
  accepts "" = false ->
  P (of_Z 50) -> (forall it, In it (body_items data) -> P (percent it)) ->
  P (ImageAnalyzer.parse accepts data).
Proof.
  intros Hacc H50 Hall. destruct data as [msg|items|first rest| |]; simpl; try exact H50.
  - now apply image_scan_preserves.
  - rewrite Hacc. clear Hall.
    generalize (of_Z 50) H50. induction rest as [|x rest IH]; intros s Hs; simpl; auto.
Qed.

Lemma image_detect_preserves (P : jsnum -> Prop) model accepts net binaryData apiKey v :
  accepts "" = false ->
  P (of_Z 50) -> (forall it, In it (net_items net) -> P (percent it)) ->
  result (ImageAnalyzer.detect model accepts net binaryData apiKey) = Some v ->
  P (ImageAnalyzer.realScore v).
Proof.
  intros Hacc H50. induction net as [|o net IH]; intros Hnet; [discriminate|].
  destruct o as [|response]; [discriminate|].
  assert (Hitems : forall it, In it (outcome_items (Responded response)) -> P (percent it)).
  { intros it Hit. apply Hnet. simpl. apply in_app_iff. auto. }
  assert (Hrest : forall it, In it (net_items net) -> P (percent it)).
  { intros it Hit. apply Hnet. simpl. apply in_app_iff. auto. }
  specialize (IH Hrest). simpl in Hitems.
  destruct (ok response) eqn:Hok.
  - destruct (json response) as [data|] eqn:Hj.
    + rewrite (image_success_step _ _ _ _ _ _ data Hok Hj). intros [= <-]. simpl.
      now apply image_parse_preserves.
    + cbn [ImageAnalyzer.detect]. rewrite Hok, Hj. discriminate.
  - destruct (loading_body response) eqn:Hb.
    + rewrite image_retry_step by (simpl; now rewrite Hok, Hb). exact IH.
    + rewrite image_failure_step by assumption. discriminate.
Qed.

End RemoteSteps.

Section LabelDefaults.
Import Http.

Lemma text_scan_no_match accepts items s :
  (forall it, In it items ->
     exists l, label it = Some l /\ accepts (JsString.toLowerCase l) = false) ->
  TextAnalyzer.scan accepts items s = Some s.
Proof.
  induction items as [|it items IH]; intros H; simpl; [reflexivity|].
  destruct (H it) as [l [-> Hl]]; [simpl; auto|]. rewrite Hl.
  apply IH. intros. apply H. simpl. auto.
Qed.







End LabelDefaults.

Section RetryProtocol.
Import Http.

(** C2, as stated, fails for the text detector: a response that is not a
    success and reports a loading model is neither waited for nor retried,
    and a response that is not a success and reports another error is not a
    failure of the call; in both cases the alternate model is asked once. *)
Lemma C2_text_failure_is_not_retried :
  ~ (forall o net alt text apiKey,
       loading_failure o = true ->
       trace (TextAnalyzer.detectAIContent (o :: net) alt text apiKey)
       = Fetch (TextAnalyzer.text_request TextAnalyzer.primary_url text apiKey)
           :: Sleep 20000
           :: trace (TextAnalyzer.detectAIContent net alt text apiKey))
  /\ ~ (forall response net alt text apiKey,
          ok response = false -> loading_body response = false ->
          result (TextAnalyzer.detectAIContent (Responded response :: net) alt text apiKey)
          = None).
Proof.
  split; intros H.
  - specialize (H (Responded (Response false 503
                                (Some (BError "Model is currently loading"))))
                  [] [] "Some text under test." "hf_key" eq_refl).
    vm_compute in H. discriminate.
  - specialize (H (Response false 500 (Some (BError "Internal Server Error"))) []
                  [Responded (Response true 200
                                (Some (BFlat [Item (Some "Human") (Fin (9 # 10))])))]
                  "Some text under test." "hf_key" eq_refl eq_refl).
    vm_compute in H. discriminate.
Qed.

(** C2, amended. In the image detectors a response that is not a success
    and whose error text contains "loading" makes the client wait 20
    seconds and send the identical request again, for as many such
    responses as the service gives; any other response that is not a
    success is a failure of the call.  In the text detector a response that
    is not a success is never waited for: the alternate model is asked once
    and its outcome is the outcome of the call; the wait of 20 seconds and
    the identical request follow, without bound, a success response whose
    body carries an error text containing "loading", and a success response
    with another error text is a failure of the call. *)
Theorem C2_loading_retry_protocol :
  (forall model accepts pre net binaryData apiKey,
     (forall o, In o pre -> loading_failure o = true) ->
     ImageAnalyzer.detect model accepts (pre ++ net) binaryData apiKey
     = (result (ImageAnalyzer.detect model accepts net binaryData apiKey),
        retries (ImageAnalyzer.image_request model binaryData apiKey) (List.length pre)
        ++ trace (ImageAnalyzer.detect model accepts net binaryData apiKey)))
  /\ (forall model accepts response net binaryData apiKey,
        ok response = false -> loading_body response = false ->
        ImageAnalyzer.detect model accepts (Responded response :: net) binaryData apiKey
        = (None, [Fetch (ImageAnalyzer.image_request model binaryData apiKey)]))
  /\ (forall response net alt text apiKey,
        ok response = false ->
        TextAnalyzer.detectAIContent (Responded response :: net) alt text apiKey
        = (result (TextAnalyzer.tryAlternateModel alt text apiKey),
           [Fetch (TextAnalyzer.text_request TextAnalyzer.primary_url text apiKey);
            Fetch (TextAnalyzer.text_request TextAnalyzer.alternate_url text apiKey)]))
  /\ (forall pre net alt text apiKey,
        (forall o, In o pre -> loading_success o = true) ->
        TextAnalyzer.detectAIContent (pre ++ net) alt text apiKey
        = (result (TextAnalyzer.detectAIContent net alt text apiKey),
           retries (TextAnalyzer.text_request TextAnalyzer.primary_url text apiKey)
             (List.length pre)
           ++ trace (TextAnalyzer.detectAIContent net alt text apiKey)))
  /\ (forall response net alt text apiKey msg,
        ok response = true -> json response = Some (BError msg) ->
        JsString.is_empty msg = false -> JsString.includes "loading" msg = false ->
        TextAnalyzer.detectAIContent (Responded response :: net) alt text apiKey
        = (None, [Fetch (TextAnalyzer.text_request TextAnalyzer.primary_url text apiKey)])).
Proof.
  split; [|split; [|split; [|split]]].
  - apply image_retries.
  - apply image_failure_step.
  - apply text_failure_step.
  - apply text_retries.
  - apply text_error_step.
Qed.

(** Two loading responses, then a classification: two waits, three
    identical requests, and the score of the classification.  For the text
    detector a loading failure sends one request to each model. *)
Lemma C2_witness :
  let loading := Responded (Response false 503
                              (Some (BError "Model umm-maybe/AI-image-detector is currently loading"))) in
  let answer := Responded (Response true 200
                             (Some (BFlat [Item (Some "human") (Fin (83 # 100));
                                           Item (Some "artificial") (Fin (17 # 100))]))) in
  let req := ImageAnalyzer.image_request ImageAnalyzer.aiImageDetector [] "hf_key" in
  ImageAnalyzer.detectAIGenerated ([loading; loading] ++ [answer]) [] "hf_key"
  = (Some (ImageAnalyzer.Detection (of_Z 83)),
     [Fetch req; Sleep 20000; Fetch req; Sleep 20000; Fetch req])
  /\ TextAnalyzer.detectAIContent [loading; answer] [answer] "Some text under test." "hf_key"
     = (Some (TextAnalyzer.Detection (of_Z 83)),
        [Fetch (TextAnalyzer.text_request TextAnalyzer.primary_url
                  "Some text under test." "hf_key");
         Fetch (TextAnalyzer.text_request TextAnalyzer.alternate_url
                  "Some text under test." "hf_key")]).
Proof.
  intros loading answer req. split.
  - unfold ImageAnalyzer.detectAIGenerated.
    rewrite (proj1 C2_loading_retry_protocol).
    + reflexivity.
    + intros o [<-|[<-|[]]]; reflexivity.
  - subst loading.
    rewrite (proj1 (proj2 (proj2 C2_loading_retry_protocol))) by reflexivity.
    reflexivity.
Defined.

End RetryProtocol.

(** ** The shape of the scores *)

Section ScoreShapes.

Lemma overall_integer_or_nan (b : list entry) :
  b <> [] -> (forall e, In e b -> integer_or_nan (score e)) ->
  integer_or_nan (overall_of b).
Proof.
  intros Hb Hall.
  destruct (overall_of_rounded_mean b Hb) as [_ [[qs [m [_ [-> _]]]]|[[_ ->]|[Hn [[s [Hs Hf]] _]]]]].
  - right. eauto.
  - left. reflexivity.
  - exfalso. unfold scores_of in Hs, Hn. apply in_map_iff in Hs.
    destruct Hs as [e [<- He]].
    destruct (Hall e He) as [E|[z E]]; rewrite E in *.
    + apply Hn. apply in_map_iff. exists e. auto.
    + discriminate.
Qed.

Lemma overall_finite (b : list entry) :
  b <> [] -> (forall e, In e b -> exists z, score e = of_Z z) ->
  exists m, overall_of b = of_Z m.
Proof.
  intros Hb Hall.
  assert (Hfin : forall s, In s (scores_of b) -> is_finite s = true).
  { intros s Hs. apply in_map_iff in Hs. destruct Hs as [e [<- He]].
    destruct (Hall e He) as [z ->]. reflexivity. }
  destruct (overall_of_rounded_mean b Hb) as [_ [[qs [m [_ [-> _]]]]|[[Hn _]|[_ [[s [Hs Hf]] _]]]]].
  - eauto.
  - apply Hfin in Hn. discriminate.
  - apply Hfin in Hs. congruence.
Qed.


Lemma text_remote_integer net alt text apiKey v :
  (forall it, In it (net_items net ++ net_items alt) -> numeric it) ->
  Http.result (TextAnalyzer.detectAIContent net alt text apiKey) = Some v ->
  exists z, TextAnalyzer.humanScore v = of_Z z.
Proof.
  intros Hn.
  apply (detectAIContent_preserves (fun s => exists z, s = of_Z z)); eauto;
    intros it Hit; apply percent_integer, Hn, in_app_iff; auto.
Qed.

Lemma image_remote_integer model accepts net binaryData apiKey v :
  accepts "" = false ->
  (forall it, In it (net_items net) -> numeric it) ->
  Http.result (ImageAnalyzer.detect model accepts net binaryData apiKey) = Some v ->
  exists z, ImageAnalyzer.realScore v = of_Z z.
Proof.
  intros Hacc Hn.
  apply (image_detect_preserves (fun s => exists z, s = of_Z z)); eauto;
    intros it Hit; apply percent_integer, Hn, Hit.
Qed.

(** The overall score is an integer or is not finite. *)
Lemma overall_integer_or_not_finite (b : list entry) :
  b <> [] ->
  (exists z, overall_of b = of_Z z)
  \/ overall_of b = NaN \/ overall_of b = PInf \/ overall_of b = NInf.
Proof.
  intros Hb.
  destruct (overall_of_rounded_mean b Hb) as [_ [[qs [m [_ [-> _]]]]|[[_ ->]|[_ [_ Hf]]]]].
  - left. eauto.
  - auto.
  - destruct (overall_of b); try discriminate; auto.
Qed.

(** The three linguistic scores are integers in [0, 95] or NaN. *)
Lemma vocabulary_shape (text : string) :
  TextAnalyzer.vocabularyScore (TextAnalyzer.analyzeLinguistics text) = NaN
  \/ integer_within 0 95 (TextAnalyzer.vocabularyScore (TextAnalyzer.analyzeLinguistics text)).
Proof.
  destruct (TextAnalyzer.cleanWords_of text) eqn:E.
  - left. now apply vocabulary_of_no_word.
  - right. apply vocabulary_of_words. congruence.
Qed.

Lemma variation_shape (text : string) :
  TextAnalyzer.variationScore (TextAnalyzer.analyzeLinguistics text) = NaN
  \/ integer_within 0 95 (TextAnalyzer.variationScore (TextAnalyzer.analyzeLinguistics text)).
Proof.
  destruct (TextAnalyzer.sentences_of text) eqn:E.
  - left. now apply variation_of_no_sentence.
  - right. apply variation_of_sentences. congruence.
Qed.

Lemma diversity_shape (text : string) :
  let ling := TextAnalyzer.analyzeLinguistics text in
  (TextAnalyzer.diversityScore ling = NaN
   /\ (TextAnalyzer.vocabularyScore ling = NaN \/ TextAnalyzer.variationScore ling = NaN))
  \/ (integer_within 0 95 (TextAnalyzer.diversityScore ling)
      /\ integer_within 0 95 (TextAnalyzer.vocabularyScore ling)
      /\ integer_within 0 95 (TextAnalyzer.variationScore ling)).
Proof.
  intros ling. subst ling. rewrite diversity_eq.
  destruct (vocabulary_shape text) as [Hv|[a [Hv Ha]]];
    destruct (variation_shape text) as [Hs|[b [Hs Hb]]]; rewrite Hv, Hs.
  - left. split; [reflexivity | auto].
  - left. split; [reflexivity | auto].
  - left. split; [reflexivity | auto].
  - right. split; [now apply diversity_of_integers|].
    split; [exists a | exists b]; auto.
Qed.

Lemma clamp_range (lo hi x : Z) : (lo <= hi)%Z -> (lo <= clamp lo hi x <= hi)%Z.
Proof. unfold clamp. lia. Qed.

Lemma within_weaken (lo hi lo' hi' : Z) (s : jsnum) :
  (lo' <= lo)%Z -> (hi <= hi')%Z -> integer_within lo hi s -> integer_within lo' hi' s.
Proof. intros H1 H2 [z [-> Hz]]. exists z. split; [reflexivity | lia]. Qed.

Lemma within_integer_or_nan (lo hi : Z) (s : jsnum) :
  integer_within lo hi s -> integer_or_nan s.
Proof. intros [z [-> _]]. right. eauto. Qed.

(** Every row of a text report holds an integer or NaN when the scores of
    the responses are numbers. *)
Lemma text_rows_shape net alt text apiKey e :
  (forall it, In it (net_items net ++ net_items alt) -> numeric it) ->
  In e (TextAnalyzer.breakdown (Http.result (TextAnalyzer.analyze net alt text apiKey))) ->
  integer_or_nan (score e).
Proof.
  intros Hn. rewrite text_analyze_result, text_breakdown. intros He.
  apply in_app_iff in He. destruct He as [He|He].
  - rows_in He.
    destruct (Http.result (TextAnalyzer.detectAIContent net alt text apiKey)) as [v|] eqn:E;
      destruct He as [<-|[]]; cbn [score]; right; [|eauto].
    now apply (text_remote_integer net alt text apiKey).
  - apply in_app_iff in He. destruct He as [He|He]; rows_in He.
    + destruct He as [<-|[<-|[<-|[]]]]; cbn [score].
      * destruct (diversity_shape text) as [[Hd _]|[Hd _]];
          [left; exact Hd | eapply within_integer_or_nan; exact Hd].
      * destruct (variation_shape text) as [Hd|Hd];
          [left; exact Hd | eapply within_integer_or_nan; exact Hd].
      * destruct (vocabulary_shape text) as [Hd|Hd];
          [left; exact Hd | eapply within_integer_or_nan; exact Hd].
    + destruct He as [<-|[<-|[]]]; cbn [score]; right; eauto.
Qed.

(** Every row of an image report holds an integer when the scores of the
    responses are numbers. *)
Lemma image_rows_shape aiNet dfNet loaded canvas imageData apiKey e :
  (forall it, In it (net_items aiNet ++ net_items dfNet) -> numeric it) ->
  In e (ImageAnalyzer.breakdown
          (Http.result (ImageAnalyzer.analyze aiNet dfNet loaded canvas imageData apiKey))) ->
  exists z, score e = of_Z z.
Proof.
  intros Hn. rewrite image_analyze_result, image_breakdown. intros He.
  assert (Ha : forall it, In it (net_items aiNet) -> numeric it)
    by (intros it Hit; apply Hn, in_app_iff; auto).
  assert (Hd : forall it, In it (net_items dfNet) -> numeric it)
    by (intros it Hit; apply Hn, in_app_iff; auto).
  repeat (apply in_app_iff in He; destruct He as [He|He]); rows_in He.
  - destruct (Http.result (ImageAnalyzer.detectAIGenerated _ _ _)) as [v|] eqn:E;
      destruct He as [<-|[]]; cbn [score]; [|eauto].
    now apply (image_remote_integer _ _ _ _ _ _ eq_refl Ha E).
  - destruct (Http.result (ImageAnalyzer.detectDeepfake _ _ _)) as [v|] eqn:E;
      destruct He as [<-|[]]; cbn [score]; [|eauto].
    now apply (image_remote_integer _ _ _ _ _ _ eq_refl Hd E).
  - destruct He as [<-|[<-|[]]]; cbn [score]; eauto.
  - destruct He as [<-|[]]; cbn [score]; eauto.
Qed.

End ScoreShapes.

(** ** Verdict banding *)

Section Verdicts.

Lemma Qcompare_inject_Z (a b : Z) : (inject_Z a ?= inject_Z b) = (a ?= b)%Z.
Proof. unfold Qcompare. simpl. now rewrite !Z.mul_1_r. Qed.

Lemma banding_of_integer (z : Z) : banded z (banding (of_Z z)).
Proof.
  unfold banded, banding, JsNum.gt, JsNum.lt, of_Z.
  rewrite !Qcompare_inject_Z.
  destruct (Z.compare_spec 70 z); destruct (Z.compare_spec 40 z);
    repeat split; intros; try reflexivity; lia.
Qed.

(** C4. For every report of either pipeline the verdict is one of three
    bands of the overall score, by the same rule in both renderers: an
    overall score above 70 is authentic, one from 41 to 70 is suspicious, one
    of at most 40 is fake.  When the scores of the responses are numbers the
    overall score of a report is an integer (in the text pipeline it can also
    be NaN, which the rule sends to fake).  Whatever the responses hold, the
    overall score is an integer or is not finite, and the rule sends NaN and
    the negative infinity to fake and the positive infinity to authentic. *)
Theorem C4_verdict_banding :
  (forall net alt text apiKey,
     (forall it, In it (net_items net ++ net_items alt) -> numeric it) ->
     let r := Http.result (TextAnalyzer.analyze net alt text apiKey) in
     (TextAnalyzer.overallScore r = NaN /\ renderTextResults r = fake)
     \/ (exists z, TextAnalyzer.overallScore r = of_Z z /\ banded z (renderTextResults r)))
  /\ (forall aiNet dfNet loaded canvas imageData apiKey,
        (forall it, In it (net_items aiNet ++ net_items dfNet) -> numeric it) ->
        let r := Http.result (ImageAnalyzer.analyze aiNet dfNet loaded canvas imageData apiKey) in
        exists z, ImageAnalyzer.authenticityScore r = of_Z z
                  /\ banded z (renderImageResults r))
  /\ (forall net alt text apiKey,
        let r := Http.result (TextAnalyzer.analyze net alt text apiKey) in
        banded_score (TextAnalyzer.overallScore r) (renderTextResults r))
  /\ (forall aiNet dfNet loaded canvas imageData apiKey,
        let r := Http.result (ImageAnalyzer.analyze aiNet dfNet loaded canvas imageData apiKey) in
        banded_score (ImageAnalyzer.authenticityScore r) (renderImageResults r))
  /\ (forall rt ri,
        TextAnalyzer.overallScore rt = ImageAnalyzer.authenticityScore ri ->
        renderTextResults rt = renderImageResults ri).
Proof.
  assert (B : forall b, b <> [] -> banded_score (overall_of b) (banding (overall_of b))).
  { intros b Hb. unfold banded_score.
    destruct (overall_integer_or_not_finite b Hb) as [[z E]|[E|[E|E]]]; rewrite E.
    - left. exists z. split; [reflexivity | apply banding_of_integer].
    - right; left. split; reflexivity.
    - right; right; left. split; reflexivity.
    - right; right; right. split; reflexivity. }
  split; [|split; [|split; [|split]]].
  - intros net alt text apiKey Hn r.
    assert (H : integer_or_nan (TextAnalyzer.overallScore r)).
    { subst r. rewrite text_analyze_result, text_overall, <- text_analyze_result.
      apply overall_integer_or_nan.
      - rewrite text_analyze_result. apply text_breakdown_nonempty.
      - intros e. now apply text_rows_shape. }
    unfold renderTextResults. destruct H as [E|[z E]]; rewrite E.
    + left. split; reflexivity.
    + right. exists z. split; [reflexivity | apply banding_of_integer].
  - intros aiNet dfNet loaded canvas imageData apiKey Hn r.
    assert (H : exists z, ImageAnalyzer.authenticityScore r = of_Z z).
    { subst r. rewrite image_analyze_result, image_overall, <- image_analyze_result.
      apply overall_finite.
      - rewrite image_analyze_result. apply image_breakdown_nonempty.
      - intros e. now apply image_rows_shape. }
    unfold renderImageResults. destruct H as [z E]. rewrite E.
    exists z. split; [reflexivity | apply banding_of_integer].
  - intros net alt text apiKey r. subst r. unfold renderTextResults.
    rewrite text_analyze_result, text_overall. apply B, text_breakdown_nonempty.
  - intros aiNet dfNet loaded canvas imageData apiKey r. subst r.
    unfold renderImageResults.
    rewrite image_analyze_result, image_overall. apply B, image_breakdown_nonempty.
  - intros rt ri E. unfold renderTextResults, renderImageResults. now rewrite E.
Qed.

(** A report of score 71 is authentic, one of 70 and one of 41 suspicious,
    one of 40 fake. *)
Lemma C4_witness :
  banding (of_Z 71) = authentic /\ banding (of_Z 70) = suspicious
  /\ banding (of_Z 41) = suspicious /\ banding (of_Z 40) = fake
  /\ exists z, ImageAnalyzer.authenticityScore
                 (Http.result (ImageAnalyzer.analyze [] [] None None
                                 (ImageAnalyzer.ImageFile "image/png" 20000 []) "hf_key"))
               = of_Z z
               /\ renderImageResults
                    (Http.result (ImageAnalyzer.analyze [] [] None None
                                    (ImageAnalyzer.ImageFile "image/png" 20000 []) "hf_key"))
                  = suspicious.
Proof.
  repeat split; try reflexivity.
  destruct (proj1 (proj2 C4_verdict_banding) [] [] None None
              (ImageAnalyzer.ImageFile "image/png" 20000 []) "hf_key"
              (fun it (H : In it []) => match H with end)) as [z [Hz Hb]].
  exists z. split; [exact Hz|].
  apply Hb. vm_compute in Hz. injection Hz as <-. lia.
Defined.

End Verdicts.

(** ** Degenerate texts *)

Section DegenerateText.





End DegenerateText.

(** ** The range of the scores *)

Section ScoreRange.

Lemma within_50 : integer_within 0 100 (of_Z 50).
Proof. exists 50%Z. split; [reflexivity | lia]. Qed.

Lemma within_of_Z (lo hi z : Z) : (lo <= z <= hi)%Z -> integer_within lo hi (of_Z z).
Proof. intros H. exists z. auto. Qed.

Lemma fallback_range (text : string) :
  (5 <= TextAnalyzer.fb_score (TextAnalyzer.fallbackAIDetection text) <= 95)%Z.
Proof. apply clamp_range. lia. Qed.

Lemma patterns_range (text : string) :
  (5 <= TextAnalyzer.naturalScore (TextAnalyzer.analyzePatterns text) <= 95)%Z
  /\ (5 <= TextAnalyzer.credibilityScore (TextAnalyzer.analyzePatterns text) <= 95)%Z.
Proof. split; apply clamp_range; lia. Qed.

Lemma metadata_range imageData loaded :
  (10 <= ImageAnalyzer.integrityScore (ImageAnalyzer.analyzeMetadata imageData loaded) <= 95)%Z
  /\ (10 <= ImageAnalyzer.metadataScore (ImageAnalyzer.analyzeMetadata imageData loaded) <= 95)%Z.
Proof.
  unfold ImageAnalyzer.analyzeMetadata.
  destruct loaded as [img|]; cbn [ImageAnalyzer.integrityScore ImageAnalyzer.metadataScore];
    split; apply clamp_range; lia.
Qed.

Lemma pixel_range canvas :
  (10 <= ImageAnalyzer.pixel_score (ImageAnalyzer.analyzePixelPatterns canvas) <= 95)%Z.
Proof.
  unfold ImageAnalyzer.analyzePixelPatterns.
  destruct canvas as [img|]; [destruct (ImageAnalyzer.repeatCount img)|];
    cbn [ImageAnalyzer.pixel_score]; apply clamp_range; lia.
Qed.

(** C3, as stated, fails: a text whose words hold no letter gets the
    vocabulary score NaN, and a remote score above one is carried into the
    breakdown unclamped. *)
Lemma C3_scores_can_leave_the_range :
  ~ (forall net alt text apiKey e,
       In e (TextAnalyzer.breakdown
               (Http.result (TextAnalyzer.analyze net alt text apiKey))) ->
       percentage (score e))
  /\ ~ (forall aiNet dfNet loaded canvas imageData apiKey e,
          In e (ImageAnalyzer.breakdown
                  (Http.result (ImageAnalyzer.analyze aiNet dfNet loaded canvas
                                  imageData apiKey))) ->
          percentage (score e)).
Proof.
  split; intros H.
  - destruct (H [] []
                "1234567890 1234567890 1234567890 1234567890 1234567890" "hf_key"
                (Entry "Vocabulary Richness" NaN)) as [q [E _]].
    + vm_compute. auto 10.
    + discriminate.
  - destruct (H [Http.Responded
                   (Http.Response true 200
                      (Some (Http.BFlat [Http.Item (Some "real") (Fin (3 # 2))])))]
                [] None None (ImageAnalyzer.ImageFile "image/png" 20000 []) "hf_key"
                (Entry "AI Image Detection" (of_Z 150))) as [q [E [_ Hq]]].
    + vm_compute. auto.
    + injection E as <-. unfold Qle in Hq. simpl in Hq. lia.
Qed.

(** C3, amended. The heuristic scores are clamped: the fallback and the two
    pattern scores into [5, 95], the metadata and pixel scores into
    [10, 95].  A score derived from a remote response is
    round(score * 100), which is not clamped and lies in [0, 100] when the
    response scores are probabilities.  Hence every row of an image report
    lies in [0, 100] when the response scores are probabilities, and every
    row of a text report does when moreover the text has a word holding one
    of the letters a to z or A to Z and a sentence. *)
Theorem C3_scores_within_range :
  (forall text,
     (5 <= TextAnalyzer.fb_score (TextAnalyzer.fallbackAIDetection text) <= 95)%Z
     /\ (5 <= TextAnalyzer.naturalScore (TextAnalyzer.analyzePatterns text) <= 95)%Z
     /\ (5 <= TextAnalyzer.credibilityScore (TextAnalyzer.analyzePatterns text) <= 95)%Z)
  /\ (forall imageData loaded canvas,
        (10 <= ImageAnalyzer.integrityScore
                 (ImageAnalyzer.analyzeMetadata imageData loaded) <= 95)%Z
        /\ (10 <= ImageAnalyzer.metadataScore
                    (ImageAnalyzer.analyzeMetadata imageData loaded) <= 95)%Z
        /\ (10 <= ImageAnalyzer.pixel_score
                    (ImageAnalyzer.analyzePixelPatterns canvas) <= 95)%Z)
  /\ (forall it, probability it -> integer_within 0 100 (Http.percent it))
  /\ (forall net alt text apiKey,
        (forall it, In it (net_items net ++ net_items alt) -> probability it) ->
        has_ascii_letter_word text = true -> TextAnalyzer.sentences_of text <> [] ->
        forall e,
          In e (TextAnalyzer.breakdown
                  (Http.result (TextAnalyzer.analyze net alt text apiKey))) ->
          integer_within 0 100 (score e))
  /\ (forall aiNet dfNet loaded canvas imageData apiKey,
        (forall it, In it (net_items aiNet ++ net_items dfNet) -> probability it) ->
        forall e,
          In e (ImageAnalyzer.breakdown
                  (Http.result (ImageAnalyzer.analyze aiNet dfNet loaded canvas
                                  imageData apiKey))) ->
          integer_within 0 100 (score e)).
Proof.
  split; [|split; [|split; [|split]]].
  - intros text. split; [apply fallback_range | apply patterns_range].
  - intros imageData loaded canvas.
    split; [apply metadata_range|]. split; [apply metadata_range | apply pixel_range].
  - apply percent_of_probability.
  - intros net alt text apiKey Hp Hw Hs e.
    apply ascii_letter_word_is_clean in Hw.
    rewrite text_analyze_result, text_breakdown. intros He.
    apply in_app_iff in He. destruct He as [He|He].
    + rows_in He.
      destruct (Http.result (TextAnalyzer.detectAIContent net alt text apiKey))
        as [v|] eqn:E; destruct He as [<-|[]]; cbn [score].
      * apply (detectAIContent_preserves (integer_within 0 100) net alt text apiKey);
          [apply within_50 | | | exact E];
          intros it Hit; apply percent_of_probability, Hp, in_app_iff; auto.
      * apply within_of_Z. pose proof (fallback_range text). lia.
    + apply in_app_iff in He. destruct He as [He|He]; rows_in He.
      * destruct (vocabulary_of_words text Hw) as [a [Ha Ha']].
        destruct (variation_of_sentences text Hs) as [b [Hb Hb']].
        destruct He as [<-|[<-|[<-|[]]]]; cbn [score].
        -- rewrite diversity_eq, Ha, Hb.
           apply (within_weaken 0 95); try lia. now apply diversity_of_integers.
        -- rewrite Hb. apply within_of_Z. lia.
        -- rewrite Ha. apply within_of_Z. lia.
      * pose proof (patterns_range text) as [Hn Hc].
        destruct He as [<-|[<-|[]]]; cbn [score]; apply within_of_Z; lia.
  - intros aiNet dfNet loaded canvas imageData apiKey Hp e.
    rewrite image_analyze_result, image_breakdown. intros He.
    repeat (apply in_app_iff in He; destruct He as [He|He]); rows_in He.
    + destruct (Http.result (ImageAnalyzer.detectAIGenerated _ _ _)) as [v|] eqn:E;
        destruct He as [<-|[]]; cbn [score]; [|apply within_of_Z; lia].
      eapply (image_detect_preserves (integer_within 0 100)); cycle 3;
        [exact E | reflexivity | apply within_50 |].
      intros it Hit. apply percent_of_probability, Hp, in_app_iff. auto.
    + destruct (Http.result (ImageAnalyzer.detectDeepfake _ _ _)) as [v|] eqn:E;
        destruct He as [<-|[]]; cbn [score]; [|apply within_of_Z; lia].
      eapply (image_detect_preserves (integer_within 0 100)); cycle 3;
        [exact E | reflexivity | apply within_50 |].
      intros it Hit. apply percent_of_probability, Hp, in_app_iff. auto.
    + pose proof (metadata_range imageData loaded) as [Hi Hm].
      destruct He as [<-|[<-|[]]]; cbn [score]; apply within_of_Z; lia.
    + pose proof (pixel_range canvas).
      destruct He as [<-|[]]; cbn [score]; apply within_of_Z; lia.
Qed.

End ScoreRange.

(** ** Flags derived from the rows *)

Section Flags.

Lemma penalize_warnings cond penalty m st w :
  In w (snd (TextAnalyzer.penalize cond penalty m st)) -> w = m \/ In w (snd st).
Proof.
  unfold TextAnalyzer.penalize. destruct cond; simpl; [|auto].
  rewrite in_app_iff. simpl. intuition.
Qed.

Lemma push_if_warnings cond m l w :
  In w (TextAnalyzer.push_if cond m l) -> w = m \/ In w l.
Proof.
  unfold TextAnalyzer.push_if. destruct cond; [|auto].
  rewrite in_app_iff. simpl. intuition.
Qed.

Lemma apply_rules_warnings table text st w :
  In w (snd (TextAnalyzer.apply_rules table text st)) ->
  In w (snd st) \/ In (Some w) (map TextAnalyzer.msg table).
Proof.
  unfold TextAnalyzer.apply_rules. revert st.
  induction table as [|r table IH]; intros st H; simpl in *; [auto|].
  apply IH in H. destruct H as [H|H]; [|auto].
  destruct (Regex.test true (TextAnalyzer.pattern r) text); [|auto].
  simpl in H. destruct (TextAnalyzer.msg r) as [m|]; [|auto].
  apply in_app_iff in H. simpl in H. destruct H as [H|[<-|[]]]; auto.
Qed.

(** The warning of the remote text detector is the text of no other
    source. *)
Lemma machine_warning_is_remote (text : string) :
  ~ In TextSources.machine_warning
      (TextAnalyzer.fb_warnings (TextAnalyzer.fallbackAIDetection text))
  /\ ~ In TextSources.machine_warning
         (TextAnalyzer.ling_warnings (TextAnalyzer.analyzeLinguistics text))
  /\ ~ In TextSources.machine_warning
         (TextAnalyzer.pat_warnings (TextAnalyzer.analyzePatterns text)).
Proof.
  split; [|split]; intros H.
  - unfold TextAnalyzer.fallbackAIDetection in H. cbn [TextAnalyzer.fb_warnings] in H.
    repeat (apply penalize_warnings in H; destruct H as [H|H]; [discriminate|]).
    destruct H.
  - unfold TextAnalyzer.analyzeLinguistics in H. cbn [TextAnalyzer.ling_warnings] in H.
    repeat (apply push_if_warnings in H; destruct H as [H|H]; [discriminate|]).
    destruct H.
  - unfold TextAnalyzer.analyzePatterns in H. cbn [TextAnalyzer.pat_warnings] in H.
    apply push_if_warnings in H. destruct H as [H|H]; [discriminate|].
    apply apply_rules_warnings in H. destruct H as [H|H].
    + apply apply_rules_warnings in H. destruct H as [[]|H].
      simpl in H. repeat (destruct H as [H|H]; [discriminate|]). destruct H.
    + simpl in H. repeat (destruct H as [H|H]; [discriminate|]). destruct H.
Qed.

Lemma gt_complement (s : jsnum) :
  JsNum.gt (JsNum.sub (of_Z 100) s) (of_Z 50) = JsNum.lt s (of_Z 50).
Proof.
  destruct s as [q| | |]; try reflexivity.
  unfold JsNum.gt, JsNum.sub, JsNum.neg, JsNum.add, JsNum.lt, of_Z.
  destruct (Qcompare_spec q (inject_Z 50)) as [E|E|E];
    destruct (Qcompare_spec (inject_Z 50) (inject_Z 100 + - q)) as [F|F|F];
    try reflexivity; exfalso; unfold inject_Z in *; lra.
Qed.

Lemma gt_complement_Z (i : Z) :
  JsNum.gt (of_Z (100 - i)) (of_Z 50) = JsNum.lt (of_Z i) (of_Z 50).
Proof.
  unfold JsNum.gt, JsNum.lt, of_Z. rewrite !Qcompare_inject_Z.
  destruct (Z.compare_spec 50 (100 - i)); destruct (Z.compare_spec i 50);
    try reflexivity; lia.
Qed.

End Flags.

Section FlagTheorems.

Lemma image_flags ai df meta px :
  let r := ImageAnalyzer.assemble ai df meta px in
  (ImageAnalyzer.aiGenerated r = true
   <-> below_50 (ImageAnalyzer.breakdown r) "AI Image Detection")
  /\ (deepfake_likely r = true
      <-> below_50 (ImageAnalyzer.breakdown r) "Deepfake Detection")
  /\ (manipulation_detected r = true
      <-> below_50 (ImageAnalyzer.breakdown r) "File Integrity").
Proof.
  intros r. subst r. unfold below_50, deepfake_likely, manipulation_detected.
  rewrite image_breakdown.
  destruct ai as [[va|]|], df as [[vd|]|], meta as [m|];
    cbn [ImageAnalyzer.assemble ImageAnalyzer.aiGenerated ImageAnalyzer.deepfakeScore
         ImageAnalyzer.manipulationScore ImageSources.ai_rows
         ImageSources.deepfake_rows ImageSources.meta_rows ImageSources.pixel_rows app];
    rewrite ?gt_complement, ?gt_complement_Z;
    (split; [|split]); split;
    try (intros [e [He [Hn Hl]]]; simpl in He;
         repeat (destruct He as [He|He]; [subst e; simpl in Hn, Hl; try discriminate|]);
         try destruct He; assumption);
    intros H; try discriminate.
  all: first
    [ solve [eexists; split; [left; reflexivity | split; [reflexivity | exact H]]]
    | solve [eexists; split; [right; left; reflexivity | split; [reflexivity | exact H]]]
    | solve [eexists; split; [right; right; left; reflexivity
                             | split; [reflexivity | exact H]]] ].
Qed.

(** C6, as stated, fails for the text pipeline: the report has no flag for
    AI-generated text, and its only remark on the remote detection, the
    warning of the detector, is not tied to the threshold 50. *)
Lemma C6_text_report_has_no_flag_at_50 :
  ~ (forall net alt text apiKey v,
       Http.result (TextAnalyzer.detectAIContent net alt text apiKey) = Some v ->
       (In TextSources.machine_warning
          (TextAnalyzer.warnings (Http.result (TextAnalyzer.analyze net alt text apiKey)))
        <-> JsNum.lt (TextAnalyzer.humanScore v) (of_Z 50) = true)).
Proof.
  intros H.
  specialize (H [Http.Responded
                   (Http.Response true 200
                      (Some (Http.BNested [Http.Item (Some "Real") (Fin (45 # 100));
                                           Http.Item (Some "Fake") (Fin (55 # 100))] [])))]
                [] "The quick brown fox jumps. It was late!" "hf_key"
                (TextAnalyzer.Detection (of_Z 45)) eq_refl).
  destruct H as [_ H]. specialize (H eq_refl).
  rewrite text_analyze_result, text_warnings in H. apply of_list_In in H.
  vm_compute in H. repeat (destruct H as [H|H]; [discriminate|]). destruct H.
Qed.

(** C6, amended. The text report carries no flag for AI-generated text; it
    holds the warning of the remote detector exactly when that detector
    answered with a score below 40.  The image report sets [aiGenerated]
    exactly when its row "AI Image Detection" is below 50; it stores
    100 minus the row "Deepfake Detection" and 100 minus the row "File
    Integrity", which the renderer shows as detected when above 50, that is
    exactly when the row is below 50. *)
Theorem C6_flags_follow_rows :
  (forall net alt text apiKey,
     In TextSources.machine_warning
       (TextAnalyzer.warnings (Http.result (TextAnalyzer.analyze net alt text apiKey)))
     <-> exists v,
           Http.result (TextAnalyzer.detectAIContent net alt text apiKey) = Some v
           /\ JsNum.lt (TextAnalyzer.humanScore v) (of_Z 40) = true)
  /\ (forall aiNet dfNet loaded canvas imageData apiKey,
        let r := Http.result (ImageAnalyzer.analyze aiNet dfNet loaded canvas
                                imageData apiKey) in
        (ImageAnalyzer.aiGenerated r = true
         <-> below_50 (ImageAnalyzer.breakdown r) "AI Image Detection")
        /\ (deepfake_likely r = true
            <-> below_50 (ImageAnalyzer.breakdown r) "Deepfake Detection")
        /\ (manipulation_detected r = true
            <-> below_50 (ImageAnalyzer.breakdown r) "File Integrity")
        /\ ImageAnalyzer.manipulationScore r
           = of_Z (100 - ImageAnalyzer.integrityScore
                           (ImageAnalyzer.analyzeMetadata imageData loaded))
        /\ ImageAnalyzer.deepfakeScore r
           = match Http.result (ImageAnalyzer.detectDeepfake dfNet
                                  (ImageAnalyzer.bytes imageData) apiKey) with
             | Some v => JsNum.sub (of_Z 100) (ImageAnalyzer.realScore v)
             | None => of_Z 0
             end).
Proof.
  split.
  - intros net alt text apiKey.
    rewrite text_analyze_result, text_warnings, of_list_In.
    destruct (machine_warning_is_remote text) as [Hf [Hl Hp]].
    unfold TextSources.merged. rewrite !in_app_iff.
    cbn [TextSources.ling_warnings_of TextSources.pat_warnings_of TextSources.ai_warnings].
    destruct (Http.result (TextAnalyzer.detectAIContent net alt text apiKey)) as [v|].
    + destruct (JsNum.lt (TextAnalyzer.humanScore v) (of_Z 40)) eqn:E; split.
      * intros _. exists v. auto.
      * intros _. left. simpl. auto.
      * intros [[]|[H|H]]; contradiction.
      * intros [v' [[= <-] H]]. congruence.
    + split.
      * intros [H|[H|H]]; contradiction.
      * intros [v' [[=] _]].
  - intros aiNet dfNet loaded canvas imageData apiKey r. subst r.
    rewrite image_analyze_result.
    destruct (image_flags
                (Fulfilled (Http.result (ImageAnalyzer.detectAIGenerated aiNet
                                           (ImageAnalyzer.bytes imageData) apiKey)))
                (Fulfilled (Http.result (ImageAnalyzer.detectDeepfake dfNet
                                           (ImageAnalyzer.bytes imageData) apiKey)))
                (Fulfilled (ImageAnalyzer.analyzeMetadata imageData loaded))
                (ImageAnalyzer.analyzePixelPatterns canvas)) as [H1 [H2 H3]].
    split; [exact H1|]. split; [exact H2|]. split; [exact H3|].
    destruct (Http.result (ImageAnalyzer.detectAIGenerated _ _ _)) as [va|];
      destruct (Http.result (ImageAnalyzer.detectDeepfake _ _ _)) as [vd|];
      split; reflexivity.
Qed.

End FlagTheorems.

(** ** The text fallback *)

Section Fallback.

Lemma penalize_score cond p m st :
  fst (TextAnalyzer.penalize cond p m st) = if cond then (fst st - p)%Z else fst st.
Proof. unfold TextAnalyzer.penalize. destruct cond; reflexivity. Qed.

(** The clamp never bites: the score is 75 minus the penalties. *)
Lemma fallback_score (text : string) :
  TextAnalyzer.fb_score (TextAnalyzer.fallbackAIDetection text)
  = (75 - total_penalty text)%Z.
Proof.
  unfold TextAnalyzer.fallbackAIDetection. cbn [TextAnalyzer.fb_score].
  rewrite !penalize_score. cbn [fst].
  unfold total_penalty, conditions, fold_right, charge, triggered, penalty.
  destruct (JsNum.lt (TextAnalyzer.variance text) (of_Z 15));
    destruct (3 <? TextAnalyzer.formalCount text)%nat;
    destruct (JsNum.lt (TextAnalyzer.ttr text) (Fin (4 # 10)));
    destruct (2 <? TextAnalyzer.sensationalCount text)%nat;
    destruct (5 <? TextAnalyzer.absoluteCount text)%nat; reflexivity.
Qed.

Lemma charge_nonneg text c : (0 <= charge text c)%Z.
Proof. unfold charge. destruct (triggered text c), c; simpl; lia. Qed.

Lemma charge_monotone t1 t2 c : included t1 t2 -> (charge t1 c <= charge t2 c)%Z.
Proof.
  intros H. unfold charge. specialize (H c).
  destruct (triggered t1 c); [rewrite H by reflexivity; lia|].
  destruct (triggered t2 c), c; simpl; lia.
Qed.

Lemma charge_strict t1 t2 c :
  triggered t1 c = false -> triggered t2 c = true -> (charge t1 c < charge t2 c)%Z.
Proof. unfold charge. intros -> ->. destruct c; simpl; lia. Qed.

(** C7. The text fallback starts from 75, subtracts 15, 10, 10, 15 and 8
    for the conditions it finds triggered (variance below 15, more than 3
    formal phrases, type-token ratio below 0.4, more than 2 sensationalist
    markers, more than 5 absolute words) and clamps into [5, 95].  It
    decreases with the set of triggered conditions: when every condition a
    first text triggers is triggered by a second, the second scores no
    higher, and strictly lower when it triggers one more; a text that
    triggers all five scores 17, below the 60 of one that triggers the
    variance condition alone. *)
Theorem C7_fallback_monotone :
  (forall text,
     TextAnalyzer.fb_score (TextAnalyzer.fallbackAIDetection text)
     = clamp 5 95 (75 - total_penalty text)
     /\ TextAnalyzer.fb_score (TextAnalyzer.fallbackAIDetection text)
        = (75 - total_penalty text)%Z
     /\ (5 <= TextAnalyzer.fb_score (TextAnalyzer.fallbackAIDetection text) <= 95)%Z)
  /\ (forall t1 t2,
        included t1 t2 ->
        (TextAnalyzer.fb_score (TextAnalyzer.fallbackAIDetection t2)
         <= TextAnalyzer.fb_score (TextAnalyzer.fallbackAIDetection t1))%Z)
  /\ (forall t1 t2 c,
        included t1 t2 -> triggered t1 c = false -> triggered t2 c = true ->
        (TextAnalyzer.fb_score (TextAnalyzer.fallbackAIDetection t2)
         < TextAnalyzer.fb_score (TextAnalyzer.fallbackAIDetection t1))%Z)
  /\ (forall t_all t_one,
        (forall c, triggered t_all c = true) ->
        (forall c, triggered t_one c = match c with UniformSentences => true | _ => false end) ->
        TextAnalyzer.fb_score (TextAnalyzer.fallbackAIDetection t_all) = 17%Z
        /\ TextAnalyzer.fb_score (TextAnalyzer.fallbackAIDetection t_one) = 60%Z).
Proof.
  assert (M : forall t1 t2, included t1 t2 ->
                (total_penalty t1 <= total_penalty t2)%Z).
  { intros t1 t2 H. unfold total_penalty, conditions, fold_right.
    pose proof (charge_monotone t1 t2 UniformSentences H).
    pose proof (charge_monotone t1 t2 FormalPhrases H).
    pose proof (charge_monotone t1 t2 LowDiversity H).
    pose proof (charge_monotone t1 t2 Sensational H).
    pose proof (charge_monotone t1 t2 Absolutes H). lia. }
  split; [|split; [|split]].
  - intros text. pose proof (fallback_score text) as E.
    pose proof (fallback_range text) as R.
    split; [|split; [exact E | exact R]].
    rewrite E in *. unfold clamp. lia.
  - intros t1 t2 H. rewrite !fallback_score. specialize (M t1 t2 H). lia.
  - intros t1 t2 c H H1 H2. rewrite !fallback_score.
    pose proof (charge_strict t1 t2 c H1 H2) as S.
    unfold total_penalty, conditions, fold_right.
    pose proof (charge_monotone t1 t2 UniformSentences H).
    pose proof (charge_monotone t1 t2 FormalPhrases H).
    pose proof (charge_monotone t1 t2 LowDiversity H).
    pose proof (charge_monotone t1 t2 Sensational H).
    pose proof (charge_monotone t1 t2 Absolutes H).
    destruct c; lia.
  - intros t_all t_one Ha Ho. rewrite !fallback_score.
    unfold total_penalty, conditions, fold_right, charge.
    rewrite !Ha, !Ho. split; reflexivity.
Qed.

(** The two texts of fifty words: all five conditions against the variance
    condition alone. *)
Lemma C7_witness :
  List.length (JsString.split_whitespace text_all_conditions) = 50%nat
  /\ List.length (JsString.split_whitespace text_variance_only) = 50%nat
  /\ TextAnalyzer.fb_score (TextAnalyzer.fallbackAIDetection text_all_conditions) = 17%Z
  /\ TextAnalyzer.fb_score (TextAnalyzer.fallbackAIDetection text_variance_only) = 60%Z
  /\ (TextAnalyzer.fb_score (TextAnalyzer.fallbackAIDetection text_all_conditions)
      < TextAnalyzer.fb_score (TextAnalyzer.fallbackAIDetection text_variance_only))%Z.
Proof.
  assert (Ha : forall c, triggered text_all_conditions c = true)
    by (intros []; vm_compute; reflexivity).
  assert (Ho : forall c, triggered text_variance_only c
                         = match c with UniformSentences => true | _ => false end)
    by (intros []; vm_compute; reflexivity).
  destruct (proj2 (proj2 (proj2 C7_fallback_monotone)) _ _ Ha Ho) as [E1 E2].
  split; [vm_compute; reflexivity|]. split; [vm_compute; reflexivity|].
  split; [exact E1|]. split; [exact E2|].
  apply (proj1 (proj2 (proj2 C7_fallback_monotone))
           text_variance_only text_all_conditions FormalPhrases).
  - intros c _. apply Ha.
  - apply Ho.
  - apply Ha.
Defined.

End Fallback.

(** ** Instances on concrete inputs *)

Section Instances.

(** A text report on a detector answer of 0.87: all rows within [0, 100]. *)
Lemma C3_witness :
  Forall (fun e => integer_within 0 100 (score e))
    (TextAnalyzer.breakdown
       (Http.result
          (TextAnalyzer.analyze
             [Http.Responded
                (Http.Response true 200
                   (Some (Http.BNested [Http.Item (Some "Real") (Fin (87 # 100));
                                        Http.Item (Some "Fake") (Fin (13 # 100))] [])))]
             [] "The quick brown fox jumps. It was late!" "hf_key"))).
Proof.
  apply Forall_forall.
  apply (proj2 (proj2 (proj2 C3_scores_within_range))).
  - intros it Hit. simpl in Hit.
    destruct Hit as [<-|[<-|[]]]; eexists; (split; [reflexivity|]);
      split; unfold Qle; simpl; lia.
  - reflexivity.
  - discriminate.
Defined.

(** A remote text score of 39 raises the warning of the detector; a remote
    image score of 30 sets the flag of the image report. *)
Lemma C6_witness :
  In TextSources.machine_warning
    (TextAnalyzer.warnings
       (Http.result
          (TextAnalyzer.analyze
             [Http.Responded
                (Http.Response true 200
                   (Some (Http.BFlat [Http.Item (Some "LABEL_1") (Fin (39 # 100))])))]
             [] "The quick brown fox jumps. It was late!" "hf_key")))
  /\ below_50
       (ImageAnalyzer.breakdown
          (Http.result
             (ImageAnalyzer.analyze
                [Http.Responded
                   (Http.Response true 200
                      (Some (Http.BFlat [Http.Item (Some "human") (Fin (30 # 100));
                                         Http.Item (Some "artificial") (Fin (70 # 100))])))]
                [] None None (ImageAnalyzer.ImageFile "image/png" 20000 []) "hf_key")))
       "AI Image Detection".
Proof.
  split.
  - apply (proj1 C6_flags_follow_rows).
    exists (TextAnalyzer.Detection (of_Z 39)). split; reflexivity.
  - apply (proj1 (proj2 C6_flags_follow_rows _ _ _ _ _ _)). reflexivity.
Defined.

(** Two sources emitting the same text: the report keeps it once, at the
    place of its first appearance. *)
Lemma C8_witness :
  let ling := TextAnalyzer.Linguistics "Low" (of_Z 40) (of_Z 30) (of_Z 50)
                ["Shared finding"; "Limited vocabulary diversity"] in
  let pat := TextAnalyzer.Patterns 70 70
               ["Uses manipulation language"; "Shared finding"] in
  let r := TextAnalyzer.assemble "Some text under test."
             (Fulfilled (Some (TextAnalyzer.Detection (of_Z 80))))
             (Fulfilled ling) (Fulfilled pat) in
  TextAnalyzer.warnings r
  = ["Shared finding"; "Limited vocabulary diversity"; "Uses manipulation language"]
  /\ NoDup (TextAnalyzer.warnings r)
  /\ (index_of "Shared finding" (TextAnalyzer.warnings r)
      < index_of "Uses manipulation language" (TextAnalyzer.warnings r))%nat.
Proof.
  intros ling pat r.
  destruct (proj1 C8_warnings_deduplicated_in_order "Some text under test."
              (Fulfilled (Some (TextAnalyzer.Detection (of_Z 80))))
              (Fulfilled ling) (Fulfilled pat)) as [Hnd [_ Hord]].
  split; [reflexivity|]. split; [exact Hnd|].
  apply Hord.
  - vm_compute. auto.
  - vm_compute. auto.
  - vm_compute. lia.
Defined.

End Instances.

(* ====================================================================== *)
(** * Further properties of the analyzers *)
(* ====================================================================== *)

(** ** The overall score as an integer formula *)

Section OverallFormula.

Lemma Qfloor_div (a b : Z) :
  (0 < b)%Z -> Qfloor (inject_Z a / inject_Z b) = (a / b)%Z.
Proof.
  intros Hb. destruct b as [|p|p]; try lia.
  unfold Qdiv, Qinv, Qmult, inject_Z, Qfloor. simpl.
  now rewrite Z.mul_1_r.
Qed.

Lemma fold_Qplus_integers (zs : list Z) (a : Z) :
  fold_left Qplus (map inject_Z zs) (inject_Z a) == inject_Z (a + Zsum zs).
Proof.
  revert a. induction zs as [|z zs IH]; intros a; simpl.
  - now rewrite Z.add_0_r.
  - rewrite <- inject_Z_plus, IH. now rewrite Z.add_assoc.
Qed.

Lemma map_of_Z_as_Fin (zs : list Z) : map of_Z zs = map Fin (map inject_Z zs).
Proof. now rewrite map_map. Qed.

(** With integer rows the overall score is [(2 * sum + n) / (2 * n)],
    rounded down: the mean of the [n] rows rounded to the nearest integer. *)
Lemma overall_of_integers (b : list entry) (zs : list Z) :
  scores_of b = map of_Z zs -> zs <> [] ->
  overall_of b
  = of_Z ((2 * Zsum zs + Z.of_nat (List.length zs))
          / (2 * Z.of_nat (List.length zs))).
Proof.
  intros Hs Hz. unfold overall_of. rewrite Hs, map_of_Z_as_Fin.
  assert (Hlen : (0 < List.length zs)%nat) by (destruct zs; [congruence | simpl; lia]).
  unfold JsNum.sum, of_Z at 1. rewrite fold_add_fin.
  rewrite !length_map. unfold JsNum.of_nat, of_Z at 1, JsNum.div.
  rewrite (of_nat_pos_nonzero _ Hlen). cbn [JsNum.round]. unfold of_Z. do 2 f_equal.
  set (n := Z.of_nat (List.length zs)).
  assert (Hn : (0 < n)%Z) by (subst n; lia).
  rewrite <- (Qfloor_div (2 * Zsum zs + n) (2 * n)) by lia.
  apply Qfloor_comp.
  rewrite fold_Qplus_integers, Z.add_0_l.
  rewrite inject_Z_plus, !inject_Z_mult.
  assert (Hq : ~ inject_Z n == 0).
  { intros E. unfold Qeq in E. simpl in E. lia. }
  change (inject_Z 2) with 2. field. exact Hq.
Qed.

(** The overall score lies between any two bounds of its integer rows. *)
Lemma overall_between (b : list entry) (lo hi : Z) :
  b <> [] -> (forall e, In e b -> integer_within lo hi (score e)) ->
  integer_within lo hi (overall_of b).
Proof.
  intros Hb Hall.
  assert (Hzs : exists zs, scores_of b = map of_Z zs
                           /\ List.length zs = List.length b
                           /\ Forall (fun z => (lo <= z <= hi)%Z) zs).
  { clear Hb. induction b as [|e b IH].
    - exists []. repeat split; constructor.
    - destruct (Hall e) as [z [Hz Hr]]; [simpl; auto|].
      destruct IH as [zs [H1 [H2 H3]]]; [intros; apply Hall; simpl; auto|].
      exists (z :: zs). simpl. rewrite Hz, H1, H2. repeat split. now constructor. }
  destruct Hzs as [zs [Hs [Hl Hf]]].
  assert (Hz : zs <> []) by (destruct zs, b; simpl in *; congruence).
  rewrite (overall_of_integers b zs Hs Hz). apply within_of_Z.
  assert (Hsum : (lo * Z.of_nat (List.length zs) <= Zsum zs
                  <= hi * Z.of_nat (List.length zs))%Z).
  { clear Hs Hl Hz. unfold Zsum.
    induction Hf as [|z zs Hzr Hf IH]; cbn [fold_right List.length]; [lia|].
    rewrite Nat2Z.inj_succ. lia. }
  set (n := Z.of_nat (List.length zs)) in *.
  assert (Hn : (0 < n)%Z) by (subst n; destruct zs; [congruence | simpl; lia]).
  split.
  - apply Z.div_le_lower_bound; nia.
  - apply Z.lt_succ_r, Z.div_lt_upper_bound; nia.
Qed.

End OverallFormula.

(** ** The local image heuristics *)

Section ImageHeuristics.

Lemma penalize_length cond p m st :
  List.length (snd (TextAnalyzer.penalize cond p m st))
  = (List.length (snd st) + if cond then 1 else 0)%nat.
Proof.
  unfold TextAnalyzer.penalize. destruct cond; simpl; [|lia].
  rewrite length_app. reflexivity.
Qed.

(** The pixel analysis never leaves [42, 70]: it is 60 without warning when
    the image cannot be read, and otherwise 70 minus 10, 8 and 10 for the
    warnings it emits, so it is 70 exactly when it emits none. *)
Theorem pixel_score_by_warnings (canvas : option ImageAnalyzer.image_data) :
  let px := ImageAnalyzer.analyzePixelPatterns canvas in
  (42 <= ImageAnalyzer.pixel_score px <= 70)%Z
  /\ (canvas = None ->
      ImageAnalyzer.pixel_score px = 60%Z /\ ImageAnalyzer.pixel_warnings px = [])
  /\ (canvas <> None ->
      (ImageAnalyzer.pixel_score px = 70%Z <-> ImageAnalyzer.pixel_warnings px = [])
      /\ (70 - 10 * Z.of_nat (List.length (ImageAnalyzer.pixel_warnings px))
          <= ImageAnalyzer.pixel_score px
          <= 70 - 8 * Z.of_nat (List.length (ImageAnalyzer.pixel_warnings px)))%Z).
Proof.
  intros px. subst px. destruct canvas as [img|].
  - unfold ImageAnalyzer.analyzePixelPatterns.
    destruct (ImageAnalyzer.repeatCount img) as [repeats sampleSize].
    cbn [ImageAnalyzer.pixel_score ImageAnalyzer.pixel_warnings].
    rewrite !penalize_score.
    match goal with
    | |- context [TextAnalyzer.penalize ?c3 10 ?m3
                    (TextAnalyzer.penalize ?c2 8 ?m2
                       (TextAnalyzer.penalize ?c1 10 ?m1 ?st))] =>
        destruct c1, c2, c3
    end; cbn; unfold clamp;
      (split; [lia|]); (split; [congruence|]); intros _;
      (split; [split; intros H; (discriminate || reflexivity) | lia]).
  - cbn. unfold clamp. split; [lia|]. split; [auto | congruence].
Qed.

Lemma pixel_witness :
  let img := ImageAnalyzer.ImageData 2 2
               [10; 10; 10; 255; 10; 10; 10; 255; 10; 10; 10; 255; 10; 10; 10; 255]%Z in
  ImageAnalyzer.pixel_score (ImageAnalyzer.analyzePixelPatterns None) = 60%Z
  /\ (70 - 10 * Z.of_nat (List.length
                            (ImageAnalyzer.pixel_warnings
                               (ImageAnalyzer.analyzePixelPatterns (Some img))))
      <= ImageAnalyzer.pixel_score (ImageAnalyzer.analyzePixelPatterns (Some img)))%Z.
Proof.
  intros img. split.
  - apply (proj1 (proj2 (pixel_score_by_warnings None))). reflexivity.
  - apply (proj2 (proj2 (pixel_score_by_warnings (Some img)))). discriminate.
Defined.

(** The metadata analysis: the integrity score is 60 for a file below
    10000 bytes, 75 for one above 5 MiB and 70 otherwise; the metadata score
    is 65, lowered by 15 when both dimensions are generator sizes and by 10
    more when they are moreover equal, so it is one of 65, 50 and 40 and the
    square penalty never comes alone.  Without decoded dimensions it is 65. *)
Theorem metadata_scores (imageData : ImageAnalyzer.image_file)
    (loaded : option ImageAnalyzer.image) :
  let meta := ImageAnalyzer.analyzeMetadata imageData loaded in
  let fileSize := ImageAnalyzer.size imageData in
  ImageAnalyzer.integrityScore meta
  = (if ((0 <? fileSize) && (fileSize <? 10000))%N then 60
     else if (5242880 <? fileSize)%N then 75 else 70)%Z
  /\ (ImageAnalyzer.metadataScore meta = 65
      \/ ImageAnalyzer.metadataScore meta = 50
      \/ ImageAnalyzer.metadataScore meta = 40)%Z
  /\ (In "Perfect square dimensions common in AI-generated images"
        (ImageAnalyzer.meta_warnings meta)
      <-> ImageAnalyzer.metadataScore meta = 40%Z)
  /\ (loaded = None -> ImageAnalyzer.metadataScore meta = 65%Z).
Proof.
  intros meta fileSize. subst meta fileSize. unfold ImageAnalyzer.analyzeMetadata.
  set (fileSize := ImageAnalyzer.size imageData).
  assert (Hsize : ((0 <? fileSize) && (fileSize <? 10000) = true ->
                   (0 <? fileSize) && (5 * 1024 * 1024 <? fileSize) = false)%N).
  { intros H. apply andb_true_iff in H. destruct H as [_ H].
    apply N.ltb_lt in H. apply andb_false_iff. right. apply N.ltb_ge. lia. }
  split.
  - destruct loaded as [img|]; cbn [ImageAnalyzer.integrityScore];
      destruct ((0 <? fileSize) && (fileSize <? 10000))%N eqn:Es;
      try (rewrite (Hsize eq_refl); reflexivity);
      change (5 * 1024 * 1024)%N with 5242880%N;
      destruct (0 <? fileSize)%N eqn:E0; simpl;
      try (destruct (5242880 <? fileSize)%N eqn:El; reflexivity).
    all: apply N.ltb_ge in E0; assert (fileSize = 0%N) by lia;
      replace (5242880 <? fileSize)%N with false
        by (symmetry; apply N.ltb_ge; lia); reflexivity.
  - destruct loaded as [img|];
      cbn [ImageAnalyzer.metadataScore ImageAnalyzer.meta_warnings].
    + set (width := ImageAnalyzer.or_num (ImageAnalyzer.naturalWidth img)
                      (ImageAnalyzer.width img)).
      set (height := ImageAnalyzer.or_num (ImageAnalyzer.naturalHeight img)
                       (ImageAnalyzer.height img)).
      destruct (ImageAnalyzer.includes_dim width) eqn:Ew;
        destruct (N.eqb_spec width height) as [E|E];
        try (rewrite <- E, Ew); try destruct (ImageAnalyzer.includes_dim height);
        cbn; unfold clamp, TextAnalyzer.push_if;
        destruct ((0 <? fileSize) && (fileSize <? 10000))%N; cbn;
        (split; [lia|]); (split; [|congruence]);
        (split; [intros H; repeat (destruct H as [H|H]; try discriminate);
                 try lia; try destruct H
                | intros H; try lia; auto 10]).
    + destruct ((0 <? fileSize) && (fileSize <? 10000))%N; cbn; unfold clamp;
        (split; [lia|]); (split; [|reflexivity]);
        (split; [intros H; repeat (destruct H as [H|H]; try discriminate); destruct H
                | lia]).
Qed.

Lemma metadata_witness :
  ImageAnalyzer.metadataScore
    (ImageAnalyzer.analyzeMetadata (ImageAnalyzer.ImageFile "image/png" 5000 []) None)
  = 65%Z.
Proof.
  apply (proj2 (proj2 (proj2
           (metadata_scores (ImageAnalyzer.ImageFile "image/png" 5000 []) None)))).
  reflexivity.
Defined.

End ImageHeuristics.

(** ** The image report without the remote service *)

Section ImageOffline.

Lemma pixel_tight (canvas : option ImageAnalyzer.image_data) :
  (42 <= ImageAnalyzer.pixel_score (ImageAnalyzer.analyzePixelPatterns canvas) <= 70)%Z.
Proof.
  destruct canvas as [img|]; [|cbn; unfold clamp; lia].
  unfold ImageAnalyzer.analyzePixelPatterns.
  destruct (ImageAnalyzer.repeatCount img) as [repeats sampleSize].
  cbn [ImageAnalyzer.pixel_score]. rewrite !penalize_score. cbn [fst].
  repeat match goal with |- context [if ?c then _ else _] => destruct c end;
    unfold clamp; lia.
Qed.

Lemma metadata_tight imageData loaded :
  (60 <= ImageAnalyzer.integrityScore (ImageAnalyzer.analyzeMetadata imageData loaded) <= 75)%Z
  /\ (40 <= ImageAnalyzer.metadataScore (ImageAnalyzer.analyzeMetadata imageData loaded) <= 65)%Z.
Proof.
  unfold ImageAnalyzer.analyzeMetadata.
  destruct loaded as [img|];
    cbn [ImageAnalyzer.integrityScore ImageAnalyzer.metadataScore];
    repeat match goal with |- context [if ?c then _ else _] => destruct c end;
    unfold clamp; lia.
Qed.

(** The renderer can never show a manipulation as detected: the stored
    manipulation score is 100 minus an integrity score of at least 60. *)
Theorem manipulation_never_detected aiNet dfNet loaded canvas imageData apiKey :
  let r := Http.result (ImageAnalyzer.analyze aiNet dfNet loaded canvas imageData apiKey) in
  manipulation_detected r = false
  /\ integer_within 25 40 (ImageAnalyzer.manipulationScore r).
Proof.
  intros r. subst r. rewrite image_analyze_result.
  pose proof (metadata_tight imageData loaded) as [Hi _].
  assert (E : ImageAnalyzer.manipulationScore
                (ImageAnalyzer.assemble
                   (Fulfilled (Http.result (ImageAnalyzer.detectAIGenerated aiNet
                                              (ImageAnalyzer.bytes imageData) apiKey)))
                   (Fulfilled (Http.result (ImageAnalyzer.detectDeepfake dfNet
                                              (ImageAnalyzer.bytes imageData) apiKey)))
                   (Fulfilled (ImageAnalyzer.analyzeMetadata imageData loaded))
                   (ImageAnalyzer.analyzePixelPatterns canvas))
              = of_Z (100 - ImageAnalyzer.integrityScore
                              (ImageAnalyzer.analyzeMetadata imageData loaded))).
  { destruct (Http.result (ImageAnalyzer.detectAIGenerated _ _ _)) as [va|];
      destruct (Http.result (ImageAnalyzer.detectDeepfake _ _ _)) as [vd|]; reflexivity. }
  unfold manipulation_detected. rewrite E. split.
  - rewrite gt_complement_Z. unfold JsNum.lt, of_Z. rewrite Qcompare_inject_Z.
    destruct (Z.compare_spec
                (ImageAnalyzer.integrityScore
                   (ImageAnalyzer.analyzeMetadata imageData loaded)) 50);
      try reflexivity; lia.
  - apply within_of_Z. lia.
Qed.

(** When both remote calls fail, the image report does not depend on them:
    its overall score is an integer from 54 to 68, its verdict is
    suspicious, and no flag is raised. *)
Theorem image_offline_is_suspicious aiNet dfNet loaded canvas imageData apiKey :
  Http.result (ImageAnalyzer.detectAIGenerated aiNet
                 (ImageAnalyzer.bytes imageData) apiKey) = None ->
  Http.result (ImageAnalyzer.detectDeepfake dfNet
                 (ImageAnalyzer.bytes imageData) apiKey) = None ->
  let r := Http.result (ImageAnalyzer.analyze aiNet dfNet loaded canvas imageData apiKey) in
  integer_within 54 68 (ImageAnalyzer.authenticityScore r)
  /\ renderImageResults r = suspicious
  /\ ImageAnalyzer.aiGenerated r = false
  /\ deepfake_likely r = false.
Proof.
  intros Ha Hd r. subst r. rewrite image_analyze_result, Ha, Hd.
  pose proof (metadata_tight imageData loaded) as [Hi Hm].
  pose proof (pixel_tight canvas) as Hp.
  assert (Hw : integer_within 54 68
                 (ImageAnalyzer.authenticityScore
                    (ImageAnalyzer.assemble (Fulfilled None) (Fulfilled None)
                       (Fulfilled (ImageAnalyzer.analyzeMetadata imageData loaded))
                       (ImageAnalyzer.analyzePixelPatterns canvas)))).
  { rewrite image_overall, image_breakdown.
    rewrite (overall_of_integers _
               [60; 70;
                ImageAnalyzer.integrityScore (ImageAnalyzer.analyzeMetadata imageData loaded);
                ImageAnalyzer.metadataScore (ImageAnalyzer.analyzeMetadata imageData loaded);
                ImageAnalyzer.pixel_score (ImageAnalyzer.analyzePixelPatterns canvas)]%Z)
      by (reflexivity || discriminate).
    apply within_of_Z. cbn [Zsum fold_right List.length].
    change (Z.of_nat 5) with 5%Z. split.
    - apply Z.div_le_lower_bound; lia.
    - apply Z.lt_succ_r, Z.div_lt_upper_bound; lia. }
  split; [exact Hw|]. split; [|split; reflexivity].
  unfold renderImageResults. destruct Hw as [z [-> Hz]].
  apply banding_of_integer. lia.
Qed.

Lemma image_offline_witness :
  renderImageResults
    (Http.result (ImageAnalyzer.analyze [Http.Rejected] [] None None
                    (ImageAnalyzer.ImageFile "image/jpeg" 120000 []) "hf_key"))
  = suspicious.
Proof.
  apply image_offline_is_suspicious; reflexivity.
Defined.

End ImageOffline.

(** ** The pattern scores *)

Section PatternScores.

Lemma apply_rules_score table text st :
  fst (TextAnalyzer.apply_rules table text st)
  = (fst st + matched_weight table text)%Z.
Proof.
  unfold TextAnalyzer.apply_rules, matched_weight, Zsum. revert st.
  induction table as [|r table IH]; intros st; simpl; [lia|].
  rewrite IH. destruct (Regex.test true (TextAnalyzer.pattern r) text); simpl; lia.
Qed.

Lemma matched_weight_negative table text :
  (forall r, In r table -> (TextAnalyzer.weight r < 0)%Z) ->
  (Zsum (map TextAnalyzer.weight table) <= matched_weight table text <= 0)%Z
  /\ (matched_weight table text = 0%Z <-> any_match table text = false).
Proof.
  unfold matched_weight, any_match, Zsum.
  induction table as [|r table IH]; intros Hw; simpl; [split; [lia | tauto]|].
  destruct IH as [IH1 IH2]; [intros; apply Hw; simpl; auto|].
  pose proof (Hw r (or_introl eq_refl)) as Hr.
  destruct (Regex.test true (TextAnalyzer.pattern r) text); simpl.
  - split; [lia|]. split; [lia | discriminate].
  - split; [lia|]. rewrite <- IH2. split; lia.
Qed.

Lemma aiPatterns_negative r :
  In r TextAnalyzer.aiPatterns -> (TextAnalyzer.weight r < 0)%Z.
Proof.
  intros H. unfold TextAnalyzer.aiPatterns in H. simpl in H.
  repeat (destruct H as [<-|H]; [simpl; lia|]). destruct H.
Qed.

Lemma misinfoPatterns_negative r :
  In r TextAnalyzer.misinfoPatterns -> (TextAnalyzer.weight r < 0)%Z.
Proof.
  intros H. unfold TextAnalyzer.misinfoPatterns in H. simpl in H.
  repeat (destruct H as [<-|H]; [simpl; lia|]). destruct H.
Qed.

(** The naturalness score never exceeds its start of 70 and equals 70
    exactly when no AI pattern matches.  The credibility score never exceeds
    85; it exceeds 70 only for a text with a link, a source mention or a
    quotation, and it is at most 70, with a warning, for a text of more than
    500 characters with neither link nor source mention. *)
Theorem pattern_scores_bounds (text : string) :
  let p := TextAnalyzer.analyzePatterns text in
  (5 <= TextAnalyzer.naturalScore p <= 70)%Z
  /\ (TextAnalyzer.naturalScore p = 70%Z
      <-> any_match TextAnalyzer.aiPatterns text = false)
  /\ (5 <= TextAnalyzer.credibilityScore p <= 85)%Z
  /\ ((70 < TextAnalyzer.credibilityScore p)%Z ->
      Regex.test true TextAnalyzer.linksPattern text = true
      \/ Regex.test true TextAnalyzer.sourcePattern text = true
      \/ Regex.test false TextAnalyzer.quotesPattern text = true)
  /\ (Regex.test true TextAnalyzer.linksPattern text = false ->
      Regex.test true TextAnalyzer.sourcePattern text = false ->
      (500 < String.length text)%nat ->
      (TextAnalyzer.credibilityScore p <= 70)%Z
      /\ In "No sources or references cited for claims made"
           (TextAnalyzer.pat_warnings p)).
Proof.
  intros p. subst p. unfold TextAnalyzer.analyzePatterns.
  cbn [TextAnalyzer.naturalScore TextAnalyzer.credibilityScore TextAnalyzer.pat_warnings].
  rewrite !apply_rules_score. cbn [fst].
  destruct (matched_weight_negative TextAnalyzer.aiPatterns text aiPatterns_negative)
    as [[Ha1 Ha2] Ha3].
  destruct (matched_weight_negative TextAnalyzer.misinfoPatterns text
              misinfoPatterns_negative) as [[Hm1 Hm2] _].
  change (Zsum (map TextAnalyzer.weight TextAnalyzer.aiPatterns)) with (-76)%Z in Ha1.
  change (Zsum (map TextAnalyzer.weight TextAnalyzer.misinfoPatterns)) with (-70)%Z in Hm1.
  set (a := matched_weight TextAnalyzer.aiPatterns text) in *.
  set (m := matched_weight TextAnalyzer.misinfoPatterns text) in *.
  split; [unfold clamp; lia|].
  split; [rewrite <- Ha3; unfold clamp; lia|].
  destruct (Regex.test true TextAnalyzer.linksPattern text);
    destruct (Regex.test true TextAnalyzer.sourcePattern text);
    destruct (Regex.test false TextAnalyzer.quotesPattern text);
    cbn [orb andb negb];
    (split; [destruct (500 <? String.length text)%nat; unfold clamp; lia|]);
    (split; [intros H; auto;
             exfalso; destruct (500 <? String.length text)%nat; unfold clamp in H; lia|]);
    intros H1 H2 H3; try discriminate.
  all: apply Nat.ltb_lt in H3; rewrite H3; unfold clamp, TextAnalyzer.push_if;
    split; [lia | apply in_app_iff; right; simpl; auto].
Qed.

Lemma pattern_scores_witness :
  let text := "According to a study published in 2020, the result holds." in
  Regex.test true TextAnalyzer.linksPattern text = true
  \/ Regex.test true TextAnalyzer.sourcePattern text = true
  \/ Regex.test false TextAnalyzer.quotesPattern text = true.
Proof.
  intros text.
  apply (proj1 (proj2 (proj2 (proj2 (pattern_scores_bounds text))))).
  vm_compute. reflexivity.
Defined.

End PatternScores.

(** ** When the text scores are numbers *)

Section TextDefined.
Import JsString.















End TextDefined.

(** ** Sentences of equal length *)

Section UniformSentences.

Lemma fold_Qplus_const (qs : list Q) (c a : Q) :
  (forall x, In x qs -> x == c) ->
  fold_left Qplus qs a == a + inject_Z (Z.of_nat (List.length qs)) * c.
Proof.
  revert a. induction qs as [|x qs IH]; intros a H.
  - simpl. ring.
  - cbn [fold_left List.length]. rewrite IH by (intros; apply H; simpl; auto).
    rewrite (H x) by (simpl; auto). rewrite Nat2Z.inj_succ. unfold Z.succ.
    rewrite inject_Z_plus. ring.
Qed.

Lemma deviations_zero (qs : list Q) (avg a : Q) :
  (forall x, In x qs -> x == avg) -> a == 0 ->
  exists q,
    fold_left (fun sum len => JsNum.add sum (JsNum.pow2 (JsNum.sub len (Fin avg))))
      (map Fin qs) (Fin a) = Fin q /\ q == 0.
Proof.
  revert a. induction qs as [|x qs IH]; intros a H Ha; simpl.
  - eauto.
  - apply IH; [intros; apply H; simpl; auto|].
    rewrite Ha, (H x) by (simpl; auto). ring.
Qed.

(** Sentences of one length have variance zero. *)
Lemma uniform_variance (text : string) (n : nat) :
  uniform_sentences text n ->
  exists q, TextAnalyzer.variance text = Fin q /\ q == 0.
Proof.
  intros [Hne Hall]. unfold TextAnalyzer.variance.
  set (c := inject_Z (Z.of_nat n)).
  assert (Hqs : exists qs, TextAnalyzer.sentenceLengths_of (TextAnalyzer.sentences_of text)
                           = map Fin qs
                           /\ qs <> [] /\ forall x, In x qs -> x == c).
  { exists (map (fun s => inject_Z (Z.of_nat (sentence_length s)))
              (TextAnalyzer.sentences_of text)).
    split; [|split].
    - unfold TextAnalyzer.sentenceLengths_of. now rewrite map_map.
    - destruct (TextAnalyzer.sentences_of text); [congruence | discriminate].
    - intros x Hx. apply in_map_iff in Hx. destruct Hx as [s [<- Hs]].
      rewrite (Hall s Hs). reflexivity. }
  destruct Hqs as [qs [-> [Hq Hc]]].
  assert (Hlen : (0 < List.length qs)%nat) by (destruct qs; [congruence | simpl; lia]).
  assert (Hk : ~ inject_Z (Z.of_nat (List.length qs)) == 0).
  { intros E. unfold Qeq in E. simpl in E. lia. }
  assert (Havg : exists avg, TextAnalyzer.average (map Fin qs) = Fin avg /\ avg == c).
  { unfold TextAnalyzer.average, JsNum.sum, of_Z. rewrite fold_add_fin, length_map.
    rewrite of_nat_as_Fin. unfold JsNum.div. rewrite (of_nat_pos_nonzero _ Hlen).
    eexists. split; [reflexivity|].
    rewrite (fold_Qplus_const qs c _ Hc). change (inject_Z 0) with 0. field. exact Hk. }
  destruct Havg as [avg [-> Havg]].
  unfold TextAnalyzer.mean_square_deviation, of_Z.
  destruct (deviations_zero qs avg (inject_Z 0)) as [q [-> Hq0]];
    [intros x Hx; rewrite Havg; now apply Hc | reflexivity |].
  rewrite length_map, of_nat_as_Fin. unfold JsNum.div.
  rewrite (of_nat_pos_nonzero _ Hlen).
  eexists. split; [reflexivity|]. rewrite Hq0. field. exact Hk.
Qed.

Lemma zero_compare (q : Q) : q == 0 -> (q ?= 0) = Eq.
Proof. intros H. now apply Qeq_alt. Qed.

Lemma round_scaled_zero (c : Z) (q : Q) :
  q == 0 -> round_scaled c (Sqrt (Fin q)) = of_Z 0.
Proof.
  intros H. unfold round_scaled, radicand. rewrite (zero_compare q H).
  rewrite (Qfloor_comp (inject_Z (4 * c * c) * q) 0) by (rewrite H; ring).
  reflexivity.
Qed.

Lemma round_min_scaled_zero (q : Q) :
  q == 0 -> round_min_scaled 8 95 (Sqrt (Fin q)) = of_Z 0.
Proof.
  intros H. unfold round_min_scaled. cbn [radicand]. rewrite (zero_compare q H).
  replace (inject_Z (95 * 95) ?= inject_Z (8 * 8) * q) with Gt.
  - now apply round_scaled_zero.
  - symmetry. apply Qgt_alt. rewrite H. reflexivity.
Qed.

(** A text whose sentences all have the same number of words, a text of one
    sentence in particular, gets the variation score 0, the burstiness label
    Low and both rhythm warnings from the linguistic analysis, and the
    uniformity penalty from the fallback, whose score is then at most 60. *)
Theorem uniform_sentences_penalized (text : string) (n : nat) :
  uniform_sentences text n ->
  let ling := TextAnalyzer.analyzeLinguistics text in
  TextAnalyzer.variationScore ling = of_Z 0
  /\ TextAnalyzer.burstiness ling = "Low"
  /\ In "Low sentence length variation (typical of AI-generated text)"
       (TextAnalyzer.ling_warnings ling)
  /\ In "Unusually consistent writing rhythm" (TextAnalyzer.ling_warnings ling)
  /\ In "Very uniform sentence lengths detected (common in AI text)"
       (TextAnalyzer.fb_warnings (TextAnalyzer.fallbackAIDetection text))
  /\ (TextAnalyzer.fb_score (TextAnalyzer.fallbackAIDetection text) <= 60)%Z.
Proof.
  intros Hu ling. subst ling.
  destruct (uniform_variance text n Hu) as [q [Hv Hq]].
  unfold TextAnalyzer.variance in Hv.
  assert (Hlt : JsNum.lt (TextAnalyzer.variance text) (of_Z 15) = true).
  { unfold TextAnalyzer.variance. rewrite Hv. unfold JsNum.lt, of_Z.
    replace (q ?= inject_Z 15) with Lt; [reflexivity|].
    symmetry. apply Qlt_alt. rewrite Hq. reflexivity. }
  unfold TextAnalyzer.analyzeLinguistics.
  cbn [TextAnalyzer.variationScore TextAnalyzer.burstiness TextAnalyzer.ling_warnings].
  rewrite Hv, (round_scaled_zero 10 q Hq), (round_min_scaled_zero q Hq).
  split; [reflexivity|]. split; [reflexivity|].
  change (JsNum.lt (of_Z 0) (of_Z 35)) with true.
  change (JsNum.lt (JsNum.div (of_Z 0) (of_Z 10)) (of_Z 3)) with true.
  unfold TextAnalyzer.push_if.
  split; [|split; [|split]].
  - destruct (JsNum.lt _ (of_Z 35)); rewrite ?in_app_iff; simpl; auto.
  - destruct (JsNum.lt _ (of_Z 35)); rewrite ?in_app_iff; simpl; auto.
  - unfold TextAnalyzer.fallbackAIDetection. cbn [TextAnalyzer.fb_warnings].
    rewrite Hlt. unfold TextAnalyzer.penalize at 5. cbn [snd app].
    unfold TextAnalyzer.penalize.
    repeat match goal with |- context [if ?c then _ else _] => destruct c end;
      cbn [snd fst]; rewrite ?in_app_iff; simpl; auto 10.
  - rewrite fallback_score. unfold total_penalty, conditions, fold_right.
    pose proof (charge_nonneg text FormalPhrases).
    pose proof (charge_nonneg text LowDiversity).
    pose proof (charge_nonneg text Sensational).
    pose proof (charge_nonneg text Absolutes).
    assert (charge text UniformSentences = 15%Z)
      by (unfold charge, triggered; rewrite Hlt; reflexivity).
    lia.
Qed.

(** One sentence of six words. *)
Lemma uniform_sentences_witness :
  TextAnalyzer.variationScore
    (TextAnalyzer.analyzeLinguistics "This whole text is one sentence")
  = of_Z 0
  /\ (TextAnalyzer.fb_score
        (TextAnalyzer.fallbackAIDetection "This whole text is one sentence") <= 60)%Z.
Proof.
  assert (H : uniform_sentences "This whole text is one sentence" 6).
  { split; [discriminate|]. intros s [<-|[]]. reflexivity. }
  split.
  - apply (proj1 (uniform_sentences_penalized _ 6 H)).
  - apply (uniform_sentences_penalized _ 6 H).
Defined.

End UniformSentences.

(** ** The two rhythm warnings *)

Section RhythmWarnings.

Lemma lt_tenth (k : Z) :
  JsNum.lt (JsNum.div (of_Z k) (of_Z 10)) (of_Z 3) = true -> (k < 30)%Z.
Proof.
  unfold JsNum.div, JsNum.lt, of_Z.
  replace (Qeq_bool (inject_Z 10) 0) with false by reflexivity.
  destruct (Qcompare_spec (inject_Z k / inject_Z 10) (inject_Z 3)) as [E|E|E];
    try discriminate.
  intros _. unfold Qlt in E. simpl in E. lia.
Qed.

Lemma low_burstiness_radicand (q : Q) :
  0 <= q ->
  ((Z.sqrt (Qfloor (inject_Z (4 * 10 * 10) * q)) + 1) / 2 < 30)%Z ->
  inject_Z (4 * 8 * 8) * q < inject_Z 2228.
Proof.
  intros Hq H.
  assert (Hn : (0 <= Qfloor (inject_Z (4 * 10 * 10) * q))%Z).
  { rewrite <- (Qfloor_Z 0). apply Qfloor_resp_le.
    apply Qmult_le_0_compat; [discriminate | exact Hq]. }
  pose proof (Z.sqrt_spec _ Hn) as Hs. cbv zeta in Hs.
  pose proof (Z.sqrt_nonneg (Qfloor (inject_Z (4 * 10 * 10) * q))) as Hs0.
  set (s := Z.sqrt (Qfloor (inject_Z (4 * 10 * 10) * q))) in *.
  assert (Hs58 : (s <= 58)%Z).
  { pose proof (Z.div_mod (s + 1) 2 ltac:(lia)).
    pose proof (Z.mod_pos_bound (s + 1) 2 ltac:(lia)). lia. }
  assert (Hsq : ((s + 1) * (s + 1) <= 59 * 59)%Z)
    by (apply Z.mul_le_mono_nonneg; lia).
  assert (Hfl : (Qfloor (inject_Z (4 * 10 * 10) * q) < 3481)%Z)
    by (unfold Z.succ in Hs; lia).
  assert (H400 : inject_Z (4 * 10 * 10) * q < inject_Z 3481).
  { eapply Qlt_le_trans; [apply Qlt_floor|]. rewrite <- Zle_Qle. lia. }
  clear - H400 Hq. unfold inject_Z in *. simpl in *. lra.
Qed.

(** A burstiness value below 3 leaves a variation score of at most 24. *)
Lemma low_burstiness_low_variation (v : jsnum) :
  JsNum.lt (JsNum.div (round_scaled 10 (Sqrt v)) (of_Z 10)) (of_Z 3) = true ->
  integer_within 0 24 (round_min_scaled 8 95 (Sqrt v)).
Proof.
  destruct v as [q| | |]; try discriminate.
  unfold round_scaled at 1. cbn [radicand].
  destruct (q ?= 0) eqn:E0; try discriminate; intros H; apply lt_tenth in H.
  all: assert (Hq : 0 <= q)
    by (apply Qcompare_not_Lt_le; rewrite E0; discriminate).
  all: pose proof (low_burstiness_radicand q Hq H) as H256.
  all: assert (H64 : inject_Z (8 * 8) * q <= inject_Z (95 * 95))
    by (clear - H256 Hq; unfold inject_Z in *; simpl in *; lra).
  all: unfold round_min_scaled, round_scaled; cbn [radicand]; rewrite E0.
  all: destruct (Qcompare_spec (inject_Z (95 * 95)) (inject_Z (8 * 8) * q)) as [F|F|F];
    try (exfalso; apply (Qlt_not_le _ _ F H64)).
  all: apply within_of_Z.
  all: assert (Hf8 : (0 <= Qfloor (inject_Z (4 * 8 * 8) * q) <= 2227)%Z)
    by (split;
        [ rewrite <- (Qfloor_Z 0); apply Qfloor_resp_le;
          apply Qmult_le_0_compat; [discriminate | exact Hq]
        | apply Z.lt_succ_r; rewrite Zlt_Qlt;
          eapply Qle_lt_trans; [apply Qfloor_le | exact H256] ]).
  all: assert (Hs8 : (0 <= Z.sqrt (Qfloor (inject_Z (4 * 8 * 8) * q)) <= 47)%Z)
    by (split; [apply Z.sqrt_nonneg |
                change 47%Z with (Z.sqrt 2227); apply Z.sqrt_le_mono; lia]).
  all: split; [apply Z.div_pos; lia | apply Z.lt_succ_r, Z.div_lt_upper_bound; lia].
Qed.

(** Whenever the linguistic analysis warns of a consistent writing rhythm
    it also warns of low sentence length variation, and the variation score
    is at most 24. *)
Theorem rhythm_warning_implies_variation_warning (text : string) :
  let ling := TextAnalyzer.analyzeLinguistics text in
  In "Unusually consistent writing rhythm" (TextAnalyzer.ling_warnings ling) ->
  In "Low sentence length variation (typical of AI-generated text)"
    (TextAnalyzer.ling_warnings ling)
  /\ integer_within 0 24 (TextAnalyzer.variationScore ling).
Proof.
  intros ling. subst ling. unfold TextAnalyzer.analyzeLinguistics.
  cbn [TextAnalyzer.ling_warnings TextAnalyzer.variationScore].
  set (v := TextAnalyzer.mean_square_deviation _ _).
  set (voc := JsNum.round (JsNum.min _ _)).
  intros H.
  assert (Hb : JsNum.lt (JsNum.div (round_scaled 10 (Sqrt v)) (of_Z 10)) (of_Z 3) = true).
  { destruct (JsNum.lt (JsNum.div (round_scaled 10 (Sqrt v)) (of_Z 10)) (of_Z 3));
      [reflexivity|].
    unfold TextAnalyzer.push_if at 1 in H.
    repeat (apply push_if_warnings in H; destruct H as [H|H]; [discriminate|]).
    destruct H. }
  pose proof (low_burstiness_low_variation v Hb) as Hw.
  split; [|exact Hw].
  destruct Hw as [z [-> Hz]].
  replace (JsNum.lt (of_Z z) (of_Z 35)) with true.
  - unfold TextAnalyzer.push_if.
    destruct (JsNum.lt _ (of_Z 3)); destruct (JsNum.lt voc (of_Z 35));
      rewrite ?in_app_iff; simpl; auto 10.
  - symmetry. unfold JsNum.lt, of_Z. rewrite Qcompare_inject_Z.
    destruct (Z.compare_spec z 35); try reflexivity; lia.
Qed.

Lemma rhythm_witness :
  In "Low sentence length variation (typical of AI-generated text)"
    (TextAnalyzer.ling_warnings
       (TextAnalyzer.analyzeLinguistics "One two three. Four five six seven. Eight nine.")).
Proof.
  apply (rhythm_warning_implies_variation_warning
           "One two three. Four five six seven. Eight nine.").
  vm_compute. auto.
Defined.

End RhythmWarnings.

(** ** The requests of a remote call *)

Section Requests.
Import Http.

Lemma retries_succ req n :
  retries req (S n) = Fetch req :: Sleep 20000 :: retries req n.
Proof. reflexivity. Qed.

Lemma image_single_request model accepts o net binaryData apiKey :
  loading_failure o = false ->
  trace (ImageAnalyzer.detect model accepts (o :: net) binaryData apiKey)
  = [Fetch (ImageAnalyzer.image_request model binaryData apiKey)].
Proof.
  intros H. destruct o as [|response]; [reflexivity|].
  simpl in H. destruct (ok response) eqn:Hok; simpl in H.
  - cbn [ImageAnalyzer.detect]. rewrite Hok.
    destruct (json response); reflexivity.
  - now rewrite image_failure_step.
Qed.

(** An image detector sends the same request again and again, waiting 20
    seconds in between, once for every response at the head of the script
    that reports a loading model, and once more; it does nothing else. *)
Theorem image_detector_trace model accepts net binaryData apiKey :
  trace (ImageAnalyzer.detect model accepts net binaryData apiKey)
  = retries (ImageAnalyzer.image_request model binaryData apiKey)
      (leading loading_failure net)
    ++ [Fetch (ImageAnalyzer.image_request model binaryData apiKey)].
Proof.
  induction net as [|o net IH]; [reflexivity|].
  cbn [leading]. destruct (loading_failure o) eqn:E.
  - rewrite image_retry_step by exact E. unfold trace at 1. cbn [snd].
    rewrite IH, retries_succ. reflexivity.
  - now apply image_single_request.
Qed.

Lemma text_single_request o net alt text apiKey :
  loading_success o = false ->
  trace (TextAnalyzer.detectAIContent (o :: net) alt text apiKey)
  = Fetch (TextAnalyzer.text_request TextAnalyzer.primary_url text apiKey)
      :: (if is_failure (Some o)
          then [Fetch (TextAnalyzer.text_request TextAnalyzer.alternate_url text apiKey)]
          else []).
Proof.
  intros H. destruct o as [|response]; [reflexivity|].
  simpl in H. cbn [is_failure]. destruct (ok response) eqn:Hok; simpl in H.
  - cbn [TextAnalyzer.detectAIContent negb]. rewrite Hok. cbn [negb].
    unfold loading_body in H.
    destruct (json response) as [[msg|items|first rest| |]|]; try reflexivity.
    unfold is_loading in H.
    destruct (JsString.is_empty msg); [reflexivity|]. simpl in H. rewrite H.
    reflexivity.
  - now rewrite text_failure_step.
Qed.

(** The text detector sends its request to the primary model once for every
    response at the head of the script that reports loading within a
    success, waiting 20 seconds after each, and once more; it then asks the
    alternate model once exactly when the response it stopped on is not a
    success. *)
Theorem text_detector_trace net alt text apiKey :
  trace (TextAnalyzer.detectAIContent net alt text apiKey)
  = retries (TextAnalyzer.text_request TextAnalyzer.primary_url text apiKey)
      (leading loading_success net)
    ++ Fetch (TextAnalyzer.text_request TextAnalyzer.primary_url text apiKey)
       :: (if is_failure (stopping loading_success net)
           then [Fetch (TextAnalyzer.text_request TextAnalyzer.alternate_url text apiKey)]
           else []).
Proof.
  induction net as [|o net IH]; [reflexivity|].
  cbn [leading stopping]. destruct (loading_success o) eqn:E.
  - rewrite text_retry_step by exact E. unfold trace at 1. cbn [snd].
    rewrite IH, retries_succ. reflexivity.
  - now apply text_single_request.
Qed.

End Requests.

(** ** What the application sends *)

Section Application.
Import Http.

Lemma take_length (n : nat) (s : string) :
  String.length (JsString.take n s) = Nat.min n (String.length s).
Proof.
  revert s. induction n as [|n IH]; intros s; [reflexivity|].
  destruct s as [|c s]; simpl; [reflexivity|]. now rewrite IH.
Qed.

Lemma take_starts (n : nat) (s : string) : starts (JsString.take n s) s.
Proof.
  revert s. induction n as [|n IH]; intros s; [now exists s|].
  destruct s as [|c s]; [now exists ""|].
  destruct (IH s) as [rest E]. exists rest. simpl. now rewrite <- E.
Qed.

Lemma requests_app (t u : list event) : requests (t ++ u) = requests t ++ requests u.
Proof. unfold requests. now rewrite flat_map_app. Qed.

Lemma requests_retries req n r : In r (requests (retries req n)) -> r = req.
Proof.
  induction n as [|n IH]; [intros []|].
  rewrite retries_succ. simpl. intros [H|H]; auto.
Qed.

Lemma text_analyze_trace net alt text apiKey :
  trace (TextAnalyzer.analyze net alt text apiKey)
  = trace (TextAnalyzer.detectAIContent net alt text apiKey).
Proof.
  unfold TextAnalyzer.analyze, bind, ret, trace.
  destruct (TextAnalyzer.detectAIContent net alt text apiKey). simpl.
  apply app_nil_r.
Qed.

Lemma text_requests net alt text apiKey r :
  In r (requests (trace (TextAnalyzer.detectAIContent net alt text apiKey))) ->
  r = TextAnalyzer.text_request TextAnalyzer.primary_url text apiKey
  \/ r = TextAnalyzer.text_request TextAnalyzer.alternate_url text apiKey.
Proof.
  induction net as [|o net IH]; [simpl; intros [<-|[]]; auto|].
  destruct (loading_success o) eqn:E.
  - rewrite text_retry_step by exact E. unfold trace at 1. cbn [snd].
    simpl. intros [<-|H]; auto.
  - rewrite text_single_request by exact E.
    destruct (is_failure (Some o)); simpl; intros H;
      repeat (destruct H as [<-|H]; [auto|]); destruct H.
Qed.

(** [analyzeText] analyses the trimmed input, and only when it is at least
    50 characters long and an API key is stored: otherwise it sends nothing
    and renders nothing.  Every request it sends goes to one of the two text
    models, carries the stored key as bearer credential and, as input, a
    beginning of the trimmed text that is 50 to 2000 characters long. *)
Theorem analyzeText_requests net alt input apiKey :
  let text := JsString.trim input in
  let c := App.analyzeText net alt input apiKey in
  ((exists v results, result c = App.Rendered v results)
   <-> (50 <= String.length text)%nat /\ apiKey <> "")
  /\ ((String.length text < 50)%nat \/ apiKey = "" -> trace c = [])
  /\ (forall req, In req (requests (trace c)) ->
        (url req = TextAnalyzer.primary_url \/ url req = TextAnalyzer.alternate_url)
        /\ authorization req = ("Bearer " ++ apiKey)%string
        /\ apiKey <> ""
        /\ exists inputs,
             payload_of req = JsonInputs inputs
             /\ starts inputs text
             /\ (50 <= String.length inputs <= 2000)%nat).
Proof.
  intros text c. subst c. unfold App.analyzeText. fold text.
  assert (Hempty : JsString.is_empty text = true -> String.length text = 0%nat)
    by (destruct text; [reflexivity | discriminate]).
  assert (Hkey : App.checkApiKey apiKey = true <-> apiKey <> "").
  { unfold App.checkApiKey. destruct apiKey; simpl; split; congruence. }
  destruct (JsString.is_empty text) eqn:Ee.
  { specialize (Hempty eq_refl). split; [|split].
    - split; [intros [v [r [=]]] | intros [H _]; lia].
    - reflexivity.
    - intros req []. }
  destruct (Nat.ltb_spec (String.length text) 50) as [Hl|Hl].
  { split; [|split].
    - split; [intros [v [r [=]]] | intros [H _]; lia].
    - reflexivity.
    - intros req []. }
  destruct (App.checkApiKey apiKey) eqn:Ek; cbn [negb].
  2:{ split; [|split].
      - split; [intros [v [r [=]]] | intros [_ H]; apply Hkey in H; congruence].
      - reflexivity.
      - intros req []. }
  pose proof (proj1 Hkey eq_refl) as Hk.
  pose proof (text_analyze_trace net alt text apiKey) as Ht.
  unfold bind, ret, result, trace in *.
  destruct (TextAnalyzer.analyze net alt text apiKey) as [results tr]. cbn [fst snd] in *.
  rewrite app_nil_r. split; [|split].
  - split; [intros _; split; [lia | exact Hk] | intros _; eauto].
  - intros [H|H]; [lia | congruence].
  - intros req Hreq. rewrite Ht in Hreq.
    assert (Hp : (50 <= String.length (JsString.take 2000 text) <= 2000)%nat)
      by (rewrite take_length; lia).
    destruct (text_requests net alt text apiKey req Hreq) as [-> | ->];
      (split; [auto|]); (split; [reflexivity|]); (split; [exact Hk|]);
      exists (JsString.take 2000 text);
      (split; [reflexivity|]); (split; [apply take_starts | exact Hp]).
Qed.

Lemma analyzeText_witness :
  trace (App.analyzeText [] [] "   too short   " "hf_key") = []
  /\ exists v results,
       result (App.analyzeText [] []
                 "  This sentence is long enough to pass the length check of the page.  "
                 "hf_key")
       = App.Rendered v results.
Proof.
  split.
  - apply (proj1 (proj2 (analyzeText_requests [] [] "   too short   " "hf_key"))).
    left. vm_compute. lia.
  - apply (proj1 (analyzeText_requests [] [] _ "hf_key")).
    split; [vm_compute; lia | discriminate].
Defined.

End Application.

(** ** Parsing a classification *)

Section Parsing.
Import Http.

Lemma image_scan_last accepts pre it post :
  accepts (ImageAnalyzer.label_of it) = true ->
  (forall x, In x post -> accepts (ImageAnalyzer.label_of x) = false) ->
  ImageAnalyzer.scan accepts (pre ++ it :: post) = percent it.
Proof.
  intros Hit Hpost. unfold ImageAnalyzer.scan. rewrite fold_left_app. simpl.
  rewrite Hit. clear Hit. induction post as [|x post IH]; [reflexivity|].
  simpl. rewrite (Hpost x) by (simpl; auto). apply IH.
  intros. apply Hpost. simpl. auto.
Qed.

Lemma text_scan_last accepts pre it post l s :
  (forall x, In x pre -> label x <> None) ->
  label it = Some l -> accepts (JsString.toLowerCase l) = true ->
  (forall x, In x post ->
     exists l', label x = Some l' /\ accepts (JsString.toLowerCase l') = false) ->
  TextAnalyzer.scan accepts (pre ++ it :: post) s = Some (percent it).
Proof.
  intros Hpre Hl Hacc Hpost. revert s.
  induction pre as [|x pre IH]; intros s.
  - simpl. rewrite Hl, Hacc. now apply text_scan_no_match.
  - simpl. destruct (label x) eqn:E; [|exfalso; apply (Hpre x); simpl; auto].
    destruct (accepts (JsString.toLowerCase s0)); apply IH;
      intros; apply Hpre; simpl; auto.
Qed.

(** When several entries of a response carry an accepted label, the last of
    them decides the score: the result is the one the detector gives for the
    response that holds this entry alone.  This holds in the image detectors
    for a flat array, and in the two text models for a flat array and for
    the first element of a nested one, when every entry carries a label. *)
Theorem last_accepted_label_wins :
  (forall model accepts net binaryData apiKey response pre it post,
     ok response = true ->
     json response = Some (BFlat (pre ++ it :: post)) ->
     accepts (ImageAnalyzer.label_of it) = true ->
     (forall x, In x post -> accepts (ImageAnalyzer.label_of x) = false) ->
     result (ImageAnalyzer.detect model accepts (Responded response :: net)
               binaryData apiKey)
     = result (ImageAnalyzer.detect model accepts
                 (Responded (with_items response [it]) :: net) binaryData apiKey))
  /\ (forall net alt text apiKey response pre it post rest l,
        ok response = true ->
        json response = Some (BFlat (pre ++ it :: post))
        \/ json response = Some (BNested (pre ++ it :: post) rest) ->
        (forall x, In x pre -> label x <> None) ->
        label it = Some l ->
        TextAnalyzer.primary_label (JsString.toLowerCase l) = true ->
        (forall x, In x post ->
           exists l', label x = Some l'
                      /\ TextAnalyzer.primary_label (JsString.toLowerCase l') = false) ->
        result (TextAnalyzer.detectAIContent (Responded response :: net) alt text apiKey)
        = result (TextAnalyzer.detectAIContent
                    (Responded (with_items response [it]) :: net) alt text apiKey))
  /\ (forall alt text apiKey response pre it post rest l,
        ok response = true ->
        json response = Some (BFlat (pre ++ it :: post))
        \/ json response = Some (BNested (pre ++ it :: post) rest) ->
        (forall x, In x pre -> label x <> None) ->
        label it = Some l ->
        TextAnalyzer.alternate_label (JsString.toLowerCase l) = true ->
        (forall x, In x post ->
           exists l', label x = Some l'
                      /\ TextAnalyzer.alternate_label (JsString.toLowerCase l') = false) ->
        result (TextAnalyzer.tryAlternateModel (Responded response :: alt) text apiKey)
        = result (TextAnalyzer.tryAlternateModel
                    (Responded (with_items response [it]) :: alt) text apiKey)).
Proof.
  split; [|split].
  - intros model accepts net binaryData apiKey response pre it post Hok Hj Hit Hpost.
    rewrite (image_success_step _ _ _ _ _ _ _ Hok Hj).
    rewrite (image_success_step _ _ (with_items response [it]) _ _ _ (BFlat [it]))
      by (exact Hok || reflexivity).
    unfold result, fst. do 2 f_equal. cbn [ImageAnalyzer.parse].
    rewrite (image_scan_last accepts pre it post Hit Hpost).
    symmetry. apply (image_scan_last accepts [] it [] Hit). intros x [].
  - intros net alt text apiKey response pre it post rest l Hok Hj Hpre Hl Hacc Hpost.
    assert (Hone : TextAnalyzer.scan TextAnalyzer.primary_label [it] (of_Z 50)
                   = Some (percent it)).
    { apply (text_scan_last _ [] it [] l); auto; intros x []. }
    cbn [TextAnalyzer.detectAIContent with_items ok json]. rewrite Hok. cbn [negb].
    rewrite Hone.
    destruct Hj as [-> | ->];
      rewrite (text_scan_last _ pre it post l _ Hpre Hl Hacc Hpost); reflexivity.
  - intros alt text apiKey response pre it post rest l Hok Hj Hpre Hl Hacc Hpost.
    assert (Hone : TextAnalyzer.scan TextAnalyzer.alternate_label [it] (of_Z 50)
                   = Some (percent it)).
    { apply (text_scan_last _ [] it [] l); auto; intros x []. }
    unfold TextAnalyzer.tryAlternateModel. cbn [with_items ok json]. rewrite Hok.
    cbn [negb]. rewrite Hone.
    destruct Hj as [-> | ->];
      rewrite (text_scan_last _ pre it post l _ Hpre Hl Hacc Hpost); reflexivity.
Qed.

Lemma last_label_witness :
  let last := Item (Some "unrealistic") (Fin (2 # 10)) in
  result (ImageAnalyzer.detectAIGenerated
            [Responded (Response true 200
               (Some (BFlat ([Item (Some "Real") (Fin (9 # 10))]
                             ++ last :: [Item (Some "fake") (Fin (1 # 10))]))))]
            [] "hf_key")
  = result (ImageAnalyzer.detectAIGenerated
              [Responded (Response true 200 (Some (BFlat [last])))] [] "hf_key")
  /\ result (TextAnalyzer.detectAIContent
               [Responded (Response true 200
                  (Some (BNested ([Item (Some "LABEL_1") (Fin (9 # 10))]
                                  ++ Item (Some "Real") (Fin (2 # 10))
                                  :: [Item (Some "Fake") (Fin (8 # 10))]) [])))]
               [] "Some text under test." "hf_key")
     = result (TextAnalyzer.detectAIContent
                 [Responded (Response true 200
                    (Some (BFlat [Item (Some "Real") (Fin (2 # 10))])))]
                 [] "Some text under test." "hf_key").
Proof.
  intros last. split.
  - unfold ImageAnalyzer.detectAIGenerated.
    apply (proj1 last_accepted_label_wins _ _ _ _ _
             (Response true 200 _) [Item (Some "Real") (Fin (9 # 10))] last
             [Item (Some "fake") (Fin (1 # 10))]).
    + reflexivity.
    + reflexivity.
    + reflexivity.
    + intros x [<-|[]]. reflexivity.
  - apply (proj1 (proj2 last_accepted_label_wins) _ _ _ _
             (Response true 200 _) [Item (Some "LABEL_1") (Fin (9 # 10))]
             (Item (Some "Real") (Fin (2 # 10)))
             [Item (Some "Fake") (Fin (8 # 10))] [] "Real").
    + reflexivity.
    + right. reflexivity.
    + intros x [<-|[]]. discriminate.
    + reflexivity.
    + reflexivity.
    + intros x [<-|[]]. exists "Fake". split; reflexivity.
Defined.



End Parsing.

(** ** The page *)

Section Page.

(** A result row is coloured by the band of its score: green for the band
    of the verdict authentic, amber for suspicious, red for fake, for every
    score, NaN included. *)
Theorem row_colour_follows_banding :
  forall s, App.getScoreColor s = App.meter_color (banding s).
Proof.
  intros s. unfold App.getScoreColor, banding.
  destruct (JsNum.gt s (JsNum.of_Z 70)); [reflexivity|].
  destruct (JsNum.gt s (JsNum.of_Z 40)); reflexivity.
Qed.

(** The typing animation keeps its variables in step.  The start state is
    in step; from a state in step, one call of [type()] shows a prefix of
    the current word whose length is the new character index, waits 50, 100,
    500 or 2000 ms, and leaves a state in step.  The index never leaves the
    word and never goes below zero. *)
Theorem typing_stays_in_step :
  typing_ok App.typing_start
  /\ forall st, typing_ok st ->
       let '(textContent, speed, st') := App.type st in
       let currentWord := nth (App.wordIndex st) App.typing_words EmptyString in
       typing_ok st'
       /\ starts textContent currentWord
       /\ Z.of_nat (String.length textContent) = App.charIndex st'
       /\ (0 <= App.charIndex st' <= Z.of_nat (String.length currentWord))%Z
       /\ In speed [50; 100; 500; 2000]%Z.
Proof.
  split; [split; [simpl; lia | simpl; lia]|].
  intros [w c d] [Hw Hc]. cbn [App.wordIndex App.charIndex App.isDeleting] in *.
  assert (Hcases : (w = 0 \/ w = 1 \/ w = 2 \/ w = 3)%nat) by (simpl in Hw; lia).
  unfold App.type. cbn [App.wordIndex App.charIndex App.isDeleting].
  set (word := nth w App.typing_words EmptyString) in *.
  assert (Hlen : (8 <= Z.of_nat (String.length word))%Z).
  { subst word. destruct Hcases as [-> | [-> | [-> | ->]]]; simpl; lia. }
  set (len := Z.of_nat (String.length word)) in *.
  destruct d; cbn [negb andb fst snd].
  - destruct (Z.eqb_spec (c - 1) 0) as [E|E].
    + assert (Hn : ((w + 1) mod List.length App.typing_words < 4)%nat)
        by (apply Nat.mod_upper_bound; discriminate).
      remember ((w + 1) mod List.length App.typing_words)%nat as w' eqn:Ew.
      clear Ew.
      repeat split;
        try exact Hn; try apply take_starts;
        try (rewrite take_length; cbn [App.charIndex]; lia);
        try (simpl; auto 6; fail);
        cbn [App.wordIndex App.charIndex App.isDeleting]; try lia.
      assert ((w' = 0 \/ w' = 1 \/ w' = 2 \/ w' = 3)%nat) as [-> | [-> | [-> | ->]]] by lia;
        simpl; lia.
    + repeat split;
        try exact Hw; try apply take_starts;
        try (rewrite take_length; cbn [App.charIndex]; lia);
        try (simpl; auto 6; fail);
        cbn [App.wordIndex App.charIndex App.isDeleting];
        try fold word; try fold len; lia.
  - destruct (Z.eqb_spec (c + 1) len) as [E|E];
      repeat split;
        try exact Hw; try apply take_starts;
        try (rewrite take_length; cbn [App.charIndex]; lia);
        try (simpl; auto 6; fail);
        cbn [App.wordIndex App.charIndex App.isDeleting];
        try fold word; try fold len; lia.
Qed.

Lemma typing_witness :
  typing_ok (App.Typing 3 1 true)
  /\ let '(textContent, speed, st') := App.type (App.Typing 3 1 true) in
     typing_ok st' /\ textContent = EmptyString /\ speed = 500%Z
     /\ st' = App.Typing 0 0 false.
Proof.
  assert (H : typing_ok (App.Typing 3 1 true)) by (split; simpl; lia).
  split; [exact H|].
  pose proof (proj2 typing_stays_in_step (App.Typing 3 1 true) H) as P.
  cbv in P |- *. destruct P as [P _].
  split; [exact P | repeat split].
Defined.

End Page.

(** ** The requests of the image pipeline *)

Section ImageRequests.
Import Http.

Lemma image_detect_requests model accepts net binaryData apiKey :
  requests (trace (ImageAnalyzer.detect model accepts net binaryData apiKey))
  = repeat (ImageAnalyzer.image_request model binaryData apiKey)
      (S (leading loading_failure net)).
Proof.
  induction net as [|o net IH]; [reflexivity|].
  cbn [leading]. destruct (loading_failure o) eqn:E.
  - rewrite image_retry_step by exact E. unfold trace at 1. cbn [snd].
    change (requests (Fetch ?r :: Sleep ?ms :: ?t)) with (r :: requests t).
    rewrite IH. reflexivity.
  - rewrite image_single_request by exact E. reflexivity.
Qed.

Lemma image_analyze_trace aiNet dfNet loaded canvas imageData apiKey :
  trace (ImageAnalyzer.analyze aiNet dfNet loaded canvas imageData apiKey)
  = trace (ImageAnalyzer.detectAIGenerated aiNet (ImageAnalyzer.bytes imageData) apiKey)
    ++ trace (ImageAnalyzer.detectDeepfake dfNet (ImageAnalyzer.bytes imageData) apiKey).
Proof.
  unfold ImageAnalyzer.analyze, bind, ret, trace.
  destruct (ImageAnalyzer.detectAIGenerated aiNet (ImageAnalyzer.bytes imageData) apiKey).
  destruct (ImageAnalyzer.detectDeepfake dfNet (ImageAnalyzer.bytes imageData) apiKey).
  simpl. now rewrite app_nil_r.
Qed.

(** The image pipeline asks both models, whatever they answer and whatever
    the file is: each model receives one request, and one more for every
    loading report at the head of its responses.  Every request carries the
    whole file as its body, the key as bearer credential and no content
    type. *)
Theorem image_analyze_requests aiNet dfNet loaded canvas imageData apiKey :
  let rs := requests (trace (ImageAnalyzer.analyze aiNet dfNet loaded canvas
                               imageData apiKey)) in
  let ask model := ImageAnalyzer.image_request model (ImageAnalyzer.bytes imageData)
                     apiKey in
  rs = repeat (ask ImageAnalyzer.aiImageDetector) (S (leading loading_failure aiNet))
       ++ repeat (ask ImageAnalyzer.deepfakeDetector) (S (leading loading_failure dfNet))
  /\ forall r, In r rs ->
       payload_of r = Binary (ImageAnalyzer.bytes imageData)
       /\ authorization r = ("Bearer " ++ apiKey)%string
       /\ content_type r = None
       /\ (url r = (API_URL ++ ImageAnalyzer.aiImageDetector)%string
           \/ url r = (API_URL ++ ImageAnalyzer.deepfakeDetector)%string).
Proof.
  intros rs ask.
  assert (E : rs = repeat (ask ImageAnalyzer.aiImageDetector)
                     (S (leading loading_failure aiNet))
                   ++ repeat (ask ImageAnalyzer.deepfakeDetector)
                        (S (leading loading_failure dfNet))).
  { subst rs ask. rewrite image_analyze_trace, requests_app.
    unfold ImageAnalyzer.detectAIGenerated, ImageAnalyzer.detectDeepfake.
    now rewrite !image_detect_requests. }
  split; [exact E|].
  intros r Hr. rewrite E in Hr. apply in_app_or in Hr.
  destruct Hr as [Hr|Hr]; apply repeat_spec in Hr; subst r; subst ask;
    repeat split; auto.
Qed.

Lemma image_requests_witness :
  let imageData := ImageAnalyzer.ImageFile "image/png" 3 [Byte.x89; Byte.x50; Byte.x4e] in
  let r := ImageAnalyzer.image_request ImageAnalyzer.deepfakeDetector
             (ImageAnalyzer.bytes imageData) "hf_key" in
  payload_of r = Binary (ImageAnalyzer.bytes imageData)
  /\ authorization r = "Bearer hf_key"
  /\ content_type r = None
  /\ (url r = (API_URL ++ ImageAnalyzer.aiImageDetector)%string
      \/ url r = (API_URL ++ ImageAnalyzer.deepfakeDetector)%string).
Proof.
  intros imageData r.
  apply (proj2 (image_analyze_requests [Rejected] [] None None imageData "hf_key") r).
  simpl. auto.
Defined.

End ImageRequests.

(** ** The range of the image score *)

Section ImageRange.

Lemma image_detected_score model accepts net binaryData apiKey :
  accepts "" = false ->
  (forall it, In it (net_items net) -> probability it) ->
  forall fallback, (0 <= fallback <= 100)%Z ->
  exists z, (0 <= z <= 100)%Z
    /\ match Http.result (ImageAnalyzer.detect model accepts net binaryData apiKey) with
       | Some v => ImageAnalyzer.realScore v
       | None => of_Z fallback
       end = of_Z z.
Proof.
  intros Hacc Hp fallback Hf.
  destruct (Http.result (ImageAnalyzer.detect model accepts net binaryData apiKey))
    as [v|] eqn:E.
  - destruct (image_detect_preserves (integer_within 0 100) model accepts net
                binaryData apiKey v Hacc within_50)
      as [z [Hz Hr]]; [|exact E|exists z; auto].
    intros it Hit. apply percent_of_probability, Hp, Hit.
  - exists fallback. auto.
Qed.

(** When the scores the two models return are probabilities, the
    authenticity score of an image is an integer from 28 to 82, whatever the
    models answer and whatever the file is: the three local rows keep it out
    of both extremes. *)
Theorem image_overall_range aiNet dfNet loaded canvas imageData apiKey :
  (forall it, In it (net_items aiNet ++ net_items dfNet) -> probability it) ->
  integer_within 28 82
    (ImageAnalyzer.authenticityScore
       (Http.result (ImageAnalyzer.analyze aiNet dfNet loaded canvas imageData apiKey))).
Proof.
  intros Hp. rewrite image_analyze_result.
  pose proof (metadata_tight imageData loaded) as [Hi Hm].
  pose proof (pixel_tight canvas) as Hx.
  destruct (image_detected_score ImageAnalyzer.aiImageDetector ImageAnalyzer.ai_label
              aiNet (ImageAnalyzer.bytes imageData) apiKey eq_refl
              (fun it H => Hp it (proj2 (in_app_iff _ _ _) (or_introl H))) 60%Z)
    as [a [Ha Ea]]; [lia|].
  destruct (image_detected_score ImageAnalyzer.deepfakeDetector ImageAnalyzer.deepfake_label
              dfNet (ImageAnalyzer.bytes imageData) apiKey eq_refl
              (fun it H => Hp it (proj2 (in_app_iff _ _ _) (or_intror H))) 70%Z)
    as [d [Hd Ed]]; [lia|].
  fold ImageAnalyzer.detectAIGenerated in Ea. fold ImageAnalyzer.detectDeepfake in Ed.
  rewrite image_overall, image_breakdown.
  rewrite (overall_of_integers _
             [a; d;
              ImageAnalyzer.integrityScore (ImageAnalyzer.analyzeMetadata imageData loaded);
              ImageAnalyzer.metadataScore (ImageAnalyzer.analyzeMetadata imageData loaded);
              ImageAnalyzer.pixel_score (ImageAnalyzer.analyzePixelPatterns canvas)]%Z).
  - apply within_of_Z. cbn [Zsum fold_right List.length].
    change (Z.of_nat 5) with 5%Z. split.
    + apply Z.div_le_lower_bound; lia.
    + apply Z.lt_succ_r, Z.div_lt_upper_bound; lia.
  - destruct (Http.result (ImageAnalyzer.detectAIGenerated aiNet _ apiKey)) as [v|];
      destruct (Http.result (ImageAnalyzer.detectDeepfake dfNet _ apiKey)) as [w|];
      cbn in Ea, Ed |- *; rewrite <- ?Ea, <- ?Ed; reflexivity.
  - discriminate.
Qed.

Lemma image_range_witness :
  integer_within 28 82
    (ImageAnalyzer.authenticityScore
       (Http.result
          (ImageAnalyzer.analyze
             [Http.Responded (Http.Response true 200
                (Some (Http.BFlat [Http.Item (Some "human") (Fin 1)])))]
             [Http.Responded (Http.Response true 200
                (Some (Http.BFlat [Http.Item (Some "Real") (Fin 1)])))]
             None None (ImageAnalyzer.ImageFile "image/png" 2000000 []) "hf_key"))).
Proof.
  apply image_overall_range.
  intros it [<-|[<-|[]]]; exists 1; (split; [reflexivity|]); split; discriminate.
Defined.

End ImageRange.

(** ** Warnings are never repeated *)

Section DistinctWarnings.

Lemma sub_empty {A} (m : list A) : subsequence [] m.
Proof. induction m; constructor; auto. Qed.

Lemma sub_refl {A} (m : list A) : subsequence m m.
Proof. induction m; [apply sub_nil | apply sub_keep; auto]. Qed.

Lemma sub_app {A} (l1 m1 l2 m2 : list A) :
  subsequence l1 m1 -> subsequence l2 m2 -> subsequence (l1 ++ l2) (m1 ++ m2).
Proof.
  intros H1 H2. induction H1; simpl; [exact H2 | apply sub_skip | apply sub_keep]; auto.
Qed.

Lemma sub_extend {A} (l m k : list A) : subsequence l m -> subsequence l (m ++ k).
Proof.
  intros H. rewrite <- (app_nil_r l). apply sub_app; [exact H | apply sub_empty].
Qed.

Lemma distinct_NoDup (l : list string) : nodup string_dec l = l -> NoDup l.
Proof. intros E. rewrite <- E. apply NoDup_nodup. Qed.

Lemma sub_In {A} (l m : list A) (x : A) : subsequence l m -> In x l -> In x m.
Proof.
  intros H. induction H; simpl; auto.
  intros [->|Hx]; auto.
Qed.

Lemma sub_NoDup {A} (l m : list A) : subsequence l m -> NoDup m -> NoDup l.
Proof.
  intros H. induction H; intros Hm; auto.
  - inversion Hm; subst. auto.
  - inversion Hm; subst. constructor; auto.
    intros Hx. eapply sub_In in Hx; eauto.
Qed.

Lemma sub_if {A} (c : bool) (x : A) : subsequence (if c then [x] else []) [x].
Proof. destruct c; [apply sub_refl | apply sub_empty]. Qed.

Lemma of_list_fixed (l : list string) : NoDup l -> JsSet.of_list l = l.
Proof.
  induction l as [|x l IH] using rev_ind; [reflexivity|].
  intros H. rewrite of_list_snoc.
  apply NoDup_remove in H. rewrite app_nil_r in H. destruct H as [Hl Hx].
  rewrite (IH Hl). unfold JsSet.add. now rewrite (has_false x l Hx).
Qed.

Lemma penalize_app cond p m st :
  snd (TextAnalyzer.penalize cond p m st) = snd st ++ (if cond then [m] else []).
Proof.
  unfold TextAnalyzer.penalize. destruct cond; [reflexivity|].
  now rewrite app_nil_r.
Qed.

Lemma push_if_app cond m ws :
  TextAnalyzer.push_if cond m ws = ws ++ (if cond then [m] else []).
Proof.
  unfold TextAnalyzer.push_if. destruct cond; [reflexivity|].
  now rewrite app_nil_r.
Qed.

Lemma apply_rules_app table text st :
  snd (TextAnalyzer.apply_rules table text st) = snd st ++ matched_warnings table text.
Proof.
  unfold TextAnalyzer.apply_rules, matched_warnings. revert st.
  induction table as [|r table IH]; intros st; simpl; [now rewrite app_nil_r|].
  rewrite IH. destruct (Regex.test true (TextAnalyzer.pattern r) text); [|reflexivity].
  simpl. destruct (TextAnalyzer.msg r); [|reflexivity].
  now rewrite <- app_assoc.
Qed.

Lemma matched_warnings_sub table text :
  subsequence (matched_warnings table text)
    (flat_map (fun r => match TextAnalyzer.msg r with Some w => [w] | None => [] end)
       table).
Proof.
  unfold matched_warnings. induction table as [|r table IH]; [constructor|].
  simpl. apply sub_app; [|exact IH].
  destruct (Regex.test true (TextAnalyzer.pattern r) text);
    [apply sub_refl | apply sub_empty].
Qed.

Lemma fallback_warnings_sub (text : string) :
  subsequence (TextAnalyzer.fb_warnings (TextAnalyzer.fallbackAIDetection text))
    ["Very uniform sentence lengths detected (common in AI text)";
     "Excessive use of formal transitional phrases";
     "Low vocabulary diversity detected";
     "Sensationalist language patterns detected (potential misinformation)";
     "Excessive use of absolute/superlative language"].
Proof.
  unfold TextAnalyzer.fallbackAIDetection. cbn [TextAnalyzer.fb_warnings].
  rewrite !penalize_app. cbn [snd].
  repeat match goal with |- context [if ?c then _ else _] => destruct c end;
    cbn [app]; repeat (apply sub_keep || apply sub_skip || apply sub_nil).
Qed.

Lemma linguistics_warnings_sub (text : string) :
  subsequence (TextAnalyzer.ling_warnings (TextAnalyzer.analyzeLinguistics text))
    ["Low sentence length variation (typical of AI-generated text)";
     "Limited vocabulary diversity";
     "Unusually consistent writing rhythm"].
Proof.
  unfold TextAnalyzer.analyzeLinguistics. cbn [TextAnalyzer.ling_warnings].
  rewrite !push_if_app.
  repeat match goal with |- context [if ?c then _ else _] => destruct c end;
    cbn [app]; repeat (apply sub_keep || apply sub_skip || apply sub_nil).
Qed.

Lemma patterns_warnings_sub (text : string) :
  subsequence (TextAnalyzer.pat_warnings (TextAnalyzer.analyzePatterns text))
    ["Contains AI self-reference";
     "Contains AI refusal patterns";
     ("Uses common AI vocabulary (" ++ dquote ++ "delve" ++ dquote ++ ")")%string;
     "Uses generic temporal phrases";
     "Contains viral sharing prompts";
     "Contains conspiracy language";
     "Makes absolute claims without sourcing";
     "Uses manipulation language";
     "Uses anti-establishment rhetoric";
     "No sources or references cited for claims made"].
Proof.
  unfold TextAnalyzer.analyzePatterns. cbn [TextAnalyzer.pat_warnings].
  rewrite push_if_app, !apply_rules_app. cbn [snd app].
  apply (sub_app _ (_ :: _ :: _ :: _ :: _ :: _ :: _ :: _ :: [_]) _ [_]);
    [|apply sub_if].
  apply (sub_app _ (_ :: _ :: _ :: [_]) _ (_ :: _ :: _ :: _ :: [_]));
    apply matched_warnings_sub.
Qed.

Lemma text_merged_NoDup net alt text apiKey :
  NoDup (TextSources.merged text
           (Fulfilled (Http.result (TextAnalyzer.detectAIContent net alt text apiKey)))
           (Fulfilled (TextAnalyzer.analyzeLinguistics text))
           (Fulfilled (TextAnalyzer.analyzePatterns text))).
Proof.
  unfold TextSources.merged.
  cbn [TextSources.ai_warnings TextSources.ling_warnings_of TextSources.pat_warnings_of].
  pose proof (fallback_warnings_sub text) as Hf.
  pose proof (linguistics_warnings_sub text) as Hl.
  pose proof (patterns_warnings_sub text) as Hp.
  set (fw := TextAnalyzer.fb_warnings (TextAnalyzer.fallbackAIDetection text)) in *.
  set (lw := TextAnalyzer.ling_warnings (TextAnalyzer.analyzeLinguistics text)) in *.
  set (pw := TextAnalyzer.pat_warnings (TextAnalyzer.analyzePatterns text)) in *.
  clearbody fw lw pw.
  assert (Ha : subsequence
                 (match Http.result (TextAnalyzer.detectAIContent net alt text apiKey) with
                  | Some value =>
                      if JsNum.lt (TextAnalyzer.humanScore value) (of_Z 40)
                      then [TextSources.machine_warning] else []
                  | None => fw
                  end)
                 ([TextSources.machine_warning]
                  ++ ["Very uniform sentence lengths detected (common in AI text)";
                      "Excessive use of formal transitional phrases";
                      "Low vocabulary diversity detected";
                      "Sensationalist language patterns detected (potential misinformation)";
                      "Excessive use of absolute/superlative language"])).
  { destruct (Http.result (TextAnalyzer.detectAIContent net alt text apiKey)) as [v|].
    - apply sub_extend, sub_if.
    - apply (sub_app [] [_]); [apply sub_empty | exact Hf]. }
  eapply sub_NoDup; [exact (sub_app _ _ _ _ Ha (sub_app _ _ _ _ Hl Hp))|].
  clear. apply distinct_NoDup. vm_compute. reflexivity.
Qed.

Lemma metadata_warnings_sub imageData loaded :
  exists dims,
    subsequence (ImageAnalyzer.meta_warnings (ImageAnalyzer.analyzeMetadata imageData loaded))
      ["Very small file size may indicate heavy compression or modification";
       ("Image dimensions (" ++ dims)%string;
       "Perfect square dimensions common in AI-generated images"].
Proof.
  unfold ImageAnalyzer.analyzeMetadata. destruct loaded as [img|].
  - eexists. cbn [ImageAnalyzer.meta_warnings]. rewrite !push_if_app.
    repeat match goal with |- context [if ?c then _ else _] => destruct c end;
      cbn [app]; repeat (apply sub_keep || apply sub_skip || apply sub_nil).
  - exists EmptyString. cbn [ImageAnalyzer.meta_warnings]. rewrite !push_if_app.
    repeat match goal with |- context [if ?c then _ else _] => destruct c end;
      cbn [app]; repeat (apply sub_keep || apply sub_skip || apply sub_nil).
Qed.

Lemma pixel_warnings_sub canvas :
  subsequence (ImageAnalyzer.pixel_warnings (ImageAnalyzer.analyzePixelPatterns canvas))
    ["Unusually smooth color distribution (potential AI generation indicator)";
     "Low edge density detected (possible over-smoothing)";
     "Repeating pixel patterns detected"].
Proof.
  destruct canvas as [img|]; [|apply sub_empty].
  unfold ImageAnalyzer.analyzePixelPatterns.
  destruct (ImageAnalyzer.repeatCount img) as [repeats sampleSize].
  cbn [ImageAnalyzer.pixel_warnings]. rewrite !penalize_app. cbn [snd].
  repeat match goal with |- context [if ?c then _ else _] => destruct c end;
    cbn [app]; repeat (apply sub_keep || apply sub_skip || apply sub_nil).
Qed.

Lemma image_merged_sub aiNet dfNet loaded canvas imageData apiKey :
  exists dims,
    subsequence
      (ImageSources.merged
         (Fulfilled (Http.result (ImageAnalyzer.detectAIGenerated aiNet
                                    (ImageAnalyzer.bytes imageData) apiKey)))
         (Fulfilled (Http.result (ImageAnalyzer.detectDeepfake dfNet
                                    (ImageAnalyzer.bytes imageData) apiKey)))
         (Fulfilled (ImageAnalyzer.analyzeMetadata imageData loaded))
         (ImageAnalyzer.analyzePixelPatterns canvas))
      (["Image shows strong indicators of AI generation"]
       ++ ["Deepfake indicators detected in the image"]
       ++ ["Very small file size may indicate heavy compression or modification";
           ("Image dimensions (" ++ dims)%string;
           "Perfect square dimensions common in AI-generated images"]
       ++ ["Unusually smooth color distribution (potential AI generation indicator)";
           "Low edge density detected (possible over-smoothing)";
           "Repeating pixel patterns detected"]).
Proof.
  destruct (metadata_warnings_sub imageData loaded) as [dims Hm]. exists dims.
  unfold ImageSources.merged.
  cbn [ImageSources.ai_warnings ImageSources.deepfake_warnings
       ImageSources.meta_warnings_of].
  repeat apply sub_app.
  - destruct (Http.result (ImageAnalyzer.detectAIGenerated _ _ _));
      [apply sub_if | apply sub_empty].
  - destruct (Http.result (ImageAnalyzer.detectDeepfake _ _ _));
      [apply sub_if | apply sub_empty].
  - exact Hm.
  - apply pixel_warnings_sub.
Qed.

Lemma image_messages_NoDup (dims : string) :
  NoDup (["Image shows strong indicators of AI generation"]
         ++ ["Deepfake indicators detected in the image"]
         ++ ["Very small file size may indicate heavy compression or modification";
             ("Image dimensions (" ++ dims)%string;
             "Perfect square dimensions common in AI-generated images"]
         ++ ["Unusually smooth color distribution (potential AI generation indicator)";
             "Low edge density detected (possible over-smoothing)";
             "Repeating pixel patterns detected"]).
Proof.
  cbn [app String.append].
  repeat (constructor;
          [cbn [In]; intros H;
           repeat (destruct H as [H|H]; [discriminate H|]); exact H|]).
  constructor.
Qed.

(** No source of either pipeline repeats a warning of its own or of another
    source, so the conversion through a set removes nothing: the warnings
    of a report are the warnings of its sources in source order.  The
    warning of the image fallback is never among them. *)
Theorem warnings_are_never_dropped :
  (forall net alt text apiKey,
     TextAnalyzer.warnings (Http.result (TextAnalyzer.analyze net alt text apiKey))
     = TextSources.merged text
         (Fulfilled (Http.result (TextAnalyzer.detectAIContent net alt text apiKey)))
         (Fulfilled (TextAnalyzer.analyzeLinguistics text))
         (Fulfilled (TextAnalyzer.analyzePatterns text)))
  /\ (forall aiNet dfNet loaded canvas imageData apiKey,
        let ws := ImageAnalyzer.warnings
                    (Http.result (ImageAnalyzer.analyze aiNet dfNet loaded canvas
                                    imageData apiKey)) in
        ws = ImageSources.merged
               (Fulfilled (Http.result (ImageAnalyzer.detectAIGenerated aiNet
                                          (ImageAnalyzer.bytes imageData) apiKey)))
               (Fulfilled (Http.result (ImageAnalyzer.detectDeepfake dfNet
                                          (ImageAnalyzer.bytes imageData) apiKey)))
               (Fulfilled (ImageAnalyzer.analyzeMetadata imageData loaded))
               (ImageAnalyzer.analyzePixelPatterns canvas)
        /\ JsSet.has (hd EmptyString (snd ImageAnalyzer.fallbackImageAnalysis)) ws
           = false).
Proof.
  split.
  - intros net alt text apiKey.
    rewrite text_analyze_result, text_warnings.
    apply of_list_fixed, text_merged_NoDup.
  - intros aiNet dfNet loaded canvas imageData apiKey ws. subst ws.
    rewrite image_analyze_result, image_warnings.
    destruct (image_merged_sub aiNet dfNet loaded canvas imageData apiKey)
      as [dims Hs].
    rewrite of_list_fixed
      by (eapply sub_NoDup; [exact Hs | apply image_messages_NoDup]).
    split; [reflexivity|]. apply has_false.
    intros H. apply (sub_In _ _ _ Hs) in H. cbn [app String.append In hd snd
      ImageAnalyzer.fallbackImageAnalysis] in H.
    repeat (destruct H as [H|H]; [discriminate H|]). exact H.
Qed.

End DistinctWarnings.
